(** * Fira: the file-system-backed task repository of [fira/web/mini-server.py]

    A shallow embedding of the repository core of the Fira task tracker
    (class [ProjectManager] and the task-file methods of
    [FiraRequestHandler]) together with the properties its specification
    states about it.

    Conventions of the embedding.
    - Python [str] is [string]; characters are taken from the ASCII range,
      codes above 127 behave as uncased symbols that are not whitespace.
    - JSON-like values are [pyval]; a Python [dict] read with [.get] is an
      association list, a later binding of a key being shadowed by the
      first one.
    - The directory tree below the base directory is a [node]; a directory
      lists its entries in [iterdir] order.  A [pathlib] path is the list of
      its components; strings joined to a path are relative and free of
      [..] components.
    - [datetime.now().isoformat()] is the parameter [now] of the operations
      that stamp a time.
    - An operation that can leave through an exception returns an
      [outcome]. *)

From Stdlib Require Import List String Ascii Bool Arith ZArith Lia.
From Stdlib Require Import DecimalString Floats SpecFloat Sorted.
Import ListNotations.
Local Open Scope list_scope.
Local Open Scope string_scope.

(** ** Python strings *)

Module Str.

Definition newline : ascii := "010"%char.

(** [str.isspace] on one ASCII character.  The blanks beyond ASCII, which
    Python strips as well, lie outside the embedding: see [portable]. *)
Definition is_space (c : ascii) : bool :=
  let n := nat_of_ascii c in
  ((9 <=? n)%nat && (n <=? 13)%nat) || ((28 <=? n)%nat && (n <=? 32)%nat).

Definition is_quote (c : ascii) : bool :=
  (c =? "039")%char || (c =? "034")%char.

(** [s.startswith(pre)] *)
Definition startswith (s pre : string) : bool := String.prefix pre s.

Fixpoint drop (n : nat) (s : string) : string :=
  match n, s with
  | O, _ => s
  | S n', String _ s' => drop n' s'
  | S _, EmptyString => EmptyString
  end.

(** [s.endswith(suf)] *)
Definition endswith (s suf : string) : bool :=
  (String.length suf <=? String.length s)%nat &&
  (drop (String.length s - String.length suf) s =? suf).

(** [sub in s] *)
Fixpoint contains (sub s : string) : bool :=
  String.prefix sub s ||
  match s with
  | EmptyString => false
  | String _ s' => contains sub s'
  end.

(** The text before and after the first occurrence of [sep] in [s]
    ([str.partition] without the separator), [None] when there is none. *)
Fixpoint split_once (sep s : string) : option (string * string) :=
  if String.prefix sep s then Some (EmptyString, drop (String.length sep) s)
  else match s with
       | EmptyString => None
       | String c s' =>
           match split_once sep s' with
           | Some (a, b) => Some (String c a, b)
           | None => None
           end
       end.

(** The number of occurrences of a non-empty [sep] in [s], counted from the
    left without overlap, as [split] finds them. *)
Fixpoint occurrences_upto (fuel : nat) (sep s : string) : nat :=
  match fuel with
  | O => O
  | S k =>
      match split_once sep s with
      | Some (_, rest) => S (occurrences_upto k sep rest)
      | None => O
      end
  end.

Definition occurrences (sep s : string) : nat :=
  occurrences_upto (S (String.length s)) sep s.

(** [s.split(sep, maxsplit)] for a non-empty [sep]. *)
Fixpoint split_max (sep : string) (maxsplit : nat) (s : string) : list string :=
  match maxsplit with
  | O => [s]
  | S k =>
      match split_once sep s with
      | Some (a, b) => a :: split_max sep k b
      | None => [s]
      end
  end.

(** [s.split(c)] for a one-character separator. *)
Fixpoint split_char (c : ascii) (s : string) : list string :=
  match s with
  | EmptyString => [EmptyString]
  | String a s' =>
      if (a =? c)%char then EmptyString :: split_char c s'
      else match split_char c s' with
           | h :: t => String a h :: t
           | [] => [String a EmptyString]
           end
  end.

(** [sep.join(parts)] *)
Definition join (sep : string) (parts : list string) : string :=
  String.concat sep parts.

Fixpoint lstrip_by (p : ascii -> bool) (s : string) : string :=
  match s with
  | EmptyString => EmptyString
  | String c s' => if p c then lstrip_by p s' else s
  end.

Fixpoint rstrip_by (p : ascii -> bool) (s : string) : string :=
  match s with
  | EmptyString => EmptyString
  | String c s' =>
      match rstrip_by p s' with
      | EmptyString => if p c then EmptyString else String c EmptyString
      | r => String c r
      end
  end.

Definition strip_by (p : ascii -> bool) (s : string) : string :=
  rstrip_by p (lstrip_by p s).

(** [s.strip()] *)
Definition strip : string -> string := strip_by is_space.

(** [s.strip] with the two quote characters as argument. *)
Definition strip_quotes : string -> string := strip_by is_quote.

Definition is_upper (c : ascii) : bool :=
  let n := nat_of_ascii c in (65 <=? n)%nat && (n <=? 90)%nat.
Definition is_lower (c : ascii) : bool :=
  let n := nat_of_ascii c in (97 <=? n)%nat && (n <=? 122)%nat.
Definition to_lower (c : ascii) : ascii :=
  if is_upper c then ascii_of_nat (nat_of_ascii c + 32) else c.
Definition to_upper (c : ascii) : ascii :=
  if is_lower c then ascii_of_nat (nat_of_ascii c - 32) else c.

Fixpoint map_chars (f : ascii -> ascii) (s : string) : string :=
  match s with
  | EmptyString => EmptyString
  | String c s' => String (f c) (map_chars f s')
  end.

(** [s.lower()] *)
Definition lower : string -> string := map_chars to_lower.

(** [s.replace] of every dash by a space. *)
Definition dash_to_space : string -> string :=
  map_chars (fun c => if (c =? "-")%char then " "%char else c).

(** [s.title()]: a cased character is upper-cased right after an uncased
    one (or at the start) and lower-cased after a cased one. *)
Fixpoint title_from (prev_cased : bool) (s : string) : string :=
  match s with
  | EmptyString => EmptyString
  | String c s' =>
      let cased := is_upper c || is_lower c in
      String (if prev_cased then to_lower c else to_upper c) (title_from cased s')
  end.
Definition title : string -> string := title_from false.

(** Python truth value of a string. *)
Definition nonempty (s : string) : bool :=
  match s with EmptyString => false | _ => true end.

End Str.

(** ** Python values and dictionaries *)

Inductive pyval : Type :=
| PNone
| PStr (s : string)
| PBool (b : bool)
| PInt (z : Z).

(** [bool(v)] *)
Definition truthy (v : pyval) : bool :=
  match v with
  | PNone => false
  | PStr s => Str.nonempty s
  | PBool b => b
  | PInt z => negb (z =? 0)%Z
  end.

(** The text an f-string puts for [v]. *)
Definition fmt (v : pyval) : string :=
  match v with
  | PNone => "None"
  | PStr s => s
  | PBool true => "True"
  | PBool false => "False"
  | PInt z => NilZero.string_of_int (Z.to_int z)
  end.

Definition dict : Type := list (string * pyval).

(** [d.get(k)] with [None] for a missing key. *)
Fixpoint get (d : dict) (k : string) : pyval :=
  match d with
  | [] => PNone
  | (k', v) :: d' => if (k' =? k)%string then v else get d' k
  end.

(** [k in d] *)
Fixpoint has_key (d : dict) (k : string) : bool :=
  match d with
  | [] => false
  | (k', _) :: d' => (k' =? k)%string || has_key d' k
  end.

(** [d.get(k, default)] *)
Definition get_or (d : dict) (k : string) (default : pyval) : pyval :=
  if has_key d k then get d k else default.

(** An operation either returns or leaves through an exception. *)
Inductive outcome (A : Type) : Type :=
| Return (a : A)
| Raise.
Arguments Return {A} a.
Arguments Raise {A}.

(** ** The directory tree *)

(** The bytes of a file: text that decodes as UTF-8, or bytes on which
    [read_text(encoding='utf-8')] raises. *)
Inductive contents : Type :=
| Text (s : string)
| Undecodable.

#[local] Unset Elimination Schemes.
Inductive node : Type :=
| File (c : contents)
| Dir (entries : list (string * node)).
#[local] Set Elimination Schemes.

Definition path : Type := list string.

Module Fs.

Fixpoint assoc (x : string) (es : list (string * node)) : option node :=
  match es with
  | [] => None
  | (y, c) :: es' => if (y =? x)%string then Some c else assoc x es'
  end.

(** Replace the entry called [x], or add it after the others. *)
Fixpoint set_entry (x : string) (c : node) (es : list (string * node))
  : list (string * node) :=
  match es with
  | [] => [(x, c)]
  | (y, d) :: es' =>
      if (y =? x)%string then (x, c) :: es' else (y, d) :: set_entry x c es'
  end.

Fixpoint remove_entry (x : string) (es : list (string * node))
  : list (string * node) :=
  match es with
  | [] => []
  | (y, d) :: es' =>
      if (y =? x)%string then es' else (y, d) :: remove_entry x es'
  end.

(** The components of a relative path given as text: [pathlib] drops empty
    components and single dots.  A [..] component is kept as a name and a
    leading slash is dropped, where the file system resolves the one and
    [pathlib] restarts at the root for the other: the embedding is that of
    the strings that [relative_name] holds of. *)
Definition components (s : string) : path :=
  filter (fun c => negb (c =? "")%string && negb (c =? ".")%string)
         (Str.split_char "/" s).

(** [p / s] *)
Definition joinpath (p : path) (s : string) : path := (p ++ components s)%list.

(** [p.name] *)
Definition name (p : path) : string := last p "".

Fixpoint lookup (p : path) (n : node) : option node :=
  match p with
  | [] => Some n
  | x :: p' =>
      match n with
      | File _ => None
      | Dir es =>
          match assoc x es with
          | Some c => lookup p' c
          | None => None
          end
      end
  end.

(** [p.exists()] *)
Definition exists_ (p : path) (n : node) : bool :=
  match lookup p n with Some _ => true | None => false end.

(** [p.is_dir()] *)
Definition is_dir (p : path) (n : node) : bool :=
  match lookup p n with Some (Dir _) => true | _ => false end.

(** [p.read_text(encoding='utf-8')]; [None] stands for the exception
    (missing file, directory, bytes that do not decode).  The text is given
    back as it was written, which is so for a text without carriage
    return: see [portable]. *)
Definition read_text (p : path) (n : node) : option string :=
  match lookup p n with Some (File (Text s)) => Some s | _ => None end.

(** The names [p.iterdir()] yields; [None] when [p] is not a directory. *)
Definition iterdir (p : path) (n : node) : option (list string) :=
  match lookup p n with Some (Dir es) => Some (map fst es) | _ => None end.

(** [p.write_text(s)]: the parent must be a directory and [p] must not be
    one; [None] stands for the exception, which leaves the tree as it was. *)
Fixpoint write_text (p : path) (s : string) (n : node) : option node :=
  match n with
  | File _ => None
  | Dir es =>
      match p with
      | [] => None
      | x :: p' =>
          match p' with
          | [] =>
              match assoc x es with
              | Some (Dir _) => None
              | _ => Some (Dir (set_entry x (File (Text s)) es))
              end
          | _ :: _ =>
              match assoc x es with
              | Some c =>
                  match write_text p' s c with
                  | Some c' => Some (Dir (set_entry x c' es))
                  | None => None
                  end
              | None => None
              end
          end
      end
  end.

(** [p.unlink()]: [p] must be a file. *)
Fixpoint unlink (p : path) (n : node) : option node :=
  match n with
  | File _ => None
  | Dir es =>
      match p with
      | [] => None
      | x :: p' =>
          match p' with
          | [] =>
              match assoc x es with
              | Some (File _) => Some (Dir (remove_entry x es))
              | _ => None
              end
          | _ :: _ =>
              match assoc x es with
              | Some c =>
                  match unlink p' c with
                  | Some c' => Some (Dir (set_entry x c' es))
                  | None => None
                  end
              | None => None
              end
          end
      end
  end.

(** [p.mkdir(parents=True, exist_ok=True)]: raises only when a component
    of [p] is a file, and then nothing has been created. *)
Fixpoint mkdir_p (p : path) (n : node) : option node :=
  match p with
  | [] => match n with Dir _ => Some n | File _ => None end
  | x :: p' =>
      match n with
      | File _ => None
      | Dir es =>
          match mkdir_p p' (match assoc x es with Some c => c | None => Dir [] end) with
          | Some c' => Some (Dir (set_entry x c' es))
          | None => None
          end
      end
  end.

(** [p.mkdir(parents=True, exist_ok=False)] *)
Definition mkdir_new (p : path) (n : node) : option node :=
  if exists_ p n then None else mkdir_p p n.

(** The names of the paths [p.rglob('*.md')] yields below the node [n]: every
    entry, file or directory, at any depth, whose name ends in [.md]. *)
Fixpoint rglob_md (n : node) : list string :=
  match n with
  | File _ => []
  | Dir es =>
      flat_map (fun '(x, c) =>
                  ((if Str.endswith x ".md" then [x] else []) ++ rglob_md c)%list) es
  end.

(** The tree [n] with the node at the path [p] replaced by [c]. *)
Fixpoint put (p : path) (c : node) (n : node) : node :=
  match p with
  | [] => c
  | x :: p' =>
      match n with
      | File _ => n
      | Dir es =>
          match assoc x es with
          | Some d => Dir (set_entry x (put p' c d) es)
          | None => n
          end
      end
  end.

(** The number of regular files called [f] at any depth below [n]. *)
Fixpoint count_named (f : string) (n : node) : nat :=
  match n with
  | File _ => 0
  | Dir es =>
      list_sum (map (fun '(x, c) =>
                       (match c with
                        | File _ => if (x =? f)%string then 1 else 0
                        | Dir _ => 0
                        end + count_named f c)%nat) es)
  end.

End Fs.

(** ** Texts and names within the conventions of the embedding *)

(** A character that a file gives back as it was written and that Python
    treats as the embedding does: an ASCII character other than the
    carriage return, which a read in text mode turns into a line feed. *)
Definition portable_char (c : ascii) : bool :=
  (nat_of_ascii c <? 128)%nat && negb (nat_of_ascii c =? 13)%nat.

Fixpoint all_chars (p : ascii -> bool) (s : string) : bool :=
  match s with
  | EmptyString => true
  | String c s' => p c && all_chars p s'
  end.

Definition portable (s : string) : bool := all_chars portable_char s.

(** The first and the last character of a string. *)
Definition head_is (p : ascii -> bool) (s : string) : bool :=
  match s with
  | EmptyString => false
  | String c _ => p c
  end.

Fixpoint last_is (p : ascii -> bool) (s : string) : bool :=
  match s with
  | EmptyString => false
  | String c EmptyString => p c
  | String _ s' => last_is p s'
  end.

(** Neither end of the string is a character that [p] holds of. *)
Definition edge_free (p : ascii -> bool) (s : string) : bool :=
  negb (head_is p s) && negb (last_is p s).

(** A string that [pathlib] joins to a directory component by component,
    as [Fs.joinpath] does: it is not absolute and has no [..] component. *)
Definition relative_name (s : string) : bool :=
  negb (Str.startswith s "/") &&
  negb (existsb (fun c => (c =? "..")%string) (Str.split_char "/" s)).

(** ** ProjectManager *)

(** The content of [wip-config.json] as [check_wip_limit] reads it: the
    limits by status ([None] for a JSON null), and the two settings of
    [wip_warnings], each [None] when the file does not give it. *)
Record wip_config : Type := {
  wip_limits : list (string * option Z);
  block_on_limit : option bool;
  warning_threshold : option float
}.

(** [wip_limits.get(status)] *)
Fixpoint limit_of (limits : list (string * option Z)) (status : string)
  : option Z :=
  match limits with
  | [] => None
  | (k, v) :: rest => if (k =? status)%string then v else limit_of rest status
  end.

(** The double nearest to 0.8, the default warning threshold. *)
Definition default_threshold : float := 0x1.999999999999ap-1%float.

(** Conversion of a Python [int] to a [float] as the product of an [int]
    and a [float] performs it: rounding to the nearest double, and
    [OverflowError] beyond the range of the doubles. *)
Definition float_of_int (z : Z) : float :=
  SF2Prim (binary_normalize prec emax z 0 false).

Definition int_to_float (z : Z) : outcome float :=
  if (Z.abs z <? 2 ^ 1024 - 2 ^ 970)%Z then Return (float_of_int z) else Raise.

(** [n >= x] for an [int] and a [float]: Python compares the exact values. *)
Definition int_ge_float (n : Z) (x : float) : bool :=
  match Prim2SF x with
  | S754_zero _ => (0 <=? n)%Z
  | S754_infinity s => s
  | S754_nan => false
  | S754_finite s m e =>
      let v := if s then Z.neg m else Z.pos m in
      if (0 <=? e)%Z then (v * 2 ^ e <=? n)%Z else (v <=? n * 2 ^ (- e))%Z
  end.

Definition not_readme (nm : string) : bool := negb (nm =? "README.md")%string.

(** The paths counted by the loop over [status_path.rglob('*.md')]. *)
Definition counted_paths (status_path : path) (fs : node) : list string :=
  match Fs.lookup status_path fs with
  | Some n => filter not_readme (Fs.rglob_md n)
  | None => []
  end.

Definition wip_result : Type := (bool * Z * option Z * bool)%type.

(** [wip_warnings.get('block_on_limit', False)] *)
Definition block_setting (cfg : wip_config) : bool :=
  match block_on_limit cfg with Some b => b | None => false end.

(** [wip_warnings.get('warning_threshold', 0.8)] *)
Definition threshold_setting (cfg : wip_config) : float :=
  match warning_threshold cfg with Some w => w | None => default_threshold end.

(** The configuration [load_wip_config] returns when there is no file. *)
Definition default_wip_config : wip_config :=
  {| wip_limits := [ ("backlog", None); ("progress", Some 5%Z);
                     ("review", Some 3%Z); ("testing", Some 4%Z);
                     ("done", None) ];
     block_on_limit := None;
     warning_threshold := None |}.

Definition check_wip_limit (cfg : wip_config) (fs : node)
    (project_id status : string) : outcome wip_result :=
  match limit_of (wip_limits cfg) status with
  | None => Return (true, 0%Z, None, false)
  | Some limit =>
      let project_path := Fs.joinpath [] project_id in
      if negb (Fs.exists_ project_path fs)
      then Return (true, 0%Z, Some limit, false)
      else
        let status_path := Fs.joinpath project_path status in
        if negb (Fs.exists_ status_path fs)
        then Return (true, 0%Z, Some limit, false)
        else
          let current_count := Z.of_nat (List.length (counted_paths status_path fs)) in
          let block := block_setting cfg in
          let threshold := threshold_setting cfg in
          match int_to_float limit with
          | Raise => Raise
          | Return l =>
              let is_warning := int_ge_float current_count (PrimFloat.mul l threshold) in
              let is_blocked := block && (limit <=? current_count)%Z in
              Return (negb is_blocked, current_count, Some limit, is_warning)
          end
  end.



(** *** Cumulative-flow snapshots *)

(** One snapshot of [take_cfd_snapshot]: the day, the instant, and the task
    count of each state. *)
Record snapshot : Type := {
  s_date : string;
  s_timestamp : string;
  s_backlog : Z;
  s_progress : Z;
  s_review : Z;
  s_testing : Z;
  s_done : Z
}.

(** Equality of two snapshots as Python compares the two dictionaries. *)
Definition snapshot_eqb (a b : snapshot) : bool :=
  (s_date a =? s_date b)%string && (s_timestamp a =? s_timestamp b)%string &&
  (s_backlog a =? s_backlog b)%Z && (s_progress a =? s_progress b)%Z &&
  (s_review a =? s_review b)%Z && (s_testing a =? s_testing b)%Z &&
  (s_done a =? s_done b)%Z.

(** [l.index(x)]; [None] stands for [ValueError]. *)
Fixpoint index_of (x : snapshot) (l : list snapshot) : option nat :=
  match l with
  | [] => None
  | y :: l' =>
      if snapshot_eqb y x then Some O
      else match index_of x l' with Some i => Some (S i) | None => None end
  end.

(** [l[i] = x] for an index within the list. *)
Fixpoint list_set (i : nat) (x : snapshot) (l : list snapshot) : list snapshot :=
  match l, i with
  | [], _ => []
  | _ :: l', O => x :: l'
  | y :: l', S j => y :: list_set j x l'
  end.

(** [l.sort(key=lambda x: x['date'])]: the stable sort by date, dates
    compared as Python compares strings.  An element goes in front of the
    first one whose date is not smaller, so equal dates keep their order. *)
Fixpoint insert_by_date (x : snapshot) (l : list snapshot) : list snapshot :=
  match l with
  | [] => [x]
  | y :: l' =>
      if String.leb (s_date x) (s_date y) then x :: y :: l'
      else y :: insert_by_date x l'
  end.

Definition sort_by_date (l : list snapshot) : list snapshot :=
  fold_right insert_by_date [] l.

Definition max_days : nat := 90.

(** The branch of [store_cfd_snapshot] that replaces the snapshot of the
    same day or appends the new one; [None] stands for the [ValueError] of
    [index]. *)
Definition updated_history (h : list snapshot) (snap : snapshot)
  : option (list snapshot) :=
  let today := s_date snap in
  let existing := filter (fun s => (s_date s =? today)%string) h in
  match existing with
  | e :: _ =>
      match index_of e h with
      | Some index => Some (list_set index snap h)
      | None => None
      end
  | [] => Some (h ++ [snap])%list
  end.

(** [h[-max_days:]] when [h] is longer than [max_days]. *)
Definition keep_latest (h : list snapshot) : list snapshot :=
  if (max_days <? List.length h)%nat
  then skipn (List.length h - max_days) h
  else h.

(** The history of one project after [store_cfd_snapshot]; [None] when the
    body leaves through an exception. *)
Definition store_history (h : list snapshot) (snap : snapshot)
  : option (list snapshot) :=
  match updated_history h snap with
  | None => None
  | Some h1 => Some (keep_latest (sort_by_date h1))
  end.

Definition cfd_data : Type := list (string * list snapshot).

Fixpoint cfd_get (d : cfd_data) (project_id : string) : option (list snapshot) :=
  match d with
  | [] => None
  | (k, h) :: d' => if (k =? project_id)%string then Some h else cfd_get d' project_id
  end.

Fixpoint cfd_set (d : cfd_data) (project_id : string) (h : list snapshot) : cfd_data :=
  match d with
  | [] => [(project_id, h)]
  | (k, h') :: d' =>
      if (k =? project_id)%string then (k, h) :: d'
      else (k, h') :: cfd_set d' project_id h
  end.

(** The history [get_cfd_data] finds for a project. *)
Definition history_of (d : cfd_data) (project_id : string) : list snapshot :=
  match cfd_get d project_id with Some h => h | None => [] end.

(** [store_cfd_snapshot]: the data handed to [save_cfd_data] (the loaded
    data when the body raised) and the value returned. *)
Definition store_cfd_snapshot (d : cfd_data) (project_id : string)
    (snap : snapshot) : cfd_data * bool :=
  match store_history (history_of d project_id) snap with
  | Some h => (cfd_set d project_id h, true)
  | None => (d, false)
  end.

(** The update of the specification: the first entry of the day of [snap]
    is replaced by [snap], or [snap] is appended when there is none. *)
Fixpoint upsert (snap : snapshot) (h : list snapshot) : list snapshot :=
  match h with
  | [] => [snap]
  | y :: h' =>
      if (s_date y =? s_date snap)%string then snap :: h' else y :: upsert snap h'
  end.

(** The number of entries of a history for the day [d]. *)
Definition count_date (d : string) (h : list snapshot) : nat :=
  List.length (filter (fun s => (s_date s =? d)%string) h).

(** Two neighbours of a history in ascending order of date. *)
Definition date_le (a b : snapshot) : Prop :=
  String.leb (s_date a) (s_date b) = true.

(** The days of the year 2024 as [strftime('%Y-%m-%d')] writes them, for
    the scenarios. *)
Definition two_digits (n : nat) : string :=
  String (ascii_of_nat (48 + n / 10)) (String (ascii_of_nat (48 + n mod 10)) "").

Fixpoint date_in_2024 (months : list nat) (month day : nat) : string :=
  match months with
  | [] => "2024-12-31"
  | len :: rest =>
      if (day <? len)%nat
      then "2024-" ++ two_digits month ++ "-" ++ two_digits (S day)
      else date_in_2024 rest (S month) (day - len)
  end.

Definition day_2024 (n : nat) : string :=
  date_in_2024 [31; 29; 31; 30; 31; 30; 31; 31; 30; 31; 30; 31]%nat 1 n.

(** A snapshot taken on day [n] of 2024 with [k] tasks in the backlog. *)
Definition snapshot_on (n : nat) (k : Z) : snapshot :=
  {| s_date := day_2024 n;
     s_timestamp := day_2024 n ++ "T09:00:00+00:00";
     s_backlog := k; s_progress := 0; s_review := 0; s_testing := 0; s_done := 0 |}.

(** The data after one [store_cfd_snapshot] per day for the days in [days],
    in that order. *)
Definition store_days (project_id : string) (days : list nat) (d : cfd_data)
  : cfd_data :=
  fold_left (fun acc n => fst (store_cfd_snapshot acc project_id (snapshot_on n 1)))
            days d.

(** *** Projects *)

Definition columns : list string :=
  ["backlog"; "inprogress"; "review"; "done"; "testing"].

Definition default_dev : string := "default-dev".

(** The loop of [create_project] over the standard columns; the flag is
    false when a [mkdir] raised. *)
Fixpoint make_columns (project_path : path) (cols : list string) (fs : node)
  : node * bool :=
  match cols with
  | [] => (fs, true)
  | col :: rest =>
      let col_path := Fs.joinpath project_path col in
      match Fs.mkdir_p col_path fs with
      | None => (fs, false)
      | Some fs1 =>
          match Fs.mkdir_p (Fs.joinpath col_path default_dev) fs1 with
          | None => (fs1, false)
          | Some fs2 => make_columns project_path rest fs2
          end
      end
  end.

(** [create_project]: the tree afterwards and the success flag of the pair
    it returns (the message is left out).  A project id that is not a
    string leaves through [TypeError] when it is joined to the base
    directory. *)
Definition create_project (fs : node) (project_data : dict) : node * outcome bool :=
  let project_id := get project_data "id" in
  if negb (truthy project_id) then (fs, Return false)
  else
    match project_id with
    | PStr pid =>
        let project_path := Fs.joinpath [] pid in
        if Fs.exists_ project_path fs then (fs, Return false)
        else
          match Fs.mkdir_new project_path fs with
          | None => (fs, Return false)
          | Some fs1 =>
              let description :=
                get_or project_data "description" (PStr ("Project " ++ pid)) in
              let readme_file := Fs.joinpath project_path "README.md" in
              match Fs.write_text readme_file
                      ("# " ++ fmt description ++ String Str.newline "") fs1 with
              | None => (fs1, Return false)
              | Some fs2 =>
                  let (fs3, ok) := make_columns project_path columns fs2 in
                  (fs3, Return ok)
              end
          end
    | _ => (fs, Raise)
    end.

(** The directory [create_project] leaves for a project described by
    [description]. *)
Definition project_skeleton (description : string) : node :=
  Dir [ ("README.md", File (Text ("# " ++ description ++ String Str.newline "")));
        ("backlog", Dir [ (default_dev, Dir []) ]);
        ("inprogress", Dir [ (default_dev, Dir []) ]);
        ("review", Dir [ (default_dev, Dir []) ]);
        ("done", Dir [ (default_dev, Dir []) ]);
        ("testing", Dir [ (default_dev, Dir []) ]) ].

(** The description [create_project] writes. *)
Definition project_description (project_data : dict) (pid : string) : string :=
  fmt (get_or project_data "description" (PStr ("Project " ++ pid))).

(** *** The task record codec *)

(** The frontmatter read from a file: keys and values are strings. *)
Definition metadata : Type := list (string * string).

Fixpoint meta_get (m : metadata) (k : string) : option string :=
  match m with
  | [] => None
  | (k', v) :: m' => if (k' =? k)%string then Some v else meta_get m' k
  end.

Fixpoint meta_set (m : metadata) (k v : string) : metadata :=
  match m with
  | [] => [(k, v)]
  | (k', v') :: m' =>
      if (k' =? k)%string then (k, v) :: m' else (k', v') :: meta_set m' k v
  end.

(** [metadata.get(k, default)] *)
Definition meta_or (m : metadata) (k default : string) : string :=
  match meta_get m k with Some v => v | None => default end.

(** [metadata.get(k)] as a value. *)
Definition meta_val (m : metadata) (k : string) : pyval :=
  match meta_get m k with Some v => PStr v | None => PNone end.

(** The frontmatter text and the body of a file content. *)
Definition split_frontmatter (content : string) : string * string :=
  if Str.startswith content "---" then
    match Str.split_max "---" 2 content with
    | _ :: yaml :: body :: _ => (Str.strip yaml, Str.strip body)
    | _ => ("", content)
    end
  else ("", content).

(** One turn of the loop over the frontmatter lines. *)
Definition parse_line (m : metadata) (line : string) : metadata :=
  let line := Str.strip line in
  if Str.contains ":" line then
    match Str.split_once ":" line with
    | Some (key, value) =>
        meta_set m (Str.strip key) (Str.strip_quotes (Str.strip value))
    | None => m
    end
  else m.

Definition parse_metadata (yaml_content : string) : metadata :=
  if Str.nonempty yaml_content
  then fold_left parse_line (Str.split_char Str.newline yaml_content) []
  else [].

(** [name] without its last suffix ([PurePath.stem]). *)
Definition stem (name : string) : string :=
  match rev (Str.split_char "." name) with
  | [] => name
  | [_] => name
  | suffix :: before =>
      let front := Str.join "." (rev before) in
      if Str.nonempty suffix && Str.nonempty front then front else name
  end.

Definition path_text (p : path) : string := Str.join "/" p.

(** The task object built from the metadata and the body.  The fields
    derived from the clock ([cycle_time_days], [age_days],
    [blocked_time_hours], [blocked_time_days]) are left out. *)
Definition build_task (file_path : path) (content : string) (m : metadata)
    (markdown_content : string) : dict :=
  let task_id := stem (Fs.name file_path) in
  let blocked :=
    let b := Str.lower (meta_or m "blocked" "false") in
    (b =? "true")%string || (b =? "yes")%string || (b =? "1")%string in
  let blocked_at := meta_or m "blocked_at" "" in
  let blocked_reason := meta_or m "blocked_reason" "" in
  let unblocked_at := meta_or m "unblocked_at" "" in
  let is_currently_blocked := blocked && negb (Str.nonempty unblocked_at) in
  [ ("id", PStr task_id);
    ("title", PStr (meta_or m "title" (Str.title (Str.dash_to_space task_id))));
    ("content", PStr markdown_content);
    ("fullContent", PStr content);
    ("timeEstimate", PStr (meta_or m "estimate" "0h"));
    ("timeSpent", PStr (meta_or m "spent_time" "0h"));
    ("priority", PStr (meta_or m "priority" "medium"));
    ("developer", meta_val m "developer");
    ("assignee", meta_val m "developer");
    ("status", PStr (meta_or m "status" "backlog"));
    ("created", PStr (meta_or m "created" ""));
    ("created_at", PStr (meta_or m "created_at" (meta_or m "created" "")));
    ("started_at", PStr (meta_or m "started_at" ""));
    ("done_at", PStr (meta_or m "done_at" ""));
    ("blocked", PBool blocked);
    ("blocked_at", PStr blocked_at);
    ("blocked_reason", PStr blocked_reason);
    ("unblocked_at", PStr unblocked_at);
    ("is_currently_blocked", PBool is_currently_blocked);
    ("file_path", PStr (path_text file_path)) ].

(** The task built from the text of the file [file_path]. *)
Definition task_of_content (file_path : path) (content : string) : dict :=
  let (yaml_content, markdown_content) := split_frontmatter content in
  build_task file_path content (parse_metadata yaml_content) markdown_content.

(** [parse_task_file]: [None] is the value returned by the handler of the
    exception, which only the read at the top can raise. *)
Definition parse_task_file (fs : node) (file_path : path) : option dict :=
  match Fs.read_text file_path fs with
  | Some content => Some (task_of_content file_path content)
  | None => None
  end.

(** ** FiraRequestHandler: the task files *)

Definition status_folders : list string :=
  ["backlog"; "progress"; "inprogress"; "review"; "testing"; "done"].

(** Membership of a string in a list of strings ([x in [...]]). *)
Definition str_in (x : string) (l : list string) : bool :=
  existsb (fun y => (y =? x)%string) l.

(** Where [update_task_file] found the task. *)
Record location : Type := {
  current_file : path;
  current_folder : string;
  current_developer : option string
}.

(** The name of the file of a task: the text of the id followed by [.md]. *)
Definition task_filename (task_id : pyval) : string := fmt task_id ++ ".md".

(** The guarded check that a file found under the expected name belongs to
    the task: the file reads as text and the id occurs in the text or in
    the file name.  An id that is not a string makes the test raise inside
    the guard, so the file is passed over. *)
Definition verified (fs : node) (task_file : path) (task_id : pyval) : bool :=
  match Fs.read_text task_file fs with
  | Some file_content =>
      match task_id with
      | PStr t => Str.contains t file_content || Str.contains t (Fs.name task_file)
      | _ => false
      end
  | None => false
  end.

(** The loop over the developer subfolders of one status folder. *)
Fixpoint scan_dev_folders (fs : node) (folder_path : path) (task_id : pyval)
    (devs : list string) : option (path * string) :=
  match devs with
  | [] => None
  | d :: rest =>
      let dev_folder := (folder_path ++ [d])%list in
      if Fs.is_dir dev_folder fs && negb (Str.startswith d ".") then
        let task_file := Fs.joinpath dev_folder (task_filename task_id) in
        if Fs.exists_ task_file fs && verified fs task_file task_id
        then Some (task_file, d)
        else scan_dev_folders fs folder_path task_id rest
      else scan_dev_folders fs folder_path task_id rest
  end.

(** The loop over the status folders; [Raise] when a status folder that
    exists cannot be listed. *)
Fixpoint locate_in (fs : node) (project_path : path) (task_id : pyval)
    (folders : list string) : outcome (option location) :=
  match folders with
  | [] => Return None
  | folder :: rest =>
      let folder_path := Fs.joinpath project_path folder in
      if Fs.exists_ folder_path fs then
        let task_file := Fs.joinpath folder_path (task_filename task_id) in
        if Fs.exists_ task_file fs && verified fs task_file task_id then
          Return (Some {| current_file := task_file;
                          current_folder := folder;
                          current_developer := None |})
        else
          match Fs.iterdir folder_path fs with
          | None => Raise
          | Some devs =>
              match scan_dev_folders fs folder_path task_id devs with
              | Some (task_file', d) =>
                  Return (Some {| current_file := task_file';
                                  current_folder := folder;
                                  current_developer := Some d |})
              | None => locate_in fs project_path task_id rest
              end
          end
      else locate_in fs project_path task_id rest
  end.

(** The resolver of [update_task_file]. *)
Definition locate (fs : node) (project_path : path) (task_id : pyval)
  : outcome (option location) :=
  locate_in fs project_path task_id status_folders.

(** The places where the specification looks for a task, in its order:
    the status folders in the fixed order, and in a status folder that
    exists the file directly in it before the files in its subfolders. *)
Definition direct_candidate (project_path : path) (task_id : pyval)
    (folder : string) : location :=
  {| current_file :=
       Fs.joinpath (Fs.joinpath project_path folder) (task_filename task_id);
     current_folder := folder;
     current_developer := None |}.

Definition developer_candidate (project_path : path) (task_id : pyval)
    (folder d : string) : location :=
  {| current_file :=
       Fs.joinpath (Fs.joinpath project_path folder ++ [d])%list (task_filename task_id);
     current_folder := folder;
     current_developer := Some d |}.

(** The subfolders of a status folder that are searched: the directories
    whose name does not start with a dot. *)
Definition developer_folders (fs : node) (folder_path : path) : list string :=
  match Fs.iterdir folder_path fs with
  | Some names =>
      filter (fun d => Fs.is_dir (folder_path ++ [d])%list fs &&
                       negb (Str.startswith d ".")) names
  | None => []
  end.

Definition folder_candidates (fs : node) (project_path : path) (task_id : pyval)
    (folder : string) : list location :=
  let folder_path := Fs.joinpath project_path folder in
  if Fs.exists_ folder_path fs then
    direct_candidate project_path task_id folder ::
    map (developer_candidate project_path task_id folder)
        (developer_folders fs folder_path)
  else [].

Definition candidates (fs : node) (project_path : path) (task_id : pyval)
  : list location :=
  flat_map (folder_candidates fs project_path task_id) status_folders.

(** A candidate is a match when its file exists and passes the check. *)
Definition is_match (fs : node) (task_id : pyval) (loc : location) : bool :=
  Fs.exists_ (current_file loc) fs && verified fs (current_file loc) task_id.

Definition path_eqb (p q : path) : bool :=
  if list_eq_dec string_dec p q then true else false.

(** [a or b] *)
Definition py_or (a b : pyval) : pyval := if truthy a then a else b.

(** The characters that make [simple_yaml_dump] quote a string. *)
Definition needs_quotes (value : string) : bool :=
  Str.contains (String Str.newline "") value ||
  Str.contains ":" value || Str.contains "#" value.

(** One line of [simple_yaml_dump] in [update_task_file]. *)
Definition dump_line (key : string) (value : pyval) : string :=
  match value with
  | PStr v =>
      if needs_quotes v then key ++ ": '" ++ v ++ "'" else key ++ ": " ++ v
  | _ => key ++ ": " ++ fmt value
  end.

Definition not_none (kv : string * pyval) : bool :=
  match snd kv with PNone => false | _ => true end.

(** [simple_yaml_dump] of [update_task_file]. *)
Definition simple_yaml_dump (data : dict) : string :=
  Str.join (String Str.newline "")
    (map (fun kv => dump_line (fst kv) (snd kv)) (filter not_none data)).

(** [simple_yaml_dump] of [create_task_file], which never quotes. *)
Definition simple_yaml_dump_plain (data : dict) : string :=
  Str.join (String Str.newline "")
    (map (fun kv => fst kv ++ ": " ++ fmt (snd kv)) (filter not_none data)).

(** The text of a task file around its frontmatter and body. *)
Definition file_text (yaml_content markdown_content : string) : string :=
  "---" ++ String Str.newline "" ++ yaml_content ++ String Str.newline "" ++
  "---" ++ String Str.newline "" ++ String Str.newline "" ++ markdown_content.

(** [task_data.get('content', task_data.get('fullContent', ''))] *)
Definition body_of (task_data : dict) : string :=
  fmt (get_or task_data "content" (get_or task_data "fullContent" (PStr ""))).

(** The [started_at] and [done_at] that [update_task_file] writes. *)
Definition tracked_started_at (now new_status : string) (task_data : dict) : pyval :=
  let started_at := get task_data "started_at" in
  if str_in new_status ["progress"; "inprogress"] && negb (truthy started_at)
  then PStr now else started_at.

Definition tracked_done_at (now new_status : string) (task_data : dict) : pyval :=
  let done_at := get task_data "done_at" in
  if (new_status =? "done")%string && negb (truthy done_at)
  then PStr now else done_at.

(** The frontmatter dictionary of [update_task_file], the entries that are
    [None] removed. *)
Definition update_frontmatter (now new_status : string) (task_data : dict) : dict :=
  filter not_none
    [ ("title", get_or task_data "title" (PStr ""));
      ("estimate", get_or task_data "timeEstimate" (PStr "0h"));
      ("spent_time", get_or task_data "timeSpent" (PStr "0h"));
      ("priority", get_or task_data "priority" (PStr "medium"));
      ("developer", get task_data "developer");
      ("status", PStr new_status);
      ("created", get_or task_data "created" (PStr (String.substring 0 10 now)));
      ("created_at", py_or (get task_data "created_at") (get task_data "created"));
      ("started_at", tracked_started_at now new_status task_data);
      ("done_at", tracked_done_at now new_status task_data);
      ("blocked", get_or task_data "blocked" (PBool false));
      ("blocked_at", get task_data "blocked_at");
      ("blocked_reason", get task_data "blocked_reason");
      ("unblocked_at", get task_data "unblocked_at") ].

(** The content [update_task_file] writes. *)
Definition update_content (now new_status : string) (task_data : dict) : string :=
  file_text (simple_yaml_dump (update_frontmatter now new_status task_data))
            (body_of task_data).

(** The developer of the new location: the one given, else the one of the
    current location, else an assignee that looks like a developer handle.
    A true assignee that is not a string has no [startswith]. *)
Definition resolve_developer (task_data : dict) (current_developer : option string)
  : outcome pyval :=
  let new_developer := get task_data "developer" in
  let current := match current_developer with Some d => PStr d | None => PNone end in
  if negb (truthy new_developer) && truthy current then Return current
  else if negb (truthy new_developer) then
    let assignee := get task_data "assignee" in
    if truthy assignee then
      match assignee with
      | PStr a =>
          if Str.startswith a "dev-" || Str.startswith a "tech-"
          then Return assignee else Return new_developer
      | _ => Raise
      end
    else Return new_developer
  else Return new_developer.

(** The folder of the new location; joining a value that is not a string to
    a path raises. *)
Definition new_folder (project_path : path) (new_status new_developer : pyval)
  : outcome path :=
  match new_status with
  | PStr st =>
      let new_folder_path := Fs.joinpath project_path st in
      if truthy new_developer && str_in st status_folders then
        match new_developer with
        | PStr d => Return (Fs.joinpath new_folder_path d)
        | _ => Raise
        end
      else Return new_folder_path
  | _ => Raise
  end.

(** The check on a destination that exists and is not the current file:
    true when the update is abandoned. *)
Definition collision_abort (fs : node) (new_task_file current : path)
    (task_id : pyval) : bool :=
  if Fs.exists_ new_task_file fs && negb (path_eqb new_task_file current) then
    match Fs.read_text new_task_file fs with
    | Some existing_content =>
        if negb (Str.contains (fmt task_id) existing_content) then
          match task_id with
          | PStr t => negb (Str.contains t (Fs.name new_task_file))
          | _ => true
          end
        else false
    | None => true
    end
  else false.

(** The removal of the old file when the location changes: the tree
    afterwards, or [None] when the update is abandoned there. *)
Definition remove_old (fs : node) (new_task_file current : path)
    (task_id : pyval) : option node :=
  if negb (path_eqb new_task_file current) then
    if Fs.exists_ current fs then
      match Fs.read_text current fs, task_id with
      | Some current_content, PStr t =>
          if negb (Str.contains t current_content) &&
             negb (Str.contains t (Fs.name current))
          then None
          else Fs.unlink current fs
      | _, _ => None
      end
    else Some fs
  else Some fs.

(** [update_task_file]: the tree afterwards and what the call does. *)
Definition update_task_file (now : string) (fs : node) (project_id : string)
    (task_data : dict) : node * outcome bool :=
  let project_path := Fs.joinpath [] project_id in
  if negb (Fs.exists_ project_path fs) then (fs, Return false)
  else if negb (has_key task_data "id") then (fs, Raise)
  else
    let task_id := get task_data "id" in
    match locate fs project_path task_id with
    | Raise => (fs, Raise)
    | Return None => (fs, Return false)
    | Return (Some loc) =>
        let new_status :=
          get_or task_data "status" (get_or task_data "column" (PStr "backlog")) in
        match resolve_developer task_data (current_developer loc) with
        | Raise => (fs, Raise)
        | Return new_developer =>
            match new_folder project_path new_status new_developer with
            | Raise => (fs, Raise)
            | Return new_folder_path =>
                match Fs.mkdir_p new_folder_path fs with
                | None => (fs, Raise)
                | Some fs1 =>
                    let new_task_file :=
                      Fs.joinpath new_folder_path (task_filename task_id) in
                    if collision_abort fs1 new_task_file (current_file loc) task_id
                    then (fs1, Return false)
                    else
                      let file_content := update_content now (fmt new_status) task_data in
                      match remove_old fs1 new_task_file (current_file loc) task_id with
                      | None => (fs1, Return false)
                      | Some fs2 =>
                          match Fs.write_text new_task_file file_content fs2 with
                          | Some fs3 => (fs3, Return true)
                          | None => (fs2, Return false)
                          end
                      end
                end
            end
        end
    end.

(** The frontmatter dictionary of [create_task_file]. *)
Definition create_frontmatter (now : string) (target_folder : string)
    (task_data : dict) : dict :=
  let status := get_or task_data "status" (PStr target_folder) in
  let started_at :=
    match status with
    | PStr st => if str_in st ["progress"; "inprogress"] then PStr now else PNone
    | _ => PNone
    end in
  filter not_none
    [ ("title", get_or task_data "title" (PStr ""));
      ("estimate", get_or task_data "timeEstimate" (PStr "2h"));
      ("spent_time", get_or task_data "timeSpent" (PStr "0h"));
      ("priority", get_or task_data "priority" (PStr "medium"));
      ("developer", py_or (get task_data "developer") (get task_data "assignee"));
      ("status", status);
      ("created", PStr (String.substring 0 10 now));
      ("created_at", PStr now);
      ("started_at", started_at) ].

(** [create_task_file] *)
Definition create_task_file (now : string) (fs : node) (project_id : string)
    (task_data : dict) : node * outcome bool :=
  let project_path := Fs.joinpath [] project_id in
  let created :=
    if negb (Fs.exists_ project_path fs) then
      create_project fs
        [ ("id", PStr project_id); ("name", PStr project_id);
          ("description", PStr ("Auto-created project " ++ project_id)) ]
    else (fs, Return true) in
  match created with
  | (fs0, Raise) => (fs0, Raise)
  | (fs0, Return false) => (fs0, Return false)
  | (fs0, Return true) =>
      if negb (has_key task_data "id") then (fs0, Raise)
      else
        let task_id := get task_data "id" in
        match get_or task_data "folder" (PStr "backlog") with
        | PStr target_folder =>
            let folder_path := Fs.joinpath project_path target_folder in
            match Fs.mkdir_p folder_path fs0 with
            | None => (fs0, Raise)
            | Some fs1 =>
                let task_file := Fs.joinpath folder_path (task_filename task_id) in
                if Fs.exists_ task_file fs1 then (fs1, Return false)
                else
                  let file_content :=
                    file_text
                      (simple_yaml_dump_plain (create_frontmatter now target_folder task_data))
                      (body_of task_data) in
                  match Fs.write_text task_file file_content fs1 with
                  | Some fs2 => (fs2, Return true)
                  | None => (fs1, Return false)
                  end
            end
        | _ => (fs0, Raise)
        end
  end.

Definition delete_folders : list string :=
  ["backlog"; "progress"; "review"; "testing"; "done"].

(** The loop of the task branch of [do_DELETE] over the developer
    subfolders of one status folder. *)
Fixpoint find_in_dev_folders (fs : node) (status_path : path) (filename : string)
    (devs : list string) : option path :=
  match devs with
  | [] => None
  | d :: rest =>
      let dev_folder := (status_path ++ [d])%list in
      if Fs.is_dir dev_folder fs && Fs.exists_ (Fs.joinpath dev_folder filename) fs
      then Some (Fs.joinpath dev_folder filename)
      else find_in_dev_folders fs status_path filename rest
  end.

(** The search of the task branch of [do_DELETE]. *)
Fixpoint find_for_delete (fs : node) (project_path : path) (filename : string)
    (folders : list string) : outcome (option path) :=
  match folders with
  | [] => Return None
  | status :: rest =>
      let status_path := Fs.joinpath project_path status in
      if Fs.exists_ status_path fs then
        let task_file := Fs.joinpath status_path filename in
        if Fs.exists_ task_file fs then Return (Some task_file)
        else
          match Fs.iterdir status_path fs with
          | None => Raise
          | Some devs =>
              match find_in_dev_folders fs status_path filename devs with
              | Some f => Return (Some f)
              | None => find_for_delete fs project_path filename rest
              end
          end
      else find_for_delete fs project_path filename rest
  end.

(** The task branch of [do_DELETE]: the tree afterwards and the [success]
    field of the response; every exception ends in a failure response. *)
Definition delete_task (fs : node) (project_id task_id : string) : node * bool :=
  let project_path := Fs.joinpath [] project_id in
  if negb (Fs.exists_ project_path fs) then (fs, false)
  else
    match find_for_delete fs project_path (task_id ++ ".md") delete_folders with
    | Return (Some task_file_path) =>
        match Fs.unlink task_file_path fs with
        | Some fs1 => (fs1, true)
        | None => (fs, false)
        end
    | _ => (fs, false)
    end.

(** ** The round trip through the codec *)

(** The frontmatter keys that the parser reads and [update_task_file]
    writes under the same name. *)
Definition codec_keys : list string :=
  [ "title"; "estimate"; "spent_time"; "priority"; "developer"; "status";
    "created"; "created_at"; "started_at"; "done_at";
    "blocked_at"; "blocked_reason"; "unblocked_at" ].

(** The frontmatter written for a record read from the metadata [m] of the
    file of the task [task_id], stated on the metadata: a key of the file
    keeps its value, a missing one takes its default, the two time stamps
    are set to [now] when they are empty and the status asks for them. *)
Definition reserialized_frontmatter (now task_id : string) (m : metadata) : dict :=
  let status := meta_or m "status" "backlog" in
  let created_at := meta_or m "created_at" (meta_or m "created" "") in
  let started_at := meta_or m "started_at" "" in
  let done_at := meta_or m "done_at" "" in
  let blocked := Str.lower (meta_or m "blocked" "false") in
  filter not_none
    [ ("title", PStr (meta_or m "title" (Str.title (Str.dash_to_space task_id))));
      ("estimate", PStr (meta_or m "estimate" "0h"));
      ("spent_time", PStr (meta_or m "spent_time" "0h"));
      ("priority", PStr (meta_or m "priority" "medium"));
      ("developer", meta_val m "developer");
      ("status", PStr status);
      ("created", PStr (meta_or m "created" ""));
      ("created_at",
       PStr (if Str.nonempty created_at then created_at else meta_or m "created" ""));
      ("started_at",
       PStr (if str_in status ["progress"; "inprogress"] && negb (Str.nonempty started_at)
             then now else started_at));
      ("done_at",
       PStr (if (status =? "done") && negb (Str.nonempty done_at)
             then now else done_at));
      ("blocked",
       PBool ((blocked =? "true") || (blocked =? "yes") || (blocked =? "1")));
      ("blocked_at", PStr (meta_or m "blocked_at" ""));
      ("blocked_reason", PStr (meta_or m "blocked_reason" ""));
      ("unblocked_at", PStr (meta_or m "unblocked_at" "")) ].

(** The text [update_task_file] writes for the task read from [content]:
    the serialization of the parsed record. *)
Definition reserialize (now : string) (file_path : path) (content : string) : string :=
  let task := task_of_content file_path content in
  update_content now (fmt (get task "status")) task.

(** ** Task files given line by line *)

(** An entry of a frontmatter: its key, its value, and whether the value
    stands in single quotes. *)
Record entry : Type := {
  e_key : string;
  e_quoted : bool;
  e_value : string
}.

Definition in_quotes (v : string) : string := "'" ++ v ++ "'".

(** The line of an entry: [key: value] or [key: 'value']. *)
Definition entry_line (e : entry) : string :=
  e_key e ++ ": " ++ (if e_quoted e then in_quotes (e_value e) else e_value e).

(** The frontmatter text with one line per entry. *)
Definition entries_text (es : list entry) : string :=
  Str.join (String Str.newline "") (map entry_line es).

(** The value that the entries give for a key; of two entries with one key
    the later one counts, as in a Python dict that is filled in order. *)
Fixpoint entry_get (es : list entry) (k : string) : option string :=
  match es with
  | [] => None
  | e :: rest =>
      match entry_get rest k with
      | Some v => Some v
      | None => if (e_key e =? k)%string then Some (e_value e) else None
      end
  end.

Definition entry_or (es : list entry) (k default : string) : string :=
  match entry_get es k with Some v => v | None => default end.

(** The metadata with the entry [e] put in, as the parser does for its
    line. *)
Definition set_entry_of (m : metadata) (e : entry) : metadata :=
  meta_set m (e_key e) (e_value e).

(** A key: not empty, on one line, without colon and without blanks
    around it. *)
Definition key_ok (k : string) : bool :=
  Str.nonempty k &&
  all_chars (fun c => portable_char c && negb (c =? Str.newline)%char &&
                      negb (c =? ":")%char) k &&
  edge_free Str.is_space k.

(** A value: on one line, without blanks or quotes around it. *)
Definition value_ok (v : string) : bool :=
  all_chars (fun c => portable_char c && negb (c =? Str.newline)%char) v &&
  edge_free (fun c => Str.is_space c || Str.is_quote c) v.

Definition entry_ok (e : entry) : bool := key_ok (e_key e) && value_ok (e_value e).

(** The line that the serializer is expected to write for a key and a text:
    the text stands in single quotes when it holds a line break, a colon or
    a hash sign. *)
Definition written_line (k v : string) : string :=
  entry_line {| e_key := k;
                e_quoted := Str.contains (String Str.newline "") v ||
                            Str.contains ":" v || Str.contains "#" v;
                e_value := v |}.

(** The frontmatter lines expected in the file written for the record read
    from the entries [es] of the file of the task [task_id]. *)
Definition expected_lines (now task_id : string) (es : list entry) : list string :=
  let status := entry_or es "status" "backlog" in
  let created := entry_or es "created" "" in
  let created_at := entry_or es "created_at" created in
  let started_at := entry_or es "started_at" "" in
  let done_at := entry_or es "done_at" "" in
  let blocked := Str.lower (entry_or es "blocked" "false") in
  ([ written_line "title" (entry_or es "title" (Str.title (Str.dash_to_space task_id)));
     written_line "estimate" (entry_or es "estimate" "0h");
     written_line "spent_time" (entry_or es "spent_time" "0h");
     written_line "priority" (entry_or es "priority" "medium") ] ++
   match entry_get es "developer" with
   | Some d => [ written_line "developer" d ]
   | None => []
   end ++
   [ written_line "status" status;
     written_line "created" created;
     written_line "created_at" (if Str.nonempty created_at then created_at else created);
     written_line "started_at"
       (if str_in status ["progress"; "inprogress"] && negb (Str.nonempty started_at)
        then now else started_at);
     written_line "done_at"
       (if (status =? "done") && negb (Str.nonempty done_at) then now else done_at);
     (if (blocked =? "true") || (blocked =? "yes") || (blocked =? "1")
      then "blocked: True" else "blocked: False");
     written_line "blocked_at" (entry_or es "blocked_at" "");
     written_line "blocked_reason" (entry_or es "blocked_reason" "");
     written_line "unblocked_at" (entry_or es "unblocked_at" "") ])%list.

(** ** Sequences of operations on one project *)

(** The number of regular files called [f] below the directory of the
    project at [project_path]. *)
Definition count_in (fs : node) (project_path : path) (f : string) : nat :=
  match Fs.lookup project_path fs with
  | Some c => Fs.count_named f c
  | None => 0
  end.

(** The name of the file of the task [task_id]. *)
Definition task_file_name (task_id : pyval) : string :=
  Fs.name (Fs.components (task_filename task_id)).





(** ** Auxiliary measures *)

(** Every key of the dictionary is bound once. *)
Fixpoint keys_once (d : dict) : bool :=
  match d with
  | [] => true
  | (k, _) :: d' => negb (has_key d' k) && keys_once d'
  end.

(** What the entry [x] with the node [c] adds to the count of the files
    called [f] in its directory. *)
Definition weight (f x : string) (c : node) : nat :=
  (match c with
   | File _ => if (x =? f)%string then 1 else 0
   | Dir _ => 0
   end + Fs.count_named f c)%nat.

(** ** Scenarios *)

(** The end-to-end scenario of the specification: the project [proj-1], the
    task [t1] created in the backlog, moved to [progress] for [dev-alice],
    then moved to [review] by an update that names only the new status. *)
Definition time_1 : string := "2024-05-01T10:00:00".
Definition time_2 : string := "2024-05-02T11:30:00".
Definition time_3 : string := "2024-05-03T09:15:00".

Definition scenario_created : node :=
  fst (create_project (Dir []) [ ("id", PStr "proj-1") ]).

Definition scenario_backlog : node :=
  fst (create_task_file time_1 scenario_created "proj-1"
         [ ("id", PStr "t1"); ("title", PStr "Fix bug"); ("folder", PStr "backlog") ]).

Definition scenario_progress : node :=
  fst (update_task_file time_2 scenario_backlog "proj-1"
         [ ("id", PStr "t1"); ("title", PStr "Fix bug");
           ("status", PStr "progress"); ("developer", PStr "dev-alice") ]).

Definition review_update : dict :=
  [ ("id", PStr "t1"); ("title", PStr "Fix bug"); ("status", PStr "review") ].

Definition scenario_review : node :=
  fst (update_task_file time_3 scenario_progress "proj-1" review_update).

(** A second task file [t1.md], created in [done] for other work while the
    first one sits in the backlog. *)
Definition scenario_two_files : node :=
  fst (create_task_file time_2 scenario_backlog "proj-1"
         [ ("id", PStr "t1"); ("title", PStr "Release notes");
           ("content", PStr "Write the notes."); ("folder", PStr "done") ]).

Definition done_update : dict :=
  [ ("id", PStr "t1"); ("title", PStr "Fix bug"); ("status", PStr "done") ].

(** The scenario of the specification: four task files and a README below
    [progress], two of them in a developer folder. *)
Definition wip_example_fs : node :=
  Dir [ ("proj-1",
         Dir [ ("progress",
                Dir [ ("t1.md", File (Text "one"));
                      ("t2.md", File (Text "two"));
                      ("dev-alice",
                       Dir [ ("README.md", File (Text "# dev-alice"));
                             ("t3.md", File (Text "three"));
                             ("t4.md", File (Text "four")) ]) ]) ]) ].


(** A project as [create_project] lays it out, with two tasks below
    [inprogress] and no folder called [progress]. *)
Definition alias_example_fs : node :=
  Dir [ ("proj-1",
         Dir [ ("README.md", File (Text "# Project proj-1"));
               ("backlog", Dir [ ("default-dev", Dir []) ]);
               ("inprogress",
                Dir [ ("default-dev", Dir [ ("t1.md", File (Text "one")) ]);
                      ("t2.md", File (Text "two")) ]) ]) ].

(** A tree with the file [t1.md] in four places. *)
Definition resolver_example_fs : node :=
  Dir [ ("proj-1",
         Dir [ ("README.md", File (Text "# Project proj-1"));
               ("backlog", Dir [ ("default-dev", Dir []) ]);
               ("done", Dir [ ("t1.md", File (Text "done copy")) ]);
               ("progress",
                Dir [ ("dev-bob", Dir [ ("t1.md", File (Text "with bob")) ]);
                      ("t1.md", File (Text "direct copy")) ]);
               ("review", Dir [ ("dev-amy", Dir [ ("t1.md", File (Text "with amy")) ]) ]) ]) ].


(** The backlog of [proj-1] with a second task. *)
Definition scenario_two_tasks : node :=
  fst (create_task_file time_1 scenario_backlog "proj-1"
         [ ("id", PStr "t2"); ("title", PStr "Write docs"); ("folder", PStr "backlog") ]).

(** The histories of two projects. *)
Definition two_histories : cfd_data :=
  [ ("proj-1", [snapshot_on 0 1]); ("proj-2", [snapshot_on 0 2]) ].

(** ** ProjectManager: the status of the limits and the snapshots *)

(** One entry of the dictionary [get_wip_status] returns. *)
Record wip_info : Type := {
  w_count : Z;
  w_limit : option Z;
  w_warning : bool;
  w_blocked : bool
}.

Definition wip_status : Type := list (string * wip_info).

Fixpoint info_get (d : wip_status) (k : string) : option wip_info :=
  match d with
  | [] => None
  | (k', v) :: d' => if (k' =? k)%string then Some v else info_get d' k
  end.

(** [d[k] = v] *)
Fixpoint info_set (d : wip_status) (k : string) (v : wip_info) : wip_status :=
  match d with
  | [] => [(k, v)]
  | (k', v') :: d' =>
      if (k' =? k)%string then (k, v) :: d' else (k', v') :: info_set d' k v
  end.

(** The loop of [get_wip_status] over the items of [wip_limits]. *)
Fixpoint wip_status_loop (cfg : wip_config) (fs : node) (project_id : string)
    (items : list (string * option Z)) (status_info : wip_status)
  : outcome wip_status :=
  match items with
  | [] => Return status_info
  | (status, limit) :: rest =>
      match limit with
      | None => wip_status_loop cfg fs project_id rest status_info
      | Some _ =>
          match check_wip_limit cfg fs project_id status with
          | Raise => Raise
          | Return (allowed, count, limit_val, is_warning) =>
              wip_status_loop cfg fs project_id rest
                (info_set status_info status
                   {| w_count := count; w_limit := limit_val;
                      w_warning := is_warning; w_blocked := negb allowed |})
          end
      end
  end.

Definition get_wip_status (cfg : wip_config) (fs : node) (project_id : string)
  : outcome wip_status :=
  wip_status_loop cfg fs project_id (wip_limits cfg) [].

(** The states [take_cfd_snapshot] counts. *)
Definition cfd_states : list string :=
  ["backlog"; "progress"; "review"; "testing"; "done"].

(** One turn of the loop of [take_cfd_snapshot]: the count of one state. *)
Definition state_count (fs : node) (project_path : path) (state : string) : Z :=
  let state_path := Fs.joinpath project_path state in
  if negb (Fs.exists_ state_path fs) then
    let state_path :=
      if (state =? "progress")%string then Fs.joinpath project_path "inprogress"
      else state_path in
    if negb (Fs.exists_ state_path fs) then 0%Z
    else Z.of_nat (List.length (counted_paths state_path fs))
  else Z.of_nat (List.length (counted_paths state_path fs)).

(** [take_cfd_snapshot] at the instant [now]; the day is the date part of
    the instant. *)
Definition take_cfd_snapshot (now : string) (fs : node) (project_id : string)
  : option snapshot :=
  let project_path := Fs.joinpath [] project_id in
  if negb (Fs.exists_ project_path fs) then None
  else
    Some {| s_date := String.substring 0 10 now;
            s_timestamp := now;
            s_backlog := state_count fs project_path "backlog";
            s_progress := state_count fs project_path "progress";
            s_review := state_count fs project_path "review";
            s_testing := state_count fs project_path "testing";
            s_done := state_count fs project_path "done" |}.

(** [snapshot[state]]; [None] stands for [KeyError]. *)
Definition state_field (snap : snapshot) (state : string) : option Z :=
  if (state =? "backlog")%string then Some (s_backlog snap)
  else if (state =? "progress")%string then Some (s_progress snap)
  else if (state =? "review")%string then Some (s_review snap)
  else if (state =? "testing")%string then Some (s_testing snap)
  else if (state =? "done")%string then Some (s_done snap)
  else None.

(** The branch of [do_POST] for [cfd-snapshot]: the data saved and the
    snapshot of the response, [None] for the failure response. *)
Definition cfd_snapshot (now : string) (fs : node) (d : cfd_data)
    (project_id : string) : cfd_data * option snapshot :=
  match take_cfd_snapshot now fs project_id with
  | None => (d, None)
  | Some snap => (fst (store_cfd_snapshot d project_id snap), Some snap)
  end.

(** [project_data[-days:]] when [days] is not zero and the history is
    longer than [days]. *)
Definition cfd_window (days : Z) (h : list snapshot) : list snapshot :=
  if negb (days =? 0)%Z && (days <? Z.of_nat (List.length h))%Z then
    if (days <? 0)%Z then skipn (Z.to_nat (- days)) h
    else skipn (List.length h - Z.to_nat days) h
  else h.

(** The [data] field of the response of the branch of [do_GET] for
    [cfd-data]. *)
Definition cfd_data_response (d : cfd_data) (project_id : string) (days : Z)
  : list snapshot :=
  cfd_window days (history_of d project_id).

(** The entry [get_wip_status] builds from the result of the check. *)
Definition entry_of (r : wip_result) : wip_info :=
  let '(allowed, count, limit_val, is_warning) := r in
  {| w_count := count; w_limit := limit_val;
     w_warning := is_warning; w_blocked := negb allowed |}.

(** A limit without [block_on_limit]. *)
Definition lenient_cfg : wip_config :=
  {| wip_limits := [ ("progress", Some 2%Z) ];
     block_on_limit := None;
     warning_threshold := None |}.

(** The history of [proj-1] after a snapshot on each of the first two days
    of 2024. *)
Definition two_day_history : cfd_data := store_days "proj-1" [0; 1]%nat [].

(** ** ProjectManager: the listing of the projects *)

(** The names [dir.glob('*.md')] yields: the entries of the directory
    whose name ends in [.md]; nothing when [dir] is no directory. *)
Definition glob_md (dir : path) (fs : node) : list string :=
  match Fs.iterdir dir fs with
  | Some names => filter (fun x => Str.endswith x ".md") names
  | None => []
  end.

(** [f.name.lower() != 'readme.md'] *)
Definition is_task_name (nm : string) : bool :=
  negb (Str.lower nm =? "readme.md")%string.

(** [s.add(x)] on a set kept in the order of the first insertion. *)
Definition set_add (x : string) (s : list string) : list string :=
  if str_in x s then s else (s ++ [x])%list.

(** [sorted(l)] on strings. *)
Fixpoint insert_string (x : string) (l : list string) : list string :=
  match l with
  | [] => [x]
  | y :: l' => if String.leb x y then x :: y :: l' else y :: insert_string x l'
  end.

Definition sorted_strings (l : list string) : list string :=
  fold_right insert_string [] l.

(** One entry of the statistics: the count and the detail text. *)
Record stat : Type := {
  st_count : nat;
  st_detail : string
}.

Record project_stats : Type := {
  stats_backlog : stat;
  stats_inProgress : stat;
  stats_done : stat
}.

(** The loop of [calculate_project_stats] over the entries of one status
    folder: the running total and the set of developers. *)
Fixpoint count_dev_folders (fs : node) (folder : string) (folder_path : path)
    (items : list string) (total_tasks : nat) (developers : list string)
  : nat * list string :=
  match items with
  | [] => (total_tasks, developers)
  | d :: rest =>
      let dev_folder := (folder_path ++ [d])%list in
      if Fs.is_dir dev_folder fs && negb (Str.startswith (Str.lower d) "readme") then
        let dev_tasks := filter is_task_name (glob_md dev_folder fs) in
        count_dev_folders fs folder folder_path rest
          (total_tasks + List.length dev_tasks)
          (if str_in folder ["progress"; "inprogress"] then set_add d developers
           else developers)
      else count_dev_folders fs folder folder_path rest total_tasks developers
  end.

(** The loop over the folders of one statistic; [Raise] when a folder that
    exists cannot be listed. *)
Fixpoint count_folders (fs : node) (project_path : path) (folders : list string)
    (total_tasks : nat) (developers : list string) : outcome (nat * list string) :=
  match folders with
  | [] => Return (total_tasks, developers)
  | folder :: rest =>
      let folder_path := Fs.joinpath project_path folder in
      if Fs.exists_ folder_path fs then
        let task_files := filter is_task_name (glob_md folder_path fs) in
        match Fs.iterdir folder_path fs with
        | None => Raise
        | Some items =>
            let (total, devs) :=
              count_dev_folders fs folder folder_path items
                (total_tasks + List.length task_files) developers in
            count_folders fs project_path rest total devs
        end
      else count_folders fs project_path rest total_tasks developers
  end.

Definition calculate_project_stats (fs : node) (project_id : string)
  : outcome project_stats :=
  let project_path := Fs.joinpath [] project_id in
  match count_folders fs project_path ["backlog"] 0 [] with
  | Raise => Raise
  | Return (backlog, _) =>
      match count_folders fs project_path ["progress"; "inprogress"] 0 [] with
      | Raise => Raise
      | Return (in_progress, developers) =>
          match count_folders fs project_path ["done"] 0 [] with
          | Raise => Raise
          | Return (done, _) =>
              Return {| stats_backlog := {| st_count := backlog; st_detail := "(0h)" |};
                        stats_inProgress :=
                          {| st_count := in_progress;
                             st_detail :=
                               "(" ++ fmt (PInt (Z.of_nat (List.length developers)))
                                   ++ " devs)" |};
                        stats_done := {| st_count := done; st_detail := "(0h)" |} |}
          end
      end
  end.

(** The status folders [get_project_developers] goes through. *)
Definition developer_status_folders : list string :=
  ["progress"; "inprogress"; "review"; "testing"; "done"].

(** The loop of [get_project_developers] over the entries of one folder. *)
Fixpoint developers_in (fs : node) (folder_path : path) (items : list string)
    (developers : list string) : list string :=
  match items with
  | [] => developers
  | item :: rest =>
      if Fs.is_dir (folder_path ++ [item])%list fs &&
         (Str.startswith item "dev-" || Str.startswith item "tech-")
      then developers_in fs folder_path rest (set_add item developers)
      else developers_in fs folder_path rest developers
  end.

Fixpoint collect_developers (fs : node) (project_path : path) (folders : list string)
    (developers : list string) : outcome (list string) :=
  match folders with
  | [] => Return developers
  | folder_name :: rest =>
      let folder_path := Fs.joinpath project_path folder_name in
      if Fs.exists_ folder_path fs then
        match Fs.iterdir folder_path fs with
        | None => Raise
        | Some items =>
            collect_developers fs project_path rest
              (developers_in fs folder_path items developers)
        end
      else collect_developers fs project_path rest developers
  end.

Definition get_project_developers (fs : node) (project_id : string)
  : outcome (list string) :=
  let project_path := Fs.joinpath [] project_id in
  if negb (Fs.exists_ project_path fs) then Return []
  else
    match collect_developers fs project_path developer_status_folders [] with
    | Raise => Raise
    | Return developers => Return (sorted_strings developers)
    end.

(** [s.replace('#', '')] *)
Fixpoint remove_hash (s : string) : string :=
  match s with
  | EmptyString => EmptyString
  | String c s' => if (c =? "#")%char then remove_hash s' else String c (remove_hash s')
  end.

(** [content.split('\n')[0]] *)
Definition first_line (content : string) : string :=
  hd "" (Str.split_char Str.newline content).

(** The description [get_project_info] shows: the first line of the
    README without its hash signs, or the default text. *)
Definition readme_description (fs : node) (project_path : path) (project_id : string)
  : string :=
  let readme_path := Fs.joinpath project_path "README.md" in
  let description := "Project " ++ project_id in
  if Fs.exists_ readme_path fs then
    match Fs.read_text readme_path fs with
    | Some text =>
        let content := Str.strip text in
        let first := Str.strip (remove_hash (first_line content)) in
        if Str.nonempty first then first else description
    | None => description
    end
  else description.

Record project_info : Type := {
  p_id : string;
  p_name : string;
  p_description : string;
  p_stats : project_stats;
  p_developers : list string
}.

(** [get_project_info]: [Return None] for a project that does not exist. *)
Definition get_project_info (fs : node) (project_id : string)
  : outcome (option project_info) :=
  let project_path := Fs.joinpath [] project_id in
  if negb (Fs.exists_ project_path fs) then Return None
  else
    let description := readme_description fs project_path project_id in
    match calculate_project_stats fs project_id with
    | Raise => Raise
    | Return stats =>
        match get_project_developers fs project_id with
        | Raise => Raise
        | Return developers =>
            Return (Some {| p_id := project_id;
                            p_name := project_id;
                            p_description := description;
                            p_stats := stats;
                            p_developers := developers |})
        end
    end.

(** The loop of [get_projects] over the entries of the base directory. *)
Fixpoint projects_loop (fs : node) (items : list string) (projects : list project_info)
  : outcome (list project_info) :=
  match items with
  | [] => Return projects
  | d :: rest =>
      if Fs.is_dir [d] fs && negb (Str.startswith d ".") then
        match get_project_info fs d with
        | Raise => Raise
        | Return (Some info) => projects_loop fs rest (projects ++ [info])%list
        | Return None => projects_loop fs rest projects
        end
      else projects_loop fs rest projects
  end.

Definition get_projects (fs : node) : outcome (list project_info) :=
  match Fs.iterdir [] fs with
  | None => Raise
  | Some items => projects_loop fs items []
  end.

(** [update_project_info]: the tree afterwards and the value returned; a
    description that is not a string has no [strip]. *)
Definition update_project_info (fs : node) (project_id : string) (project_data : dict)
  : node * bool :=
  let project_path := Fs.joinpath [] project_id in
  if negb (Fs.exists_ project_path fs) then (fs, false)
  else if has_key project_data "description" then
    match get project_data "description" with
    | PStr d =>
        let description := Str.strip d in
        if Str.nonempty description then
          let readme_content :=
            "# " ++ project_id ++ String Str.newline (String Str.newline "") ++
            description ++ String Str.newline "" in
          match Fs.write_text (Fs.joinpath project_path "README.md") readme_content fs with
          | Some fs' => (fs', true)
          | None => (fs, false)
          end
        else (fs, true)
    | _ => (fs, false)
    end
  else (fs, true).




(** A text of ASCII characters without line break, carriage return or hash
    sign and without blanks around it. *)
Definition plain_text (s : string) : Prop :=
  portable s = true /\
  Str.contains (String Str.newline "") s = false /\
  Str.contains "#" s = false /\
  Str.strip s = s /\
  s <> "".

(** The heading that [get_project_info] reads from a README that starts
    with the line [# s]. *)
Definition heading_of (s : string) : string :=
  Str.strip (remove_hash (first_line ("# " ++ s))).

(** The statistics and the developers of a project as [create_project]
    leaves it. *)
Definition fresh_stats : project_stats :=
  {| stats_backlog := {| st_count := 0; st_detail := "(0h)" |};
     stats_inProgress := {| st_count := 0; st_detail := "(1 devs)" |};
     stats_done := {| st_count := 0; st_detail := "(0h)" |} |}.

(** The test of [get_projects] on one entry of the base directory. *)
Definition is_visible_project (fs : node) (d : string) : bool :=
  Fs.is_dir [d] fs && negb (Str.startswith d ".").

(** A base directory with a project, a hidden directory and a file. *)
Definition listing_example_fs : node :=
  Dir [ ("proj-1", project_skeleton "Project proj-1");
        (".git", Dir []);
        ("notes.txt", File (Text "remember")) ].

(** A base directory where [proj-2] has a file called [backlog]. *)
Definition misplaced_example_fs : node :=
  Dir [ ("proj-1", project_skeleton "Project proj-1");
        ("proj-2", Dir [ ("backlog", File (Text "not a folder")) ]) ].

(** ** ProjectManager: the listing of the tasks *)

(** [d[k] = v] *)
Fixpoint dict_set (d : dict) (k : string) (v : pyval) : dict :=
  match d with
  | [] => [(k, v)]
  | (k', v') :: d' =>
      if (k' =? k)%string then (k, v) :: d' else (k', v') :: dict_set d' k v
  end.

(** The folders [get_project_tasks] reads and the status it reports for
    each. *)
Definition task_folder_mappings : list (string * string) :=
  [ ("backlog", "backlog"); ("progress", "progress"); ("inprogress", "progress");
    ("review", "review"); ("testing", "testing"); ("done", "done") ].

(** The loop of [get_project_tasks] over the files [dir.glob('*.md')]
    yields, in a status folder ([developer] is [None]) or in one of its
    subfolders. *)
Fixpoint tasks_in (fs : node) (dir : path) (status project_id : string)
    (developer : option string) (names : list string) (tasks : list dict)
  : list dict :=
  match names with
  | [] => tasks
  | nm :: rest =>
      if is_task_name nm then
        match parse_task_file fs (dir ++ [nm])%list with
        | Some task =>
            let task := dict_set task "column" (PStr status) in
            let task := dict_set task "projectId" (PStr project_id) in
            let task :=
              match developer with
              | Some d => dict_set task "developer" (PStr d)
              | None => task
              end in
            tasks_in fs dir status project_id developer rest (tasks ++ [task])%list
        | None => tasks_in fs dir status project_id developer rest tasks
        end
      else tasks_in fs dir status project_id developer rest tasks
  end.

(** The loop over the subfolders of a status folder. *)
Fixpoint developer_tasks (fs : node) (folder_path : path) (status project_id : string)
    (items : list string) (tasks : list dict) : list dict :=
  match items with
  | [] => tasks
  | item :: rest =>
      let item_path := (folder_path ++ [item])%list in
      if Fs.is_dir item_path fs && negb (Str.startswith item ".") then
        developer_tasks fs folder_path status project_id rest
          (tasks_in fs item_path status project_id (Some item)
                    (glob_md item_path fs) tasks)
      else developer_tasks fs folder_path status project_id rest tasks
  end.

(** The loop over the folders; [Raise] when a folder that exists cannot be
    listed. *)
Fixpoint tasks_loop (fs : node) (project_path : path) (project_id : string)
    (mappings : list (string * string)) (tasks : list dict) : outcome (list dict) :=
  match mappings with
  | [] => Return tasks
  | (folder_name, status) :: rest =>
      let folder_path := Fs.joinpath project_path folder_name in
      if Fs.exists_ folder_path fs then
        let tasks1 :=
          tasks_in fs folder_path status project_id None (glob_md folder_path fs) tasks in
        match Fs.iterdir folder_path fs with
        | None => Raise
        | Some items =>
            tasks_loop fs project_path project_id rest
              (developer_tasks fs folder_path status project_id items tasks1)
        end
      else tasks_loop fs project_path project_id rest tasks
  end.

Definition get_project_tasks (fs : node) (project_id : string) : outcome (list dict) :=
  let project_path := Fs.joinpath [] project_id in
  if negb (Fs.exists_ project_path fs) then Return []
  else tasks_loop fs project_path project_id task_folder_mappings [].

(** [t['id'] == task_id] *)
Definition has_id (task_id : string) (task : dict) : bool :=
  match get task "id" with
  | PStr s => (s =? task_id)%string
  | _ => false
  end.

(** The branch of [do_GET] for one task: the first task of the listing
    with the id asked for. *)
Definition get_task (fs : node) (project_id task_id : string) : outcome (option dict) :=
  match get_project_tasks fs project_id with
  | Raise => Raise
  | Return tasks => Return (find (has_id task_id) tasks)
  end.

(** Every entry of every directory below [n] has a name that is one path
    component. *)
Fixpoint plain_names (n : node) : bool :=
  match n with
  | File _ => true
  | Dir es =>
      forallb (fun '(x, c) =>
                 (if list_eq_dec string_dec (Fs.components x) [x] then true else false)
                 && plain_names c) es
  end.

(** The task [task] of the listing was read from the file [nm] of the
    directory [dir]. *)
Definition task_from_file (fs : node) (dir : path) (nm status project_id : string)
    (developer : option string) (task : dict) : Prop :=
  In nm (glob_md dir fs) /\
  is_task_name nm = true /\
  (exists text, Fs.read_text (dir ++ [nm])%list fs = Some text) /\
  get task "id" = PStr (stem nm) /\
  get task "column" = PStr status /\
  get task "projectId" = PStr project_id /\
  get task "file_path" = PStr (path_text (dir ++ [nm])%list) /\
  match developer with
  | Some d => get task "developer" = PStr d
  | None => True
  end.

(** Where a task of the listing comes from: a file of a status folder or
    of one of its subfolders whose name does not start with a dot. *)
Definition task_origin (fs : node) (project_path : path) (project_id : string)
    (mappings : list (string * string)) (task : dict) : Prop :=
  exists folder status nm,
    In (folder, status) mappings /\
    let folder_path := Fs.joinpath project_path folder in
    (task_from_file fs folder_path nm status project_id None task \/
     exists items item,
       Fs.iterdir folder_path fs = Some items /\ In item items /\
       Fs.is_dir (folder_path ++ [item])%list fs = true /\
       Str.startswith item "." = false /\
       task_from_file fs (folder_path ++ [item])%list nm status project_id (Some item) task).

(** ** FiraRequestHandler: blocking a task *)








(** ** The listing of the tasks, file by file *)

(** The entry of the listing for the record [task] read from a file. *)
Definition listed_task (status project_id : string) (developer : option string)
    (task : dict) : dict :=
  let task := dict_set task "column" (PStr status) in
  let task := dict_set task "projectId" (PStr project_id) in
  match developer with
  | Some d => dict_set task "developer" (PStr d)
  | None => task
  end.

(** What the file [nm] of the directory [dir] adds to the listing. *)
Definition file_tasks (fs : node) (dir : path) (status project_id : string)
    (developer : option string) (nm : string) : list dict :=
  if is_task_name nm then
    match parse_task_file fs (dir ++ [nm])%list with
    | Some task => [listed_task status project_id developer task]
    | None => []
    end
  else [].

Definition dir_tasks (fs : node) (dir : path) (status project_id : string)
    (developer : option string) : list dict :=
  flat_map (file_tasks fs dir status project_id developer) (glob_md dir fs).

(** What one status folder adds to the listing: its own files, then the
    files of its visible subfolders. *)
Definition folder_tasks (fs : node) (project_path : path) (project_id : string)
    (m : string * string) : list dict :=
  let folder_path := Fs.joinpath project_path (fst m) in
  if Fs.exists_ folder_path fs then
    (dir_tasks fs folder_path (snd m) project_id None ++
     flat_map (fun item =>
                 dir_tasks fs (folder_path ++ [item])%list (snd m) project_id (Some item))
              (developer_folders fs folder_path))%list
  else [].

(** The task shown and the file resolved are the same file, or there is
    neither. *)
Definition same_file (shown : option dict) (resolved : option location) : Prop :=
  match shown, resolved with
  | Some task, Some loc => get task "file_path" = PStr (path_text (current_file loc))
  | None, None => True
  | _, _ => False
  end.

(** ** FiraRequestHandler: the folder of a developer *)

(** [p.mkdir(exist_ok=True)]: the parent of [p] must be a directory and
    [p] must not be a file. *)
Definition mkdir_exist_ok (p : path) (n : node) : option node :=
  if Fs.is_dir (removelast p) n then Fs.mkdir_p p n else None.

(** The README that the branch [create-directory] of [do_POST] writes. *)
Definition directory_readme (dir_name : string) : string :=
  let nl := String Str.newline "" in
  "# " ++ dir_name ++ nl ++ nl ++
  "Tasks assigned to " ++ dir_name ++ nl ++ nl ++
  "## In Progress" ++ nl ++ nl ++
  "*No tasks currently in progress*" ++ nl.

(** The branch [create-directory] of [do_POST]: the tree afterwards and
    the [success] field of the response.  A field that is not a string has
    no [strip]; every exception ends in a failure response. *)
Definition create_directory (fs : node) (data : dict) : node * bool :=
  match get_or data "project_id" (PStr ""),
        get_or data "parent_dir" (PStr ""),
        get_or data "dir_name" (PStr "") with
  | PStr a, PStr b, PStr c =>
      let project_id := Str.strip a in
      let parent_dir := Str.strip b in
      let dir_name := Str.strip c in
      if negb (Str.nonempty project_id && Str.nonempty parent_dir && Str.nonempty dir_name)
      then (fs, false)
      else
        let project_path := Fs.joinpath [] project_id in
        if negb (Fs.exists_ project_path fs) then (fs, false)
        else
          let parent_path := Fs.joinpath project_path parent_dir in
          match mkdir_exist_ok parent_path fs with
          | None => (fs, false)
          | Some fs1 =>
              let target_path := Fs.joinpath parent_path dir_name in
              match mkdir_exist_ok target_path fs1 with
              | None => (fs1, false)
              | Some fs2 =>
                  let readme_path := Fs.joinpath target_path "README.md" in
                  if negb (Fs.exists_ readme_path fs2) then
                    match Fs.write_text readme_path (directory_readme dir_name) fs2 with
                    | Some fs3 => (fs3, true)
                    | None => (fs2, false)
                    end
                  else (fs2, true)
              end
          end
  | _, _, _ => (fs, false)
  end.

(** ** FiraRequestHandler: deleting a project *)

(** [shutil.rmtree(p)]: [p] must be a directory.  [Return None] stands for
    the removal of the base directory itself. *)
Fixpoint remove_dir (p : path) (n : node) : option node :=
  match n with
  | File _ => None
  | Dir es =>
      match p with
      | [] => None
      | x :: p' =>
          match p' with
          | [] =>
              match Fs.assoc x es with
              | Some (Dir _) => Some (Dir (Fs.remove_entry x es))
              | _ => None
              end
          | _ :: _ =>
              match Fs.assoc x es with
              | Some c =>
                  match remove_dir p' c with
                  | Some c' => Some (Dir (Fs.set_entry x c' es))
                  | None => None
                  end
              | None => None
              end
          end
      end
  end.

Definition rmtree (p : path) (n : node) : outcome (option node) :=
  match p with
  | [] => match n with Dir _ => Return None | File _ => Raise end
  | _ :: _ =>
      match remove_dir p n with
      | Some n' => Return (Some n')
      | None => Raise
      end
  end.

(** The project branch of [do_DELETE]: the base directory afterwards
    ([None] when it is gone) and the [success] field of the response. *)
Definition delete_project (fs : node) (project_id : string) : option node * bool :=
  let project_path := Fs.joinpath [] project_id in
  if negb (Fs.exists_ project_path fs) then (Some fs, false)
  else
    match rmtree project_path fs with
    | Return fs' => (fs', true)
    | Raise => (Some fs, false)
    end.


(** ** The place of a task after an update *)

(** The location where the resolver is expected to find a task that was
    updated to the status folder [st] with the developer [dev] that
    [resolve_developer] gave. *)
Definition place_after_update (project_path : path) (task_id : pyval) (st : string)
    (dev : pyval) : location :=
  if truthy dev then developer_candidate project_path task_id st (fmt dev)
  else direct_candidate project_path task_id st.

(** An update of [t1] to a status that is none of the six folders. *)
Definition archive_update : dict :=
  [ ("id", PStr "t1"); ("title", PStr "Fix bug"); ("status", PStr "archive") ].

Definition scenario_archived : node :=
  fst (update_task_file time_2 scenario_backlog "proj-1" archive_update).

(** The frontmatter of a task in review: a bare title and status, a time
    stamp in single quotes and an entry that is no key of the codec. *)
Definition review_entries : list entry :=
  [ {| e_key := "title"; e_quoted := false; e_value := "Fix bug" |};
    {| e_key := "status"; e_quoted := false; e_value := "review" |};
    {| e_key := "started_at"; e_quoted := true; e_value := time_2 |};
    {| e_key := "sprint"; e_quoted := false; e_value := "12" |} ].

(** * Properties *)

(** ** Induction on directory trees *)

Section NodeInduction.

Variable P : node -> Prop.
Hypothesis P_file : forall c, P (File c).
Hypothesis P_dir : forall es, Forall (fun e => P (snd e)) es -> P (Dir es).


End NodeInduction.

(** ** Paths and lookups *)

Lemma lookup_app (p q : path) :
  forall n, Fs.lookup (p ++ q)%list n =
            match Fs.lookup p n with Some c => Fs.lookup q c | None => None end.
Proof.
  induction p as [|x p IH]; intros n; simpl; [reflexivity|].
  destruct n as [c|es]; [reflexivity|].
  destruct (Fs.assoc x es); [apply IH | reflexivity].
Qed.

Lemma exists_prefix (p q : path) (n : node) :
  Fs.exists_ (p ++ q)%list n = true -> Fs.exists_ p n = true.
Proof.
  unfold Fs.exists_. rewrite lookup_app.
  destruct (Fs.lookup p n); [reflexivity | discriminate].
Qed.

Lemma assoc_set_entry_same (x : string) (c : node) (es : list (string * node)) :
  Fs.assoc x (Fs.set_entry x c es) = Some c.
Proof.
  induction es as [|[y d] es IH]; simpl.
  - now rewrite String.eqb_refl.
  - destruct (y =? x) eqn:Hy; simpl; [now rewrite String.eqb_refl | now rewrite Hy].
Qed.

Lemma assoc_set_entry_other (x y : string) (c : node) (es : list (string * node)) :
  x <> y -> Fs.assoc y (Fs.set_entry x c es) = Fs.assoc y es.
Proof.
  intros Hxy. induction es as [|[z d] es IH]; simpl.
  - apply String.eqb_neq in Hxy. now rewrite Hxy.
  - destruct (z =? x) eqn:Hz; simpl.
    + apply String.eqb_eq in Hz. subst z. apply String.eqb_neq in Hxy.
      now rewrite Hxy.
    + destruct (z =? y); [reflexivity | exact IH].
Qed.

Lemma set_entry_twice (x : string) (c d : node) (es : list (string * node)) :
  Fs.set_entry x d (Fs.set_entry x c es) = Fs.set_entry x d es.
Proof.
  induction es as [|[y e] es IH]; simpl.
  - now rewrite String.eqb_refl.
  - destruct (y =? x) eqn:Hy; simpl.
    + now rewrite String.eqb_refl.
    + now rewrite Hy, IH.
Qed.

Lemma lookup_put (p q : path) (c : node) :
  forall n d, Fs.lookup p n = Some d ->
              Fs.lookup (p ++ q)%list (Fs.put p c n) = Fs.lookup q c.
Proof.
  induction p as [|x p IH]; intros n d H; simpl in *; [reflexivity|].
  destruct n as [k|es]; [discriminate|].
  destruct (Fs.assoc x es) as [e|] eqn:He; [|discriminate].
  simpl. rewrite assoc_set_entry_same. now apply (IH e d).
Qed.

Lemma lookup_put_same (p : path) (c : node) (n d : node) :
  Fs.lookup p n = Some d -> Fs.lookup p (Fs.put p c n) = Some c.
Proof.
  intros H. pose proof (lookup_put p [] c n d H) as E.
  now rewrite app_nil_r in E.
Qed.

Lemma put_twice (p : path) (c1 c2 : node) :
  forall n d, Fs.lookup p n = Some d ->
              Fs.put p c2 (Fs.put p c1 n) = Fs.put p c2 n.
Proof.
  induction p as [|x p IH]; intros n d H; simpl in *; [reflexivity|].
  destruct n as [k|es]; [discriminate|].
  destruct (Fs.assoc x es) as [e|] eqn:He; [|discriminate].
  simpl. rewrite assoc_set_entry_same, set_entry_twice. now rewrite (IH e d).
Qed.

(** The operations below a directory that exists act on its subtree. *)
Lemma mkdir_p_frame (p q : path) :
  forall n c, Fs.lookup p n = Some c ->
              Fs.mkdir_p (p ++ q)%list n =
              match Fs.mkdir_p q c with
              | Some c' => Some (Fs.put p c' n)
              | None => None
              end.
Proof.
  induction p as [|x p IH]; intros n c H; simpl in *.
  - injection H as ->. now destruct (Fs.mkdir_p q c).
  - destruct n as [k|es]; [discriminate|].
    destruct (Fs.assoc x es) as [e|] eqn:He; [|discriminate].
    rewrite (IH e c H). now destruct (Fs.mkdir_p q c).
Qed.

Lemma write_text_frame (p : path) (x : string) (q : path) (s : string) :
  forall n c, Fs.lookup p n = Some c ->
              Fs.write_text (p ++ x :: q)%list s n =
              match Fs.write_text (x :: q) s c with
              | Some c' => Some (Fs.put p c' n)
              | None => None
              end.
Proof.
  induction p as [|y p IH]; intros n c H.
  - simpl in H. injection H as ->. simpl app.
    destruct (Fs.write_text (x :: q) s c); reflexivity.
  - simpl in H. destruct n as [k|es]; [discriminate|].
    destruct (Fs.assoc y es) as [e|] eqn:He; [|discriminate].
    change ((y :: p) ++ x :: q)%list with (y :: (p ++ x :: q))%list.
    specialize (IH e c H).
    set (w := Fs.write_text (x :: q) s c) in *.
    cbn [Fs.write_text Fs.put]. rewrite He.
    destruct (p ++ x :: q)%list as [|z r] eqn:Hpq; [now destruct p|].
    rewrite IH. destruct w; reflexivity.
Qed.

Lemma unlink_frame (p : path) (x : string) (q : path) :
  forall n c, Fs.lookup p n = Some c ->
              Fs.unlink (p ++ x :: q)%list n =
              match Fs.unlink (x :: q) c with
              | Some c' => Some (Fs.put p c' n)
              | None => None
              end.
Proof.
  induction p as [|y p IH]; intros n c H.
  - simpl in H. injection H as ->. simpl app.
    destruct (Fs.unlink (x :: q) c); reflexivity.
  - simpl in H. destruct n as [k|es]; [discriminate|].
    destruct (Fs.assoc y es) as [e|] eqn:He; [|discriminate].
    change ((y :: p) ++ x :: q)%list with (y :: (p ++ x :: q))%list.
    specialize (IH e c H).
    set (w := Fs.unlink (x :: q) c) in *.
    cbn [Fs.unlink Fs.put]. rewrite He.
    destruct (p ++ x :: q)%list as [|z r] eqn:Hpq; [now destruct p|].
    rewrite IH. destruct w; reflexivity.
Qed.

(** A directory made where nothing was is empty. *)
Lemma mkdir_p_fresh (p : path) :
  forall n n', Fs.exists_ p n = false -> Fs.mkdir_p p n = Some n' ->
               Fs.lookup p n' = Some (Dir []).
Proof.
  unfold Fs.exists_. induction p as [|x p IH]; intros n n' Hex Hmk; simpl in *.
  - discriminate.
  - destruct n as [k|es]; [discriminate|].
    destruct (Fs.assoc x es) as [e|] eqn:He.
    + destruct (Fs.mkdir_p p e) as [e'|] eqn:Hm; [|discriminate].
      injection Hmk as <-. simpl. rewrite assoc_set_entry_same.
      now apply (IH e e').
    + destruct (Fs.mkdir_p p (Dir [])) as [e'|] eqn:Hm; [|discriminate].
      injection Hmk as <-. simpl. rewrite assoc_set_entry_same.
      clear IH Hex He. revert e' Hm.
      induction p as [|y p IHp]; intros e' Hm; simpl in *.
      * now injection Hm as <-.
      * destruct (Fs.mkdir_p p (Dir [])) as [e''|] eqn:Hm'; [|discriminate].
        injection Hm as <-. simpl. rewrite String.eqb_refl. now apply IHp.
Qed.

(** ** The WIP check *)






(** ** Cumulative-flow history *)

Lemma snapshot_eqb_refl (a : snapshot) : snapshot_eqb a a = true.
Proof.
  unfold snapshot_eqb. rewrite !String.eqb_refl, !Z.eqb_refl. reflexivity.
Qed.

Lemma snapshot_eqb_date (a b : snapshot) :
  snapshot_eqb a b = true -> s_date a = s_date b.
Proof.
  unfold snapshot_eqb. intros H.
  repeat (apply andb_prop in H as [H _]). now apply String.eqb_eq.
Qed.

(** The replace-or-append branch of the source does what [upsert] says. *)
Lemma updated_history_upsert (snap : snapshot) (h : list snapshot) :
  updated_history h snap = Some (upsert snap h).
Proof.
  unfold updated_history. induction h as [|y h IH]; [reflexivity|].
  simpl. destruct (s_date y =? s_date snap) eqn:Hy.
  - simpl. rewrite snapshot_eqb_refl. reflexivity.
  - destruct (filter (fun s => s_date s =? s_date snap) h) as [|e rest] eqn:Hf.
    + injection IH as IH. simpl. now rewrite IH.
    + assert (He : s_date e = s_date snap).
      { assert (Hin : In e (filter (fun s => s_date s =? s_date snap) h))
          by (rewrite Hf; now left).
        apply filter_In in Hin as [_ Hin]. now apply String.eqb_eq. }
      simpl. destruct (snapshot_eqb y e) eqn:Hye.
      * apply snapshot_eqb_date in Hye. rewrite Hye, He, String.eqb_refl in Hy.
        discriminate.
      * destruct (index_of e h) as [i|]; [|discriminate].
        injection IH as IH. simpl. now rewrite IH.
Qed.

Lemma store_history_eq (snap : snapshot) (h : list snapshot) :
  store_history h snap = Some (keep_latest (sort_by_date (upsert snap h))).
Proof. unfold store_history. now rewrite updated_history_upsert. Qed.

Lemma in_upsert (snap x : snapshot) (h : list snapshot) :
  In x (upsert snap h) -> x = snap \/ In x h.
Proof.
  induction h as [|y h IH]; simpl.
  - intros [->|[]]. now left.
  - destruct (s_date y =? s_date snap); simpl; intros [->|H]; auto.
    destruct (IH H); auto.
Qed.

Lemma upsert_in (snap : snapshot) (h : list snapshot) : In snap (upsert snap h).
Proof.
  induction h as [|y h IH]; simpl; [now left|].
  destruct (s_date y =? s_date snap); simpl; auto.
Qed.

Lemma count_date_cons (d : string) (y : snapshot) (h : list snapshot) :
  count_date d (y :: h) =
  ((if (s_date y =? d)%string then 1 else 0) + count_date d h)%nat.
Proof. unfold count_date. simpl. destruct (s_date y =? d); reflexivity. Qed.

Lemma count_date_upsert_same (snap : snapshot) (h : list snapshot) :
  count_date (s_date snap) (upsert snap h) = Nat.max 1 (count_date (s_date snap) h).
Proof.
  induction h as [|y h IH].
  - simpl. rewrite count_date_cons, String.eqb_refl. reflexivity.
  - cbn [upsert]. destruct (s_date y =? s_date snap) eqn:Hy.
    + rewrite !count_date_cons, Hy, String.eqb_refl. cbv iota. lia.
    + rewrite !count_date_cons, Hy, IH. cbv iota. lia.
Qed.

Lemma count_date_upsert_other (d : string) (snap : snapshot) (h : list snapshot) :
  s_date snap <> d -> count_date d (upsert snap h) = count_date d h.
Proof.
  intros Hd. apply String.eqb_neq in Hd.
  induction h as [|y h IH].
  - simpl. rewrite count_date_cons, Hd. reflexivity.
  - simpl. destruct (s_date y =? s_date snap) eqn:Hy.
    + apply String.eqb_eq in Hy. rewrite !count_date_cons, Hy, Hd. reflexivity.
    + rewrite !count_date_cons, IH. reflexivity.
Qed.

(** With at most one entry of that day before, the entries of the day of
    [snap] after the update are [snap] itself. *)
Lemma upsert_same_date (snap x : snapshot) (h : list snapshot) :
  (count_date (s_date snap) h <= 1)%nat ->
  In x (upsert snap h) -> s_date x = s_date snap -> x = snap.
Proof.
  induction h as [|y h IH]; simpl; intros Hc Hin Hx.
  - destruct Hin as [->|[]]. reflexivity.
  - rewrite count_date_cons in Hc.
    destruct (s_date y =? s_date snap) eqn:Hy.
    + destruct Hin as [->|Hin]; [reflexivity|].
      assert (H0 : count_date (s_date snap) h = 0%nat) by lia.
      unfold count_date in H0. apply length_zero_iff_nil in H0.
      assert (Hf : In x (filter (fun s => s_date s =? s_date snap) h))
        by (apply filter_In; split; [exact Hin | now apply String.eqb_eq]).
      rewrite H0 in Hf. destruct Hf.
    + destruct Hin as [->|Hin].
      * rewrite Hx, String.eqb_refl in Hy. discriminate.
      * apply IH; [lia | exact Hin | exact Hx].
Qed.

(** *** The stable sort *)

Lemma in_insert_by_date (a x : snapshot) (l : list snapshot) :
  In x (insert_by_date a l) <-> x = a \/ In x l.
Proof.
  induction l as [|y l IH]; simpl.
  - split; [intros [->|[]]; now left | intros [->|[]]; now left].
  - destruct (String.leb (s_date a) (s_date y)); simpl.
    + split; [intros [->|H]; auto | intros [->|H]; auto].
    + rewrite IH. split.
      * intros [->|[->|H]]; auto.
      * intros [->|[->|H]]; auto.
Qed.

Lemma in_sort_by_date (x : snapshot) (l : list snapshot) :
  In x (sort_by_date l) <-> In x l.
Proof.
  induction l as [|a l IH]; simpl; [reflexivity|].
  rewrite in_insert_by_date, IH. split; intros [H|H]; auto.
Qed.

Lemma count_date_insert (d : string) (a : snapshot) (l : list snapshot) :
  count_date d (insert_by_date a l) = count_date d (a :: l).
Proof.
  induction l as [|y l IH]; simpl; [reflexivity|].
  destruct (String.leb (s_date a) (s_date y)); [reflexivity|].
  rewrite count_date_cons, IH, !count_date_cons. lia.
Qed.

Lemma count_date_sort (d : string) (l : list snapshot) :
  count_date d (sort_by_date l) = count_date d l.
Proof.
  induction l as [|a l IH]; simpl; [reflexivity|].
  rewrite count_date_insert, !count_date_cons, IH. reflexivity.
Qed.

Lemma leb_false_flip (s t : string) : String.leb s t = false -> String.leb t s = true.
Proof. intros H. destruct (String.leb_total s t) as [H'|H']; congruence. Qed.

Lemma insert_by_date_sorted (a : snapshot) (l : list snapshot) :
  Sorted date_le l -> Sorted date_le (insert_by_date a l).
Proof.
  induction l as [|y l IH]; intros Hs; simpl.
  - constructor; constructor.
  - destruct (String.leb (s_date a) (s_date y)) eqn:Hay.
    + constructor; [exact Hs | constructor; exact Hay].
    + apply Sorted_inv in Hs as [Hs Hhd]. constructor; [auto|].
      destruct l as [|z l]; simpl.
      * constructor. now apply leb_false_flip.
      * destruct (String.leb (s_date a) (s_date z)).
        -- constructor. now apply leb_false_flip.
        -- constructor. now inversion Hhd.
Qed.

Lemma sort_by_date_sorted (l : list snapshot) : Sorted date_le (sort_by_date l).
Proof.
  induction l as [|a l IH]; simpl; [constructor | now apply insert_by_date_sorted].
Qed.

(** An element later than every element of [l] goes to the end. *)
Lemma insert_by_date_last (a : snapshot) (l : list snapshot) :
  (forall y, In y l -> String.leb (s_date a) (s_date y) = false) ->
  insert_by_date a l = (l ++ [a])%list.
Proof.
  induction l as [|y l IH]; intros H; simpl; [reflexivity|].
  rewrite (H y (or_introl eq_refl)). f_equal. apply IH.
  intros z Hz. apply H. now right.
Qed.

Lemma insert_by_date_nonempty (a : snapshot) (l : list snapshot) :
  insert_by_date a l <> [].
Proof.
  destruct l as [|y l]; simpl; [discriminate|].
  destruct (String.leb (s_date a) (s_date y)); discriminate.
Qed.

(** An element not later than the last one leaves the last one in place. *)
Lemma insert_by_date_keeps_last (a m dflt : snapshot) (l : list snapshot) :
  l <> [] -> last l dflt = m ->
  String.leb (s_date a) (s_date m) = true ->
  last (insert_by_date a l) dflt = m.
Proof.
  induction l as [|y l IH]; intros Hne Hlast Ham; [congruence|].
  destruct l as [|z l].
  - simpl in Hlast. subst y. simpl. rewrite Ham. reflexivity.
  - cbn [insert_by_date].
    destruct (String.leb (s_date a) (s_date y)).
    + exact Hlast.
    + change (last (y :: insert_by_date a (z :: l)) dflt = m).
      pose proof (insert_by_date_nonempty a (z :: l)) as Hn.
      destruct (insert_by_date a (z :: l)) as [|w r] eqn:Hi; [congruence|].
      change (last (w :: r) dflt = m).
      apply IH; [discriminate | exact Hlast | exact Ham].
Qed.

Lemma sort_by_date_last_max (m dflt : snapshot) (l1 l2 : list snapshot) :
  (forall y, In y (l1 ++ l2)%list -> String.leb (s_date m) (s_date y) = false) ->
  last (sort_by_date (l1 ++ m :: l2)%list) dflt = m.
Proof.
  induction l1 as [|a l1 IH]; intros H; simpl.
  - rewrite insert_by_date_last.
    + apply last_last.
    + intros y Hy. apply H. simpl. now apply in_sort_by_date.
  - apply insert_by_date_keeps_last.
    + intros Hnil.
      assert (Hin : In m (sort_by_date (l1 ++ m :: l2)%list))
        by (apply in_sort_by_date, in_or_app; right; now left).
      rewrite Hnil in Hin. destruct Hin.
    + apply IH. intros y Hy. apply H. now right.
    + apply leb_false_flip, H. now left.
Qed.

(** With at most one entry of the day before, the update puts [snap] among
    entries of other days that all come from the old history. *)
Lemma upsert_split (snap : snapshot) (h : list snapshot) :
  (count_date (s_date snap) h <= 1)%nat ->
  exists l1 l2,
    upsert snap h = (l1 ++ snap :: l2)%list /\
    forall y, In y (l1 ++ l2)%list -> In y h /\ s_date y <> s_date snap.
Proof.
  induction h as [|y h IH]; intros Hc.
  - exists [], []. split; [reflexivity | intros y []].
  - rewrite count_date_cons in Hc. simpl.
    destruct (s_date y =? s_date snap) eqn:Hy.
    + exists [], h. split; [reflexivity|].
      intros z Hz. simpl in Hz. split; [now right|].
      intros Hzd.
      assert (Hf : In z (filter (fun s => s_date s =? s_date snap) h))
        by (apply filter_In; split; [exact Hz | now apply String.eqb_eq]).
      assert (H0 : count_date (s_date snap) h = 0%nat) by lia.
      unfold count_date in H0. apply length_zero_iff_nil in H0.
      rewrite H0 in Hf. destruct Hf.
    + destruct IH as (l1 & l2 & Heq & Hall); [lia|].
      exists (y :: l1), l2. split; [simpl; now rewrite Heq|].
      intros z [->|Hz].
      * split; [now left | now apply String.eqb_neq].
      * destruct (Hall z Hz). split; [now right | assumption].
Qed.

Lemma length_upsert (snap : snapshot) (h : list snapshot) :
  List.length (upsert snap h) =
  (List.length h + (1 - count_date (s_date snap) h))%nat.
Proof.
  induction h as [|y h IH]; [reflexivity|].
  cbn [upsert]. rewrite count_date_cons.
  destruct (s_date y =? s_date snap); cbn [List.length]; [lia|]. rewrite IH. lia.
Qed.

Lemma length_insert_by_date (a : snapshot) (l : list snapshot) :
  List.length (insert_by_date a l) = S (List.length l).
Proof.
  induction l as [|y l IH]; simpl; [reflexivity|].
  destruct (String.leb (s_date a) (s_date y)); simpl; [reflexivity | now rewrite IH].
Qed.

Lemma length_sort_by_date (l : list snapshot) :
  List.length (sort_by_date l) = List.length l.
Proof.
  induction l as [|a l IH]; simpl; [reflexivity|].
  now rewrite length_insert_by_date, IH.
Qed.

(** *** Keeping the latest entries *)

Lemma in_skipn_in (n : nat) (x : snapshot) (l : list snapshot) :
  In x (skipn n l) -> In x l.
Proof.
  revert l. induction n as [|n IH]; intros [|y l]; simpl; auto.
Qed.

Lemma sorted_skipn (n : nat) (l : list snapshot) :
  Sorted date_le l -> Sorted date_le (skipn n l).
Proof.
  revert l. induction n as [|n IH]; intros [|y l] Hs; simpl; auto.
  apply IH. now apply Sorted_inv in Hs.
Qed.

Lemma count_date_skipn (d : string) (n : nat) (l : list snapshot) :
  (count_date d (skipn n l) <= count_date d l)%nat.
Proof.
  revert l. induction n as [|n IH]; intros [|y l]; simpl; auto.
  rewrite count_date_cons. specialize (IH l). lia.
Qed.

Lemma last_in_skipn (n : nat) (dflt : snapshot) (l : list snapshot) :
  (n < List.length l)%nat -> In (last l dflt) (skipn n l).
Proof.
  revert l. induction n as [|n IH]; intros l Hn.
  - simpl. destruct l as [|y l]; [simpl in Hn; lia|].
    destruct (@exists_last _ (y :: l)) as (l' & z & Hz); [discriminate|].
    rewrite Hz, last_last. apply in_or_app. right. now left.
  - destruct l as [|y l]; [simpl in Hn; lia|].
    simpl in Hn. cbn [skipn].
    destruct l as [|z l]; [simpl in Hn; lia|].
    change (last (y :: z :: l) dflt) with (last (z :: l) dflt).
    apply IH. simpl in *. lia.
Qed.

Lemma keep_latest_length (l : list snapshot) :
  (List.length (keep_latest l) <= max_days)%nat.
Proof.
  unfold keep_latest. destruct (max_days <? List.length l)%nat eqn:H.
  - apply Nat.ltb_lt in H. rewrite length_skipn. lia.
  - apply Nat.ltb_ge in H. exact H.
Qed.

Lemma keep_latest_in (x : snapshot) (l : list snapshot) :
  In x (keep_latest l) -> In x l.
Proof.
  unfold keep_latest. destruct (max_days <? List.length l)%nat; [apply in_skipn_in | auto].
Qed.

Lemma keep_latest_sorted (l : list snapshot) :
  Sorted date_le l -> Sorted date_le (keep_latest l).
Proof.
  unfold keep_latest. destruct (max_days <? List.length l)%nat; [apply sorted_skipn | auto].
Qed.

Lemma keep_latest_count (d : string) (l : list snapshot) :
  (count_date d (keep_latest l) <= count_date d l)%nat.
Proof.
  unfold keep_latest.
  destruct (max_days <? List.length l)%nat; [apply count_date_skipn | lia].
Qed.

Lemma keep_latest_short (l : list snapshot) :
  (List.length l <= max_days)%nat -> keep_latest l = l.
Proof.
  intros H. unfold keep_latest. apply Nat.ltb_ge in H. now rewrite H.
Qed.

Lemma keep_latest_last (dflt : snapshot) (l : list snapshot) :
  l <> [] -> In (last l dflt) (keep_latest l).
Proof.
  intros Hne. unfold keep_latest.
  destruct (max_days <? List.length l)%nat eqn:H.
  - apply Nat.ltb_lt in H. apply last_in_skipn. unfold max_days in *. lia.
  - destruct (@exists_last _ l Hne) as (l' & z & ->).
    rewrite last_last. apply in_or_app. right. now left.
Qed.

(** A member that is counted at most once and is present is counted once. *)
Lemma count_date_in (x : snapshot) (l : list snapshot) :
  In x l -> (1 <= count_date (s_date x) l)%nat.
Proof.
  intros Hin. unfold count_date.
  assert (Hf : In x (filter (fun s => s_date s =? s_date x) l))
    by (apply filter_In; split; [exact Hin | apply String.eqb_refl]).
  destruct (filter (fun s => s_date s =? s_date x) l); [destruct Hf | simpl; lia].
Qed.

(** What one store does to the history of a project. *)
Lemma store_history_spec (h : list snapshot) (snap : snapshot) :
  exists h',
    store_history h snap = Some h' /\
    Sorted date_le h' /\
    (List.length h' <= 90)%nat /\
    (forall x, In x h' -> x = snap \/ In x h) /\
    (forall day, day <> s_date snap -> (count_date day h' <= count_date day h)%nat) /\
    ((count_date (s_date snap) h <= 1)%nat ->
       (count_date (s_date snap) h' <= 1)%nat /\
       (forall x, In x h' -> s_date x = s_date snap -> x = snap) /\
       ((List.length h < 90)%nat \/
        ((List.length h <= 90)%nat /\ count_date (s_date snap) h = 1%nat) \/
        (forall x, In x h -> String.leb (s_date x) (s_date snap) = true) ->
        count_date (s_date snap) h' = 1%nat /\ In snap h')).
Proof.
  exists (keep_latest (sort_by_date (upsert snap h))).
  split; [apply store_history_eq|].
  split; [apply keep_latest_sorted, sort_by_date_sorted|].
  split; [apply keep_latest_length|].
  split.
  { intros x Hx. apply keep_latest_in in Hx. apply -> in_sort_by_date in Hx. now apply in_upsert. }
  split.
  { intros day Hday.
    etransitivity; [apply keep_latest_count|].
    rewrite count_date_sort, count_date_upsert_other; auto. }
  intros Hc.
  assert (Hle : (count_date (s_date snap) (keep_latest (sort_by_date (upsert snap h))) <= 1)%nat).
  { etransitivity; [apply keep_latest_count|].
    rewrite count_date_sort, count_date_upsert_same. lia. }
  split; [exact Hle|].
  split.
  { intros x Hx Hd. apply keep_latest_in in Hx. apply -> in_sort_by_date in Hx.
    now apply (upsert_same_date snap x h). }
  intros Hkeep.
  assert (Hin : In snap (keep_latest (sort_by_date (upsert snap h)))).
  { destruct Hkeep as [Hlen|[[Hlen Hone]|Hmax]].
    - rewrite keep_latest_short.
      + apply in_sort_by_date, upsert_in.
      + rewrite length_sort_by_date, length_upsert. unfold max_days. lia.
    - rewrite keep_latest_short.
      + apply in_sort_by_date, upsert_in.
      + rewrite length_sort_by_date, length_upsert. unfold max_days. lia.
    - destruct (upsert_split snap h Hc) as (l1 & l2 & Heq & Hall).
      rewrite Heq.
      rewrite <- (sort_by_date_last_max snap snap l1 l2) at 1.
      + apply keep_latest_last. intros Hnil.
        assert (Hs : In snap (sort_by_date (l1 ++ snap :: l2)%list))
          by (apply in_sort_by_date, in_or_app; right; now left).
        rewrite Hnil in Hs. destruct Hs.
      + intros y Hy. destruct (Hall y Hy) as [Hyh Hyd].
        destruct (String.leb (s_date snap) (s_date y)) eqn:Hsy; [|reflexivity].
        exfalso. apply Hyd. apply String.leb_antisym; [apply Hmax, Hyh | exact Hsy]. }
  split; [|exact Hin].
  pose proof (count_date_in snap _ Hin). lia.
Qed.

Lemma history_of_cfd_set (d : cfd_data) (project_id : string) (h : list snapshot) :
  history_of (cfd_set d project_id h) project_id = h.
Proof.
  unfold history_of. induction d as [|[k h0] d IH]; simpl.
  - now rewrite String.eqb_refl.
  - destruct (k =? project_id) eqn:Hk; simpl; rewrite Hk; [reflexivity | exact IH].
Qed.

Lemma history_after_store (d : cfd_data) (project_id : string)
    (snap : snapshot) (h' : list snapshot) :
  store_history (history_of d project_id) snap = Some h' ->
  history_of (fst (store_cfd_snapshot d project_id snap)) project_id = h'.
Proof.
  intros H. unfold store_cfd_snapshot. rewrite H. simpl. apply history_of_cfd_set.
Qed.

Lemma store_cfd_snapshot_eq (d : cfd_data) (project_id : string)
    (snap : snapshot) (h' : list snapshot) :
  store_history (history_of d project_id) snap = Some h' ->
  store_cfd_snapshot d project_id snap = (cfd_set d project_id h', true).
Proof. intros H. unfold store_cfd_snapshot. now rewrite H. Qed.

(** C6, as the code has it.
    [store_cfd_snapshot] succeeds and leaves the history of
    the project sorted by ascending date and at most 90 entries long; no
    day gains a second entry.  When the stored history had at most one
    entry for the day of the snapshot, every entry of that day afterwards
    is the snapshot; the snapshot is present, exactly once, when it is not
    cut off with the oldest entries (the history had fewer than 90 entries,
    or had at most 90 with one of that day, or no later day), and a second
    store for the same day then leaves exactly one entry of that day, the
    second snapshot. *)
Theorem store_cfd_snapshot_history :
  forall (d : cfd_data) (project_id : string) (snap : snapshot),
    let h := history_of d project_id in
    let d1 := fst (store_cfd_snapshot d project_id snap) in
    let h1 := history_of d1 project_id in
    snd (store_cfd_snapshot d project_id snap) = true /\
    Sorted date_le h1 /\
    (List.length h1 <= 90)%nat /\
    (forall day, day <> s_date snap -> (count_date day h1 <= count_date day h)%nat) /\
    ((count_date (s_date snap) h <= 1)%nat ->
     (count_date (s_date snap) h1 <= 1)%nat /\
     (forall x, In x h1 -> s_date x = s_date snap -> x = snap) /\
     ((List.length h < 90)%nat \/
      ((List.length h <= 90)%nat /\ count_date (s_date snap) h = 1%nat) \/
      (forall x, In x h -> String.leb (s_date x) (s_date snap) = true) ->
      count_date (s_date snap) h1 = 1%nat /\ In snap h1 /\
      forall snap2, s_date snap2 = s_date snap ->
        let h2 := history_of (fst (store_cfd_snapshot d1 project_id snap2)) project_id in
        count_date (s_date snap) h2 = 1%nat /\ In snap2 h2 /\
        forall x, In x h2 -> s_date x = s_date snap -> x = snap2)).
Proof.
  intros d project_id snap h d1 h1.
  destruct (store_history_spec h snap)
    as (h' & Hst & Hsorted & Hlen & Hfrom & Hother & Hsame).
  assert (Hd1 : store_cfd_snapshot d project_id snap = (cfd_set d project_id h', true))
    by (now apply store_cfd_snapshot_eq).
  assert (Hh1 : h1 = h') by (subst h1 d1; now apply history_after_store).
  rewrite Hd1, Hh1. simpl snd.
  split; [reflexivity|]. split; [exact Hsorted|]. split; [exact Hlen|].
  split; [exact Hother|].
  intros Hc. destruct (Hsame Hc) as (Hle & Honly & Hkeep).
  split; [exact Hle|]. split; [exact Honly|].
  intros Hcond. destruct (Hkeep Hcond) as [Hone Hin].
  split; [exact Hone|]. split; [exact Hin|].
  intros snap2 Hdate h2.
  destruct (store_history_spec h' snap2)
    as (h2' & Hst2 & _ & _ & _ & _ & Hsame2).
  assert (Hh2 : h2 = h2').
  { subst h2. apply history_after_store. fold h1. now rewrite Hh1. }
  rewrite Hh2. rewrite Hdate in Hsame2.
  destruct (Hsame2 Hle) as (_ & Honly2 & Hkeep2).
  destruct Hkeep2 as [Hone2 Hin2]; [right; left; split; [exact Hlen | exact Hone]|].
  split; [exact Hone2|]. split; [exact Hin2|].
  intros x Hx Hxd. apply Honly2; [exact Hx | congruence].
Qed.

(** Ninety daily stores from 2 January 2024 on, then a store for 1 January:
    the history holds no entry for the day just stored. *)
Lemma store_cfd_snapshot_drops_older_day :
  let full := store_days "proj-1" (seq 1 90) [] in
  let after := fst (store_cfd_snapshot full "proj-1" (snapshot_on 0 7)) in
  List.length (history_of full "proj-1") = 90%nat /\
  snd (store_cfd_snapshot full "proj-1" (snapshot_on 0 7)) = true /\
  count_date (s_date (snapshot_on 0 7)) (history_of after "proj-1") = 0%nat.
Proof. vm_compute. repeat split. Qed.

(** ** Project creation *)

Lemma put_same (p : path) :
  forall n c, Fs.lookup p n = Some c -> Fs.put p c n = n.
Proof.
  induction p as [|x p IH]; intros n c H; simpl in *; [congruence|].
  destruct n as [k|es]; [reflexivity|].
  destruct (Fs.assoc x es) as [e|] eqn:He; [|reflexivity].
  rewrite (IH e c H). f_equal. clear IH H.
  induction es as [|[y d] es IHes]; simpl in *; [discriminate|].
  destruct (y =? x) eqn:Hy.
  - apply String.eqb_eq in Hy. congruence.
  - f_equal. now apply IHes.
Qed.

(** The loop over the columns acts on the project directory alone. *)
Lemma make_columns_frame (pp : path) (cols : list string) :
  forall n c, Fs.lookup pp n = Some c ->
              make_columns pp cols n =
              (Fs.put pp (fst (make_columns [] cols c)) n, snd (make_columns [] cols c)).
Proof.
  induction cols as [|col cols IH]; intros n c H; cbn [make_columns].
  - simpl. now rewrite (put_same pp n c H).
  - unfold Fs.joinpath. simpl app. rewrite <- !app_assoc.
    rewrite (mkdir_p_frame pp (Fs.components col) n c H).
    destruct (Fs.mkdir_p (Fs.components col) c) as [c1|] eqn:H1.
    + rewrite (mkdir_p_frame pp _ (Fs.put pp c1 n) c1 (lookup_put_same pp c1 n c H)).
      destruct (Fs.mkdir_p (Fs.components col ++ Fs.components default_dev)%list c1)
        as [c2|] eqn:H2.
      * rewrite (put_twice pp c1 c2 n c H).
        rewrite (IH (Fs.put pp c2 n) c2 (lookup_put_same pp c2 n c H)).
        unfold Fs.joinpath. simpl app.
        now rewrite (put_twice pp c2 _ n c H).
      * reflexivity.
    + simpl. now rewrite (put_same pp n c H).
Qed.

(** Once the project directory is made, the rest of [create_project]
    cannot fail and leaves the skeleton. *)
Lemma create_project_fresh (fs fs1 : node) (project_data : dict) (pid : string) :
  get project_data "id" = PStr pid ->
  Str.nonempty pid = true ->
  Fs.exists_ (Fs.joinpath [] pid) fs = false ->
  Fs.mkdir_p (Fs.joinpath [] pid) fs = Some fs1 ->
  create_project fs project_data =
    (Fs.put (Fs.joinpath [] pid)
            (project_skeleton (project_description project_data pid)) fs1,
     Return true).
Proof.
  intros Hid Hne Hex Hmk. unfold create_project. rewrite Hid. simpl truthy.
  rewrite Hne. simpl negb. cbv iota. rewrite Hex.
  unfold Fs.mkdir_new. rewrite Hex, Hmk.
  pose proof (mkdir_p_fresh _ _ _ Hex Hmk) as Hl.
  set (pp := Fs.joinpath [] pid) in *.
  change (Fs.joinpath pp "README.md") with (pp ++ ["README.md"])%list.
  rewrite (write_text_frame pp "README.md" [] _ fs1 (Dir []) Hl).
  cbn [Fs.write_text Fs.assoc Fs.set_entry].
  rewrite (make_columns_frame pp columns _ _ (lookup_put_same pp _ fs1 _ Hl)).
  rewrite (put_twice pp _ _ fs1 _ Hl).
  reflexivity.
Qed.

(** The directory a successful [create_project] leaves. *)
Lemma create_project_skeleton (fs fs' : node) (project_data : dict) (pid : string) :
  get project_data "id" = PStr pid ->
  create_project fs project_data = (fs', Return true) ->
  Fs.lookup (Fs.joinpath [] pid) fs' =
    Some (project_skeleton (project_description project_data pid)).
Proof.
  intros Hid Hcreate. unfold create_project in Hcreate. rewrite Hid in Hcreate.
  simpl truthy in Hcreate.
  destruct (Str.nonempty pid) eqn:Hne; simpl negb in Hcreate; cbv iota in Hcreate;
    [|discriminate].
  destruct (Fs.exists_ (Fs.joinpath [] pid) fs) eqn:Hex; [discriminate|].
  unfold Fs.mkdir_new in Hcreate. rewrite Hex in Hcreate.
  destruct (Fs.mkdir_p (Fs.joinpath [] pid) fs) as [fs1|] eqn:Hmk; [|discriminate].
  pose proof (create_project_fresh fs fs1 project_data pid Hid Hne Hex Hmk) as Hfresh.
  unfold create_project in Hfresh. rewrite Hid in Hfresh. simpl truthy in Hfresh.
  rewrite Hne in Hfresh. simpl negb in Hfresh. cbv iota in Hfresh.
  rewrite Hex in Hfresh. unfold Fs.mkdir_new in Hfresh. rewrite Hex, Hmk in Hfresh.
  rewrite Hfresh in Hcreate. injection Hcreate as <-.
  exact (lookup_put_same _ _ fs1 _ (mkdir_p_fresh _ _ _ Hex Hmk)).
Qed.




(** ** The parser *)

Lemma split_once_prefix (sep s : string) :
  String.prefix sep s = true ->
  Str.split_once sep s = Some ("", Str.drop (String.length sep) s).
Proof. intros H. destruct s; cbn [Str.split_once]; now rewrite H. Qed.

(** A content that starts with the delimiter and shows fewer than two of
    them has none after the leading one. *)
Lemma single_delimiter (content : string) :
  Str.startswith content "---" = true ->
  (Str.occurrences "---" content < 2)%nat ->
  Str.split_once "---" (Str.drop 3 content) = None.
Proof.
  unfold Str.startswith, Str.occurrences. intros Hs Hocc.
  cbn [Str.occurrences_upto] in Hocc. rewrite (split_once_prefix _ _ Hs) in Hocc.
  change (String.length "---") with 3%nat in Hocc.
  destruct content as [|c content]; [discriminate Hs|].
  cbn [String.length Str.occurrences_upto] in Hocc.
  destruct (Str.split_once "---" (Str.drop 3 (String c content))) as [[a b]|];
    [lia | reflexivity].
Qed.

(** A content without a frontmatter block is all body. *)
Lemma split_frontmatter_without_block (content : string) :
  Str.startswith content "---" = false \/
  (Str.occurrences "---" content < 2)%nat ->
  split_frontmatter content = ("", content).
Proof.
  unfold split_frontmatter. intros H.
  destruct (Str.startswith content "---") eqn:Hs; [|reflexivity].
  destruct H as [H|H]; [discriminate|].
  pose proof (single_delimiter content Hs H) as Hnone.
  unfold Str.startswith in Hs. cbn [Str.split_max].
  rewrite (split_once_prefix _ _ Hs).
  change (String.length "---") with 3%nat.
  now rewrite Hnone.
Qed.

(** C9.  [parse_task_file] always returns: nothing when the file cannot be
    read as text, a task otherwise.  When the content does not start with
    the delimiter or shows fewer than two delimiters, the whole content is
    the body and the metadata is empty; a field the metadata lacks takes
    its default, [medium] for the priority and [0h] for the time
    estimate. *)
Theorem parse_task_file_total_and_lenient :
  forall (fs : node) (file_path : path),
    (Fs.read_text file_path fs = None -> parse_task_file fs file_path = None) /\
    (forall content, Fs.read_text file_path fs = Some content ->
       exists task,
         parse_task_file fs file_path = Some task /\
         let m := parse_metadata (fst (split_frontmatter content)) in
         (meta_get m "priority" = None -> get task "priority" = PStr "medium") /\
         (meta_get m "estimate" = None -> get task "timeEstimate" = PStr "0h") /\
         (Str.startswith content "---" = false \/
          (Str.occurrences "---" content < 2)%nat ->
          m = [] /\
          get task "content" = PStr content /\
          get task "priority" = PStr "medium" /\
          get task "timeEstimate" = PStr "0h")).
Proof.
  intros fs file_path. split.
  - intros H. unfold parse_task_file. now rewrite H.
  - intros content H. exists (task_of_content file_path content).
    split; [unfold parse_task_file; now rewrite H|].
    unfold task_of_content.
    destruct (split_frontmatter content) as [yaml body] eqn:Hsplit.
    cbn [fst]. split; [|split].
    + intros Hp. cbn. unfold meta_or. now rewrite Hp.
    + intros He. cbn. unfold meta_or. now rewrite He.
    + intros Hno. rewrite (split_frontmatter_without_block _ Hno) in Hsplit.
      injection Hsplit as <- <-. repeat split.
Qed.

(** Three files: one that cannot be decoded, one without a block, and one
    of the standard shape with its two delimiters. *)
Example parse_task_file_examples :
  let plain := "Just a note: no block here" in
  let cut := "---
title: never closed" in
  let standard := "---
title: Fix bug
---

Body" in
  let fs := Dir [ ("proj-1",
                   Dir [ ("backlog",
                          Dir [ ("t0.md", File Undecodable);
                                ("t1.md", File (Text plain));
                                ("t2.md", File (Text cut));
                                ("t3.md", File (Text standard)) ]) ]) ] in
  parse_task_file fs ["proj-1"; "backlog"; "t0.md"] = None /\
  (exists task, parse_task_file fs ["proj-1"; "backlog"; "t1.md"] = Some task /\
                get task "content" = PStr plain /\
                get task "title" = PStr "T1") /\
  (Str.occurrences "---" cut = 1%nat /\
   exists task, parse_task_file fs ["proj-1"; "backlog"; "t2.md"] = Some task /\
                get task "content" = PStr cut /\
                get task "priority" = PStr "medium") /\
  (Str.occurrences "---" standard = 2%nat /\
   exists task, parse_task_file fs ["proj-1"; "backlog"; "t3.md"] = Some task /\
                get task "title" = PStr "Fix bug" /\
                get task "content" = PStr "Body").
Proof.
  cbv zeta. split; [reflexivity|].
  split; [eexists; repeat split; reflexivity|].
  split; (split; [reflexivity | eexists; repeat split; reflexivity]).
Qed.

(** ** The resolver *)

Lemma find_app_first {A : Type} (f : A -> bool) (l1 l2 : list A) :
  find f (l1 ++ l2)%list =
  match find f l1 with Some x => Some x | None => find f l2 end.
Proof.
  induction l1 as [|a l1 IH]; simpl; [reflexivity|].
  destruct (f a); [reflexivity | exact IH].
Qed.

(** The loop over the subfolders returns the first match among them. *)
Lemma scan_dev_folders_first (fs : node) (project_path : path) (task_id : pyval)
    (folder : string) (devs : list string) :
  let folder_path := Fs.joinpath project_path folder in
  match scan_dev_folders fs folder_path task_id devs with
  | Some (f, d) =>
      find (is_match fs task_id)
           (map (developer_candidate project_path task_id folder)
                (filter (fun d => Fs.is_dir (folder_path ++ [d])%list fs &&
                                  negb (Str.startswith d ".")) devs))
      = Some (developer_candidate project_path task_id folder d) /\
      f = current_file (developer_candidate project_path task_id folder d)
  | None =>
      find (is_match fs task_id)
           (map (developer_candidate project_path task_id folder)
                (filter (fun d => Fs.is_dir (folder_path ++ [d])%list fs &&
                                  negb (Str.startswith d ".")) devs))
      = None
  end.
Proof.
  intros folder_path. induction devs as [|d devs IH]; simpl; [reflexivity|].
  fold folder_path.
  destruct (Fs.is_dir (folder_path ++ [d])%list fs && negb (Str.startswith d ".")) eqn:Hd;
    [|exact IH].
  simpl. unfold is_match at 1 3. simpl current_file. fold folder_path.
  destruct (Fs.exists_ (Fs.joinpath (folder_path ++ [d])%list (task_filename task_id)) fs
            && verified fs (Fs.joinpath (folder_path ++ [d])%list (task_filename task_id)) task_id)
    eqn:Hm.
  - split; reflexivity.
  - exact IH.
Qed.

Lemma locate_in_first (fs : node) (project_path : path) (task_id : pyval)
    (folders : list string) :
  (forall folder, In folder folders ->
     Fs.exists_ (Fs.joinpath project_path folder) fs = true ->
     Fs.is_dir (Fs.joinpath project_path folder) fs = true) ->
  locate_in fs project_path task_id folders =
  Return (find (is_match fs task_id)
               (flat_map (folder_candidates fs project_path task_id) folders)).
Proof.
  induction folders as [|folder folders IH]; intros Hdirs; [reflexivity|].
  assert (IH' := IH (fun f Hf => Hdirs f (or_intror Hf))). clear IH.
  cbn [locate_in flat_map]. rewrite find_app_first. unfold folder_candidates at 1.
  destruct (Fs.exists_ (Fs.joinpath project_path folder) fs) eqn:Hex; [|exact IH'].
  cbn [find]. unfold is_match at 1. cbn [current_file direct_candidate].
  destruct (Fs.exists_ (Fs.joinpath (Fs.joinpath project_path folder) (task_filename task_id)) fs
            && verified fs (Fs.joinpath (Fs.joinpath project_path folder) (task_filename task_id)) task_id);
    [reflexivity|].
  pose proof (Hdirs folder (or_introl eq_refl) Hex) as Hdir.
  unfold developer_folders, Fs.iterdir. unfold Fs.is_dir in Hdir.
  destruct (Fs.lookup (Fs.joinpath project_path folder) fs) as [[c|es]|]; try discriminate.
  pose proof (scan_dev_folders_first fs project_path task_id folder (map fst es)) as Hscan.
  cbv zeta in Hscan.
  destruct (scan_dev_folders fs (Fs.joinpath project_path folder) task_id (map fst es))
    as [[f d]|].
  - destruct Hscan as [Hfind Hf]. rewrite Hfind, Hf. reflexivity.
  - rewrite Hscan. exact IH'.
Qed.

(** C7.  When the status folders that exist are directories, the resolver
    returns the first match among the candidates in the order of the
    specification: the status folders in the order [backlog], [progress],
    [inprogress], [review], [testing], [done], and in each folder the file
    directly in it before the files of its subfolders. *)
Theorem locate_first_match :
  forall (fs : node) (project_path : path) (task_id : pyval),
    (forall folder, In folder status_folders ->
       Fs.exists_ (Fs.joinpath project_path folder) fs = true ->
       Fs.is_dir (Fs.joinpath project_path folder) fs = true) ->
    locate fs project_path task_id =
      Return (find (is_match fs task_id) (candidates fs project_path task_id))
    /\
    forall folder earlier later,
      status_folders = (earlier ++ folder :: later)%list ->
      is_match fs task_id (direct_candidate project_path task_id folder) = true ->
      Fs.exists_ (Fs.joinpath project_path folder) fs = true ->
      find (is_match fs task_id)
           (flat_map (folder_candidates fs project_path task_id) earlier) = None ->
      locate fs project_path task_id =
        Return (Some (direct_candidate project_path task_id folder)).
Proof.
  intros fs project_path task_id Hdirs.
  assert (Hloc : locate fs project_path task_id =
                 Return (find (is_match fs task_id) (candidates fs project_path task_id)))
    by (apply locate_in_first; exact Hdirs).
  split; [exact Hloc|].
  intros folder earlier later Hsplit Hmatch Hex Hnone.
  rewrite Hloc. unfold candidates. rewrite Hsplit, flat_map_app, find_app_first, Hnone.
  cbn [flat_map]. rewrite find_app_first. unfold folder_candidates at 1.
  rewrite Hex. cbn [find]. now rewrite Hmatch.
Qed.

Lemma locate_first_match_witness :
  locate resolver_example_fs ["proj-1"] (PStr "t1") =
  Return (Some {| current_file := ["proj-1"; "progress"; "t1.md"];
                  current_folder := "progress";
                  current_developer := None |}).
Proof.
  refine (proj2 (locate_first_match resolver_example_fs ["proj-1"] (PStr "t1") _)
                "progress" ["backlog"] ["inprogress"; "review"; "testing"; "done"]
                eq_refl eq_refl eq_refl eq_refl).
  intros folder Hin. simpl in Hin.
  repeat (destruct Hin as [<-|Hin]; [vm_compute; intros; reflexivity || assumption|]).
  destruct Hin.
Defined.

(** ** Updates *)

Lemma prefix_append (t s : string) : String.prefix t (t ++ s) = true.
Proof.
  induction t as [|a t IH]; simpl; [now destruct s|].
  destruct (ascii_dec a a); [exact IH | congruence].
Qed.

Lemma contains_prefix (sub s : string) :
  String.prefix sub s = true -> Str.contains sub s = true.
Proof. intros H. destruct s; cbn [Str.contains]; now rewrite H. Qed.

Lemma contains_append (t s : string) : Str.contains t (t ++ s) = true.
Proof. apply contains_prefix, prefix_append. Qed.

(** The check on the destination never abandons an update whose file name
    is the id followed by [.md]: the id occurs in that name. *)
Lemma collision_abort_vacuous (fs : node) (new_task_file current : path) (t : string) :
  Fs.name new_task_file = t ++ ".md" ->
  Fs.read_text new_task_file fs <> None ->
  collision_abort fs new_task_file current (PStr t) = false.
Proof.
  intros Hname Hread. unfold collision_abort.
  destruct (Fs.exists_ new_task_file fs && negb (path_eqb new_task_file current));
    [|reflexivity].
  destruct (Fs.read_text new_task_file fs) as [text|]; [|congruence].
  rewrite Hname, contains_append. now destruct (negb (Str.contains (fmt (PStr t)) text)).
Qed.

(** C3, what the code does.
    With [t1.md] of the task in the
    backlog and an unrelated [t1.md] in [done] whose text does not contain
    the id, the update of [t1] to [done] is not abandoned: it returns
    success, removes the backlog file and overwrites the file in [done]. *)
Theorem update_overwrites_unrelated_destination :
  let fs := scenario_two_files in
  let current := ["proj-1"; "backlog"; "t1.md"] in
  let destination := ["proj-1"; "done"; "t1.md"] in
  let result := update_task_file time_3 fs "proj-1" done_update in
  (exists text, Fs.read_text destination fs = Some text /\
                Str.contains "t1" text = false) /\
  locate fs ["proj-1"] (PStr "t1") =
    Return (Some {| current_file := current;
                    current_folder := "backlog";
                    current_developer := None |}) /\
  snd result = Return true /\
  Fs.exists_ current (fst result) = false /\
  Fs.read_text destination (fst result) =
    Some (update_content time_3 "done" done_update) /\
  Fs.read_text destination (fst result) <> Fs.read_text destination fs.
Proof.
  cbv zeta. split; [eexists; split; vm_compute; reflexivity|].
  split; [vm_compute; reflexivity|].
  split; [vm_compute; reflexivity|].
  split; [vm_compute; reflexivity|].
  split; [vm_compute; reflexivity|].
  vm_compute. discriminate.
Qed.

(** *** The time stamps *)

Lemma write_text_read (p : path) (s : string) :
  forall n n', Fs.write_text p s n = Some n' -> Fs.read_text p n' = Some s.
Proof.
  unfold Fs.read_text. induction p as [|x p IH]; intros n n' H.
  - destruct n; discriminate.
  - destruct n as [k|es]; [discriminate|]. cbn [Fs.write_text] in H.
    destruct p as [|y p].
    + destruct (Fs.assoc x es) as [[k|ds]|]; try discriminate;
        injection H as <-; simpl; now rewrite assoc_set_entry_same.
    + destruct (Fs.assoc x es) as [c|]; [|discriminate].
      destruct (Fs.write_text (y :: p) s c) as [c'|] eqn:Hw; [|discriminate].
      injection H as <-. cbn [Fs.lookup]. rewrite assoc_set_entry_same.
      now apply (IH c c').
Qed.

Lemma get_absent (d : dict) (k : string) : has_key d k = false -> get d k = PNone.
Proof.
  induction d as [|[k' v] d IH]; simpl; [reflexivity|].
  destruct (k' =? k); [discriminate | exact IH].
Qed.

Lemma has_key_filter (d : dict) (k : string) :
  has_key d k = false -> has_key (filter not_none d) k = false.
Proof.
  induction d as [|[k' v] d IH]; simpl; [reflexivity|].
  destruct (k' =? k) eqn:Hk; [discriminate|]. simpl. intros H.
  destruct (not_none (k', v)); simpl; [rewrite Hk|]; auto.
Qed.

Lemma get_filter_not_none (d : dict) (k : string) :
  keys_once d = true -> get (filter not_none d) k = get d k.
Proof.
  induction d as [|[k' v] d IH]; simpl; [reflexivity|].
  intros H. apply andb_prop in H as [Hk' Hd]. apply negb_true_iff in Hk'.
  destruct (k' =? k) eqn:Hk.
  - apply String.eqb_eq in Hk. subst k'.
    destruct v; simpl; rewrite ?String.eqb_refl; try reflexivity.
    unfold not_none. simpl. apply get_absent. now apply has_key_filter.
  - destruct (not_none (k', v)); simpl; rewrite ?Hk; auto.
Qed.

Lemma update_frontmatter_started_at (now st : string) (td : dict) :
  get (update_frontmatter now st td) "started_at" = tracked_started_at now st td.
Proof. unfold update_frontmatter. now rewrite get_filter_not_none. Qed.

Lemma update_frontmatter_done_at (now st : string) (td : dict) :
  get (update_frontmatter now st td) "done_at" = tracked_done_at now st td.
Proof. unfold update_frontmatter. now rewrite get_filter_not_none. Qed.

(** A successful update has written [update_content] to a file. *)
Lemma update_task_file_writes (now : string) (fs fs' : node) (project_id : string)
    (task_data : dict) :
  update_task_file now fs project_id task_data = (fs', Return true) ->
  exists new_task_file st,
    get_or task_data "status" (get_or task_data "column" (PStr "backlog")) = PStr st /\
    Fs.read_text new_task_file fs' = Some (update_content now st task_data).
Proof.
  unfold update_task_file. intros H.
  destruct (negb (Fs.exists_ (Fs.joinpath [] project_id) fs)); [discriminate|].
  destruct (negb (has_key task_data "id")); [discriminate|].
  destruct (locate fs (Fs.joinpath [] project_id) (get task_data "id"))
    as [[loc|]|]; try discriminate.
  destruct (resolve_developer task_data (current_developer loc)) as [dev|];
    [|discriminate].
  destruct (get_or task_data "status" (get_or task_data "column" (PStr "backlog")))
    as [|st| |] eqn:Hst; try discriminate.
  destruct (new_folder (Fs.joinpath [] project_id) (PStr st) dev) as [folder|];
    [|discriminate].
  destruct (Fs.mkdir_p folder fs) as [fs1|]; [|discriminate].
  destruct (collision_abort fs1 _ (current_file loc) (get task_data "id"));
    [discriminate|].
  destruct (remove_old fs1 _ (current_file loc) (get task_data "id")) as [fs2|];
    [|discriminate].
  destruct (Fs.write_text _ _ fs2) as [fs3|] eqn:Hw; [|discriminate].
  injection H as <-.
  exists (Fs.joinpath folder (task_filename (get task_data "id"))), st.
  split; [reflexivity|]. exact (write_text_read _ _ _ _ Hw).
Qed.

(** C4, as the code has it.
    A successful update writes a file whose frontmatter
    takes [started_at] and [done_at] from the task data of the call:
    [started_at] is the current time when the new status is [progress] or
    [inprogress] and the task data give none, [done_at] is the current time
    when the new status is [done] and the task data give none, and a value
    the task data give is written as it is.  The values in the file being
    replaced are not read. *)
Theorem update_tracks_timestamps :
  forall (now : string) (fs fs' : node) (project_id : string) (task_data : dict),
    update_task_file now fs project_id task_data = (fs', Return true) ->
    exists new_task_file st,
      get_or task_data "status" (get_or task_data "column" (PStr "backlog")) = PStr st /\
      Fs.read_text new_task_file fs' = Some (update_content now st task_data) /\
      let frontmatter := update_frontmatter now st task_data in
      (str_in st ["progress"; "inprogress"] = true ->
       truthy (get task_data "started_at") = false ->
       get frontmatter "started_at" = PStr now) /\
      (st = "done" -> truthy (get task_data "done_at") = false ->
       get frontmatter "done_at" = PStr now) /\
      (truthy (get task_data "started_at") = true ->
       get frontmatter "started_at" = get task_data "started_at") /\
      (truthy (get task_data "done_at") = true ->
       get frontmatter "done_at" = get task_data "done_at") /\
      (str_in st ["progress"; "inprogress"] = false ->
       get frontmatter "started_at" = get task_data "started_at") /\
      (st <> "done" -> get frontmatter "done_at" = get task_data "done_at").
Proof.
  intros now fs fs' project_id task_data H.
  destruct (update_task_file_writes _ _ _ _ _ H) as (file & st & Hst & Hread).
  exists file, st. split; [exact Hst|]. split; [exact Hread|].
  cbv zeta. rewrite update_frontmatter_started_at, update_frontmatter_done_at.
  unfold tracked_started_at, tracked_done_at.
  repeat split.
  - intros Hs Ht. now rewrite Hs, Ht.
  - intros -> Ht. now rewrite Ht.
  - intros Ht. rewrite Ht. now rewrite andb_false_r.
  - intros Ht. rewrite Ht. now rewrite andb_false_r.
  - intros Hs. now rewrite Hs.
  - intros Hs. apply String.eqb_neq in Hs. now rewrite Hs.
Qed.

Lemma update_tracks_timestamps_witness :
  exists new_task_file,
    Fs.read_text new_task_file scenario_progress
    = Some (update_content time_2 "progress"
              [ ("id", PStr "t1"); ("title", PStr "Fix bug");
                ("status", PStr "progress"); ("developer", PStr "dev-alice") ]).
Proof.
  destruct (update_tracks_timestamps time_2 scenario_backlog scenario_progress "proj-1"
              [ ("id", PStr "t1"); ("title", PStr "Fix bug");
                ("status", PStr "progress"); ("developer", PStr "dev-alice") ]
              eq_refl)
    as (file & st & Hst & Hread & _).
  exists file. injection Hst as <-. exact Hread.
Defined.

(** The task in [progress] carries [started_at]; the update that moves it
    to [review] and names no [started_at] succeeds and leaves a file
    without it. *)
Lemma update_clears_started_at :
  let before := ["proj-1"; "progress"; "dev-alice"; "t1.md"] in
  let after := ["proj-1"; "review"; "dev-alice"; "t1.md"] in
  (exists task, parse_task_file scenario_progress before = Some task /\
                get task "started_at" = PStr time_2) /\
  update_task_file time_3 scenario_progress "proj-1" review_update
    = (scenario_review, Return true) /\
  Fs.exists_ before scenario_review = false /\
  (exists task, parse_task_file scenario_review after = Some task /\
                get task "started_at" = PStr "") /\
  (exists text, Fs.read_text after scenario_review = Some text /\
                Str.contains "started_at" text = false).
Proof.
  cbv zeta. split; [eexists; split; vm_compute; reflexivity|].
  split; [vm_compute; reflexivity|].
  split; [vm_compute; reflexivity|].
  split; eexists; split; vm_compute; reflexivity.
Qed.

(** ** Counting the files of a name *)

Lemma count_named_dir (f : string) (es : list (string * node)) :
  Fs.count_named f (Dir es) = list_sum (map (fun e => weight f (fst e) (snd e)) es).
Proof.
  simpl. f_equal. apply map_ext. now intros [x c].
Qed.

Lemma count_named_cons (f x : string) (c : node) (es : list (string * node)) :
  Fs.count_named f (Dir ((x, c) :: es)) = (weight f x c + Fs.count_named f (Dir es))%nat.
Proof. rewrite !count_named_dir. reflexivity. Qed.

Lemma count_set_entry (f x : string) (c : node) (es : list (string * node)) :
  (Fs.count_named f (Dir (Fs.set_entry x c es)) +
   match Fs.assoc x es with Some d => weight f x d | None => 0 end
   = Fs.count_named f (Dir es) + weight f x c)%nat.
Proof.
  induction es as [|[y d] es IH].
  - cbn [Fs.set_entry Fs.assoc]. rewrite count_named_cons. lia.
  - cbn [Fs.set_entry Fs.assoc]. destruct (y =? x) eqn:Hy.
    + apply String.eqb_eq in Hy. subst y. rewrite !count_named_cons. lia.
    + rewrite !count_named_cons. lia.
Qed.

Lemma count_remove_entry (f x : string) (es : list (string * node)) :
  (Fs.count_named f (Dir (Fs.remove_entry x es)) +
   match Fs.assoc x es with Some d => weight f x d | None => 0 end
   = Fs.count_named f (Dir es))%nat.
Proof.
  induction es as [|[y d] es IH].
  - reflexivity.
  - cbn [Fs.remove_entry Fs.assoc]. destruct (y =? x) eqn:Hy.
    + apply String.eqb_eq in Hy. subst y. rewrite !count_named_cons. lia.
    + rewrite !count_named_cons. lia.
Qed.

Lemma mkdir_p_dir (p : path) :
  forall n n', Fs.mkdir_p p n = Some n' ->
               exists es es', n = Dir es /\ n' = Dir es'.
Proof.
  destruct p as [|x p]; intros n n' H; simpl in H.
  - destruct n as [k|es]; [discriminate|]. injection H as <-. now exists es, es.
  - destruct n as [k|es]; [discriminate|].
    destruct (Fs.mkdir_p p _); [|discriminate]. injection H as <-. eauto.
Qed.

(** Making directories adds no file. *)
Lemma count_mkdir_p (f : string) (p : path) :
  forall n n', Fs.mkdir_p p n = Some n' -> Fs.count_named f n' = Fs.count_named f n.
Proof.
  induction p as [|x p IH]; intros n n' H; simpl in H.
  - destruct n; [discriminate|]. now injection H as <-.
  - destruct n as [k|es]; [discriminate|].
    destruct (Fs.mkdir_p p (match Fs.assoc x es with Some c => c | None => Dir [] end))
      as [c'|] eqn:Hm; [|discriminate].
    injection H as <-.
    pose proof (count_set_entry f x c' es) as Hc.
    pose proof (IH _ _ Hm) as Hcount.
    destruct (mkdir_p_dir _ _ _ Hm) as (ds & ds' & Hds & ->).
    unfold weight in Hc.
    destruct (Fs.assoc x es) as [c|].
    + subst c. unfold weight in Hc. lia.
    + injection Hds as <-. change (Fs.count_named f (Dir [])) with 0%nat in Hcount. lia.
Qed.

Lemma write_text_dir (p : path) (s : string) :
  forall n n', Fs.write_text p s n = Some n' ->
               exists es es', n = Dir es /\ n' = Dir es'.
Proof.
  intros n n' H. destruct p as [|x p]; (destruct n as [k|es]; [discriminate|]);
    [discriminate|]. cbn [Fs.write_text] in H.
  destruct p as [|y p].
  - destruct (Fs.assoc x es) as [[k|ds]|]; try discriminate; injection H as <-; eauto.
  - destruct (Fs.assoc x es) as [c|]; [|discriminate].
    destruct (Fs.write_text (y :: p) s c); [|discriminate]. injection H as <-. eauto.
Qed.

(** Writing a file adds one file of its name when the path was free. *)
Lemma count_write_text (f : string) (p : path) (s : string) :
  forall n n', Fs.write_text p s n = Some n' ->
               Fs.count_named f n' =
               (Fs.count_named f n +
                if Fs.exists_ p n then 0 else if (Fs.name p =? f)%string then 1 else 0)%nat.
Proof.
  unfold Fs.exists_. induction p as [|x p IH]; intros n n' H.
  - destruct n; discriminate.
  - destruct n as [k|es]; [discriminate|]. cbn [Fs.write_text] in H.
    destruct p as [|y p].
    + pose proof (count_set_entry f x (File (Text s)) es) as Hc.
      unfold Fs.name. cbn [last Fs.lookup].
      destruct (Fs.assoc x es) as [[k|ds]|] eqn:Ha; try discriminate;
        injection H as <-; unfold weight in Hc; simpl in Hc |- *.
      * destruct (x =? f); lia.
      * destruct (x =? f); lia.
    + destruct (Fs.assoc x es) as [c|] eqn:Ha; [|discriminate].
      destruct (Fs.write_text (y :: p) s c) as [c'|] eqn:Hw; [|discriminate].
      injection H as <-.
      pose proof (count_set_entry f x c' es) as Hc. rewrite Ha in Hc.
      pose proof (IH _ _ Hw) as Hcount.
      destruct (write_text_dir _ _ _ _ Hw) as (ds & ds' & -> & ->).
      unfold weight in Hc.
      change (Fs.name (x :: y :: p)) with (Fs.name (y :: p)).
      change (Fs.lookup (x :: y :: p) (Dir es))
        with (match Fs.assoc x es with
              | Some c => Fs.lookup (y :: p) c
              | None => None
              end).
      rewrite Ha. lia.
Qed.

Lemma unlink_dir (p : path) :
  forall n n', Fs.unlink p n = Some n' ->
               exists es es', n = Dir es /\ n' = Dir es'.
Proof.
  intros n n' H. destruct p as [|x p]; (destruct n as [k|es]; [discriminate|]);
    [discriminate|]. cbn [Fs.unlink] in H.
  destruct p as [|y p].
  - destruct (Fs.assoc x es) as [[k|ds]|]; try discriminate; injection H as <-; eauto.
  - destruct (Fs.assoc x es) as [c|]; [|discriminate].
    destruct (Fs.unlink (y :: p) c); [|discriminate]. injection H as <-. eauto.
Qed.

(** Removing a file takes one file of its name away. *)
Lemma count_unlink (f : string) (p : path) :
  forall n n', Fs.unlink p n = Some n' ->
               (Fs.count_named f n' + (if (Fs.name p =? f)%string then 1 else 0)
                = Fs.count_named f n)%nat.
Proof.
  induction p as [|x p IH]; intros n n' H.
  - destruct n; discriminate.
  - destruct n as [k|es]; [discriminate|]. cbn [Fs.unlink] in H.
    destruct p as [|y p].
    + pose proof (count_remove_entry f x es) as Hc.
      unfold Fs.name. cbn [last].
      destruct (Fs.assoc x es) as [[k|ds]|] eqn:Ha; try discriminate.
      injection H as <-. unfold weight in Hc. simpl in Hc |- *.
      destruct (x =? f); lia.
    + destruct (Fs.assoc x es) as [c|] eqn:Ha; [|discriminate].
      destruct (Fs.unlink (y :: p) c) as [c'|] eqn:Hu; [|discriminate].
      injection H as <-.
      pose proof (count_set_entry f x c' es) as Hc. rewrite Ha in Hc.
      pose proof (IH _ _ Hu) as Hcount.
      destruct (unlink_dir _ _ _ Hu) as (ds & ds' & -> & ->).
      unfold weight in Hc.
      change (Fs.name (x :: y :: p)) with (Fs.name (y :: p)).
      lia.
Qed.

(** ** The name of a task file *)

Lemma split_char_nonempty (c : ascii) (s : string) : Str.split_char c s <> [].
Proof.
  destruct s as [|a s]; simpl; [discriminate|].
  destruct (a =? c)%char; [discriminate|].
  destruct (Str.split_char c s); discriminate.
Qed.

(** Text without the separator appended to [s] lengthens the last part. *)
Lemma split_char_append (c : ascii) (s tail : string) :
  Str.split_char c tail = [tail] ->
  Str.split_char c (s ++ tail) =
  (removelast (Str.split_char c s) ++ [(last (Str.split_char c s) "" ++ tail)%string])%list.
Proof.
  intros Htail. induction s as [|a s IH].
  - simpl. now rewrite Htail.
  - cbn [append Str.split_char]. rewrite IH.
    pose proof (split_char_nonempty c s) as Hne.
    destruct (Str.split_char c s) as [|h t]; [congruence|].
    destruct (a =? c)%char.
    + destruct t; reflexivity.
    + destruct t; reflexivity.
Qed.

Lemma components_task_filename (s : string) :
  exists front seg,
    Fs.components (s ++ ".md") = (front ++ [(seg ++ ".md")%string])%list.
Proof.
  unfold Fs.components.
  rewrite (split_char_append "/" s ".md" eq_refl), filter_app.
  exists (filter (fun c => negb (c =? "") && negb (c =? "."))
                 (removelast (Str.split_char "/" s))),
         (last (Str.split_char "/" s) "").
  f_equal. cbn [filter].
  assert (Hkeep : forall seg : string,
             negb (seg ++ ".md" =? "") && negb (seg ++ ".md" =? ".") = true).
  { intros [|a [|b r]]; try reflexivity.
    - cbn. destruct (Ascii.eqb a "."); reflexivity.
    - cbn. destruct (Ascii.eqb a "."); reflexivity. }
  now rewrite Hkeep.
Qed.

Lemma components_task_filename_nonempty (task_id : pyval) :
  Fs.components (task_filename task_id) <> [].
Proof.
  unfold task_filename.
  destruct (components_task_filename (fmt task_id)) as (front & seg & ->).
  now destruct front.
Qed.

Lemma last_app_nonempty (l1 l2 : list string) (d : string) :
  l2 <> [] -> last (l1 ++ l2)%list d = last l2 d.
Proof.
  intros Hne. destruct (@exists_last _ l2 Hne) as (l & x & ->).
  now rewrite app_assoc, !last_last.
Qed.

(** ** Operations below the project directory *)

Lemma exists_lookup (p : path) (n : node) :
  Fs.exists_ p n = true -> exists c, Fs.lookup p n = Some c.
Proof. unfold Fs.exists_. destruct (Fs.lookup p n) as [c|]; [eauto | discriminate]. Qed.

Lemma count_in_mkdir_p (f : string) (pp r : path) (fs fs1 : node) :
  Fs.exists_ pp fs = true ->
  Fs.mkdir_p (pp ++ r)%list fs = Some fs1 ->
  count_in fs1 pp f = count_in fs pp f /\ Fs.exists_ pp fs1 = true.
Proof.
  intros Hex Hmk. destruct (exists_lookup _ _ Hex) as [c Hc].
  rewrite (mkdir_p_frame pp r fs c Hc) in Hmk.
  destruct (Fs.mkdir_p r c) as [c1|] eqn:Hr; [|discriminate].
  injection Hmk as <-. unfold count_in, Fs.exists_.
  rewrite (lookup_put_same pp c1 fs c Hc), Hc.
  split; [now apply (count_mkdir_p f r) | reflexivity].
Qed.

Lemma nonempty_cons (q : path) : q <> [] -> exists x q', q = x :: q'.
Proof. destruct q as [|x q']; [congruence | eauto]. Qed.

Lemma count_in_write_text (f : string) (pp q : path) (s : string) (fs fs' : node) :
  q <> [] ->
  Fs.exists_ pp fs = true ->
  Fs.write_text (pp ++ q)%list s fs = Some fs' ->
  count_in fs' pp f =
    (count_in fs pp f +
     if Fs.exists_ (pp ++ q)%list fs then 0
     else if (last q "" =? f)%string then 1 else 0)%nat
  /\ Fs.exists_ pp fs' = true.
Proof.
  intros Hq Hex Hw. destruct (exists_lookup _ _ Hex) as [c Hc].
  destruct (nonempty_cons q Hq) as (x & q' & ->).
  rewrite (write_text_frame pp x q' s fs c Hc) in Hw.
  destruct (Fs.write_text (x :: q') s c) as [c1|] eqn:Hl; [|discriminate].
  injection Hw as <-. unfold count_in, Fs.exists_.
  rewrite (lookup_put_same pp c1 fs c Hc), Hc, lookup_app, Hc.
  split; [|reflexivity].
  rewrite (count_write_text f _ s c c1 Hl). reflexivity.
Qed.

Lemma count_in_unlink (f : string) (pp q : path) (fs fs' : node) :
  q <> [] ->
  Fs.exists_ pp fs = true ->
  Fs.unlink (pp ++ q)%list fs = Some fs' ->
  (count_in fs' pp f + (if (last q "" =? f)%string then 1 else 0)
   = count_in fs pp f)%nat
  /\ Fs.exists_ pp fs' = true.
Proof.
  intros Hq Hex Hu. destruct (exists_lookup _ _ Hex) as [c Hc].
  destruct (nonempty_cons q Hq) as (x & q' & ->).
  rewrite (unlink_frame pp x q' fs c Hc) in Hu.
  destruct (Fs.unlink (x :: q') c) as [c1|] eqn:Hl; [|discriminate].
  injection Hu as <-. unfold count_in, Fs.exists_.
  rewrite (lookup_put_same pp c1 fs c Hc), Hc.
  split; [|reflexivity].
  exact (count_unlink f _ c c1 Hl).
Qed.

(** Making directories leaves every file where it is. *)
Lemma mkdir_p_keeps_file (q : path) :
  forall p n n' k, Fs.lookup p n = Some (File k) ->
                   Fs.mkdir_p q n = Some n' ->
                   Fs.lookup p n' = Some (File k).
Proof.
  induction q as [|x q IH]; intros p n n' k Hp Hm; simpl in Hm.
  - destruct n; [discriminate|]. now injection Hm as <-.
  - destruct n as [j|es]; [discriminate|].
    destruct (Fs.mkdir_p q (match Fs.assoc x es with Some c => c | None => Dir [] end))
      as [c'|] eqn:Hq; [|discriminate].
    injection Hm as <-.
    destruct p as [|y p]; [discriminate|]. simpl in Hp |- *.
    destruct (String.eqb_spec x y) as [->|Hxy].
    + rewrite assoc_set_entry_same.
      destruct (Fs.assoc y es) as [d|]; [|discriminate].
      now apply (IH p d c' k).
    + now rewrite (assoc_set_entry_other x y c' es Hxy).
Qed.

(** ** What the resolver returns *)

Lemma verified_inv (fs : node) (task_file : path) (task_id : pyval) :
  verified fs task_file task_id = true ->
  exists text t, Fs.read_text task_file fs = Some text /\ task_id = PStr t.
Proof.
  unfold verified. destruct (Fs.read_text task_file fs) as [text|]; [|discriminate].
  destruct task_id; try discriminate. eauto.
Qed.

Lemma read_text_lookup (p : path) (n : node) (text : string) :
  Fs.read_text p n = Some text -> Fs.lookup p n = Some (File (Text text)).
Proof.
  unfold Fs.read_text. destruct (Fs.lookup p n) as [[[s|]|es]|]; try discriminate.
  now intros [= ->].
Qed.

Lemma scan_dev_folders_sound (fs : node) (folder_path : path) (task_id : pyval)
    (devs : list string) (f : path) (d : string) :
  scan_dev_folders fs folder_path task_id devs = Some (f, d) ->
  f = Fs.joinpath (folder_path ++ [d])%list (task_filename task_id) /\
  verified fs f task_id = true.
Proof.
  induction devs as [|d0 devs IH]; simpl; [discriminate|].
  destruct (Fs.is_dir (folder_path ++ [d0])%list fs && negb (Str.startswith d0 "."));
    [|exact IH].
  destruct (Fs.exists_ (Fs.joinpath (folder_path ++ [d0])%list (task_filename task_id)) fs
            && verified fs (Fs.joinpath (folder_path ++ [d0])%list (task_filename task_id)) task_id)
    eqn:Hm; [|exact IH].
  intros [= <- <-]. apply andb_prop in Hm as [_ Hv]. now split.
Qed.

(** The file the resolver returns lies below the project directory, bears
    the name of the task file and passed the check. *)
Lemma locate_in_sound (fs : node) (pp : path) (task_id : pyval)
    (folders : list string) (loc : location) :
  locate_in fs pp task_id folders = Return (Some loc) ->
  (exists r, current_file loc = (pp ++ r ++ Fs.components (task_filename task_id))%list) /\
  verified fs (current_file loc) task_id = true.
Proof.
  induction folders as [|folder folders IH]; simpl; [discriminate|].
  destruct (Fs.exists_ (Fs.joinpath pp folder) fs); [|exact IH].
  destruct (Fs.exists_ (Fs.joinpath (Fs.joinpath pp folder) (task_filename task_id)) fs
            && verified fs (Fs.joinpath (Fs.joinpath pp folder) (task_filename task_id)) task_id)
    eqn:Hm.
  - intros [= <-]. apply andb_prop in Hm as [_ Hv]. simpl. split; [|exact Hv].
    exists (Fs.components folder). unfold Fs.joinpath. now rewrite <- app_assoc.
  - destruct (Fs.iterdir (Fs.joinpath pp folder) fs) as [devs|]; [|discriminate].
    destruct (scan_dev_folders fs (Fs.joinpath pp folder) task_id devs) as [[f d]|] eqn:Hs;
      [|exact IH].
    intros [= <-]. apply scan_dev_folders_sound in Hs as [-> Hv]. simpl.
    split; [|exact Hv].
    exists (Fs.components folder ++ [d])%list. unfold Fs.joinpath.
    now rewrite <- !app_assoc.
Qed.

Lemma new_folder_under (pp : path) (new_status new_developer : pyval) (folder : path) :
  new_folder pp new_status new_developer = Return folder ->
  exists r, folder = (pp ++ r)%list.
Proof.
  unfold new_folder. destruct new_status as [|st| |]; try discriminate.
  destruct (truthy new_developer && str_in st status_folders).
  - destruct new_developer as [|d| |]; try discriminate. intros [= <-].
    exists (Fs.components st ++ Fs.components d)%list. unfold Fs.joinpath.
    now rewrite <- app_assoc.
  - intros [= <-]. now exists (Fs.components st).
Qed.

Lemma path_eqb_eq (p q : path) : path_eqb p q = true -> p = q.
Proof. unfold path_eqb. destruct (list_eq_dec string_dec p q); [auto | discriminate]. Qed.

(** The removal step either finds the location unchanged or unlinks the
    current file. *)
Lemma remove_old_cases (fs fs2 : node) (new_task_file current : path)
    (task_id : pyval) :
  Fs.exists_ current fs = true ->
  remove_old fs new_task_file current task_id = Some fs2 ->
  (new_task_file = current /\ fs2 = fs) \/
  (path_eqb new_task_file current = false /\ Fs.unlink current fs = Some fs2).
Proof.
  intros Hex. unfold remove_old. rewrite Hex.
  destruct (path_eqb new_task_file current) eqn:Hp; simpl negb; cbv iota.
  - intros [= <-]. left. split; [now apply path_eqb_eq | reflexivity].
  - destruct (Fs.read_text current fs); [|discriminate].
    destruct task_id; try discriminate.
    destruct (negb (Str.contains s0 s) && negb (Str.contains s0 (Fs.name current)));
      [discriminate|].
    intros H. right. now split.
Qed.

(** ** The operations and the count of the files of a name *)

(** An update adds no file of any name to the project. *)
Lemma update_task_file_count (now : string) (fs : node) (project_id : string)
    (task_data : dict) (f : string) :
  let pp := Fs.joinpath [] project_id in
  let fs' := fst (update_task_file now fs project_id task_data) in
  (count_in fs' pp f <= count_in fs pp f)%nat /\
  (Fs.exists_ pp fs = true -> Fs.exists_ pp fs' = true).
Proof.
  intros pp fs'. subst fs'. unfold update_task_file. fold pp.
  destruct (Fs.exists_ pp fs) eqn:Hex; simpl negb; cbv iota;
    [|simpl; split; [lia | discriminate]].
  destruct (negb (has_key task_data "id")); [simpl; split; auto|].
  destruct (locate fs pp (get task_data "id")) as [[loc|]|] eqn:Hloc;
    try (simpl; split; now auto).
  destruct (resolve_developer task_data (current_developer loc)) as [dev|];
    [|simpl; split; now auto].
  destruct (new_folder pp _ dev) as [folder|] eqn:Hnf; [|simpl; split; now auto].
  destruct (Fs.mkdir_p folder fs) as [fs1|] eqn:Hmk; [|simpl; split; now auto].
  destruct (new_folder_under _ _ _ _ Hnf) as [r ->].
  destruct (count_in_mkdir_p f pp r fs fs1 Hex Hmk) as [Hc1 Hex1].
  destruct (collision_abort fs1 _ (current_file loc) (get task_data "id"));
    [simpl; split; [lia | auto]|].
  destruct (locate_in_sound _ _ _ _ _ Hloc) as [[rc Hcur] Hver].
  destruct (verified_inv _ _ _ Hver) as (text & t & Hread & Hid).
  pose proof (mkdir_p_keeps_file _ _ _ _ _ (read_text_lookup _ _ _ Hread) Hmk) as Hfile.
  assert (Hexcur : Fs.exists_ (current_file loc) fs1 = true)
    by (unfold Fs.exists_; now rewrite Hfile).
  set (new_file := Fs.joinpath (pp ++ r)%list (task_filename (get task_data "id"))) in *.
  assert (Hnew : new_file = (pp ++ (r ++ Fs.components (task_filename (get task_data "id"))))%list)
    by (unfold new_file, Fs.joinpath; now rewrite <- app_assoc).
  pose proof (components_task_filename_nonempty (get task_data "id")) as Hne.
  assert (Hq : forall r0, (r0 ++ Fs.components (task_filename (get task_data "id")))%list <> [])
    by (intros r0 H0; apply app_eq_nil in H0 as [_ H0]; contradiction).
  assert (Hlast : forall r0,
             last (r0 ++ Fs.components (task_filename (get task_data "id")))%list ""
             = task_file_name (get task_data "id"))
    by (intros r0; now apply last_app_nonempty).
  destruct (remove_old fs1 new_file (current_file loc) (get task_data "id"))
    as [fs2|] eqn:Hrm; [|simpl; split; [lia | auto]].
  destruct (remove_old_cases _ _ _ _ _ Hexcur Hrm) as [[Hsame ->]|[Hdiff Hun]].
  - destruct (Fs.write_text new_file _ fs1) as [fs3|] eqn:Hw;
      [|simpl; split; [lia | auto]].
    simpl fst. rewrite Hnew in Hw.
    destruct (count_in_write_text f pp _ _ fs1 fs3 (Hq r) Hex1 Hw) as [Hc3 Hex3].
    rewrite <- Hnew, Hsame, Hexcur in Hc3. split; [lia | auto].
  - rewrite Hcur in Hun.
    destruct (count_in_unlink f pp _ fs1 fs2 (Hq rc) Hex1 Hun) as [Hc2 Hex2].
    rewrite Hlast in Hc2.
    destruct (Fs.write_text new_file _ fs2) as [fs3|] eqn:Hw;
      [|simpl; split; [lia | auto]].
    simpl fst. rewrite Hnew in Hw.
    destruct (count_in_write_text f pp _ _ fs2 fs3 (Hq r) Hex2 Hw) as [Hc3 Hex3].
    rewrite Hlast in Hc3. split; [|auto].
    destruct (Fs.exists_ (pp ++ r ++ Fs.components (task_filename (get task_data "id")))%list fs2);
      destruct (task_file_name (get task_data "id") =? f); lia.
Qed.

Lemma find_in_dev_folders_under (fs : node) (status_path : path) (filename : string)
    (devs : list string) (p : path) :
  find_in_dev_folders fs status_path filename devs = Some p ->
  exists d, p = Fs.joinpath (status_path ++ [d])%list filename.
Proof.
  induction devs as [|d devs IH]; simpl; [discriminate|].
  destruct (Fs.is_dir (status_path ++ [d])%list fs &&
            Fs.exists_ (Fs.joinpath (status_path ++ [d])%list filename) fs);
    [|exact IH].
  intros [= <-]. now exists d.
Qed.

Lemma find_for_delete_under (fs : node) (pp : path) (filename : string)
    (folders : list string) (p : path) :
  find_for_delete fs pp filename folders = Return (Some p) ->
  exists r, p = (pp ++ r ++ Fs.components filename)%list.
Proof.
  induction folders as [|status folders IH]; simpl; [discriminate|].
  destruct (Fs.exists_ (Fs.joinpath pp status) fs); [|exact IH].
  destruct (Fs.exists_ (Fs.joinpath (Fs.joinpath pp status) filename) fs).
  - intros [= <-]. exists (Fs.components status). unfold Fs.joinpath.
    now rewrite <- app_assoc.
  - destruct (Fs.iterdir (Fs.joinpath pp status) fs) as [devs|]; [|discriminate].
    destruct (find_in_dev_folders fs (Fs.joinpath pp status) filename devs) as [q|] eqn:Hf;
      [|exact IH].
    intros [= <-]. apply find_in_dev_folders_under in Hf as [d ->].
    exists (Fs.components status ++ [d])%list. unfold Fs.joinpath.
    now rewrite <- !app_assoc.
Qed.








(** ** The codec *)

Lemma split_once_block (s t : string) :
  Str.contains "---" s = false ->
  Str.split_once "---" (s ++ String Str.newline ("---" ++ t)) =
  Some (s ++ String Str.newline "", t).
Proof.
  remember ("---" ++ t) as r eqn:Hr.
  induction s as [|c s IH]; intros H; [subst r; now destruct t|].
  cbn [Str.contains] in H. apply orb_false_iff in H as [Hp Hc].
  assert (Hpre : String.prefix "---" (String c (s ++ String Str.newline r)) = false).
  { cbn [String.prefix] in Hp |- *.
    destruct (ascii_dec "-" c); [|reflexivity].
    destruct s as [|c2 s]; [reflexivity|]. cbn [append String.prefix] in Hp |- *.
    destruct (ascii_dec "-" c2); [|reflexivity].
    destruct s as [|c3 s]; [reflexivity|]. cbn [append String.prefix] in Hp |- *.
    destruct (ascii_dec "-" c3); [|reflexivity].
    destruct s; discriminate Hp. }
  cbn [append Str.split_once]. rewrite Hpre, (IH Hc). reflexivity.
Qed.

Lemma rstrip_app_space (s : string) (c : ascii) :
  Str.is_space c = true ->
  Str.rstrip_by Str.is_space (s ++ String c "") = Str.rstrip_by Str.is_space s.
Proof.
  intros Hc. induction s as [|a s IH]; simpl.
  - now rewrite Hc.
  - now rewrite IH.
Qed.

Lemma strip_app_space (s : string) (c : ascii) :
  Str.is_space c = true -> Str.strip (s ++ String c "") = Str.strip s.
Proof.
  intros Hc. unfold Str.strip, Str.strip_by. induction s as [|a s IH]; simpl.
  - now rewrite Hc.
  - destruct (Str.is_space a); [exact IH|].
    change (String a (s ++ String c "")) with (String a s ++ String c "").
    now apply rstrip_app_space.
Qed.

Lemma strip_cons_space (s : string) (c : ascii) :
  Str.is_space c = true -> Str.strip (String c s) = Str.strip s.
Proof. intros Hc. unfold Str.strip, Str.strip_by. simpl. now rewrite Hc. Qed.

Lemma append_assoc (a b c : string) : (a ++ b) ++ c = a ++ (b ++ c).
Proof. induction a as [|x a IH]; simpl; [reflexivity | now rewrite IH]. Qed.

(** The parser splits a file of the standard shape into its frontmatter
    and its body, both stripped. *)
Lemma split_frontmatter_block (yaml body : string) :
  Str.contains "---" yaml = false ->
  split_frontmatter (file_text yaml body) = (Str.strip yaml, Str.strip body).
Proof.
  intros H. unfold split_frontmatter, file_text.
  change (Str.startswith
            ("---" ++ String Str.newline "" ++ yaml ++ String Str.newline "" ++
             "---" ++ String Str.newline "" ++ String Str.newline "" ++ body) "---")
    with true.
  cbv iota.
  change ("---" ++ String Str.newline "" ++ yaml ++ String Str.newline "" ++
          "---" ++ String Str.newline "" ++ String Str.newline "" ++ body)
    with ("---" ++ String Str.newline
            (yaml ++ String Str.newline
               ("---" ++ String Str.newline (String Str.newline body)))).
  cbn [Str.split_max].
  rewrite split_once_prefix by reflexivity.
  change (Str.drop (String.length "---")
            ("---" ++ String Str.newline
               (yaml ++ String Str.newline
                  ("---" ++ String Str.newline (String Str.newline body)))))
    with (String Str.newline "" ++
            (yaml ++ String Str.newline
               ("---" ++ String Str.newline (String Str.newline body)))).
  rewrite <- append_assoc.
  rewrite (split_once_block (String Str.newline "" ++ yaml) _).
  - f_equal.
    change ((String Str.newline "" ++ yaml) ++ String Str.newline "")
      with (String Str.newline (yaml ++ String Str.newline "")).
    rewrite strip_cons_space by reflexivity. now apply strip_app_space.
  - cbn [append Str.contains]. rewrite H.
    destruct yaml as [|c1 [|c2 yaml]]; reflexivity.
Qed.

Lemma task_of_block (file_path : path) (yaml body : string) :
  Str.contains "---" yaml = false ->
  task_of_content file_path (file_text yaml body) =
  build_task file_path (file_text yaml body) (parse_metadata (Str.strip yaml))
             (Str.strip body).
Proof.
  intros H. unfold task_of_content. now rewrite (split_frontmatter_block yaml body H).
Qed.

Lemma frontmatter_get (now st : string) (task : dict) (k : string) :
  get (update_frontmatter now st task) k =
  get [ ("title", get_or task "title" (PStr ""));
        ("estimate", get_or task "timeEstimate" (PStr "0h"));
        ("spent_time", get_or task "timeSpent" (PStr "0h"));
        ("priority", get_or task "priority" (PStr "medium"));
        ("developer", get task "developer");
        ("status", PStr st);
        ("created", get_or task "created" (PStr (String.substring 0 10 now)));
        ("created_at", py_or (get task "created_at") (get task "created"));
        ("started_at", tracked_started_at now st task);
        ("done_at", tracked_done_at now st task);
        ("blocked", get_or task "blocked" (PBool false));
        ("blocked_at", get task "blocked_at");
        ("blocked_reason", get task "blocked_reason");
        ("unblocked_at", get task "unblocked_at") ] k.
Proof. unfold update_frontmatter. now apply get_filter_not_none. Qed.

Lemma if_pstr (c : bool) (a b : string) :
  (if c then PStr a else PStr b) = PStr (if c then a else b).
Proof. now destruct c. Qed.

Lemma has_key_filter_keys (d : dict) (k : string) :
  has_key (filter not_none d) k = true -> has_key d k = true.
Proof.
  induction d as [|[k' v] d IH]; simpl; [auto|].
  destruct (not_none (k', v)); simpl.
  - destruct (k' =? k); auto.
  - intros H. rewrite (IH H). apply orb_true_r.
Qed.

(** The record read from a file of the standard shape and the text written
    for it, stated on the metadata that the parser reads: the body is
    written stripped, and the frontmatter dictionary is
    [reserialized_frontmatter]. *)
Lemma reserialize_record :
  forall (now : string) (file_path : path) (yaml body : string),
    Str.contains "---" yaml = false ->
    let content := file_text yaml body in
    let m := parse_metadata (Str.strip yaml) in
    let task := task_of_content file_path content in
    let frontmatter := update_frontmatter now (fmt (get task "status")) task in
    reserialize now file_path content =
      file_text (simple_yaml_dump frontmatter) (Str.strip body) /\
    (Str.strip body = body ->
     reserialize now file_path content = file_text (simple_yaml_dump frontmatter) body) /\
    frontmatter = reserialized_frontmatter now (stem (Fs.name file_path)) m /\
    (forall k v, In k codec_keys -> meta_get m k = Some v -> Str.nonempty v = true ->
                 get frontmatter k = PStr v) /\
    (meta_get m "estimate" = None -> get frontmatter "estimate" = PStr "0h") /\
    (meta_get m "spent_time" = None -> get frontmatter "spent_time" = PStr "0h") /\
    (meta_get m "priority" = None -> get frontmatter "priority" = PStr "medium") /\
    (meta_get m "status" = None -> get frontmatter "status" = PStr "backlog") /\
    (exists b, get frontmatter "blocked" = PBool b) /\
    (forall k, has_key frontmatter k = true -> In k ("blocked" :: codec_keys)).
Proof.
  intros now file_path yaml body H content m task frontmatter.
  assert (Htask : task = build_task file_path content m (Str.strip body))
    by (apply task_of_block; exact H).
  assert (Hser : reserialize now file_path content =
                 file_text (simple_yaml_dump frontmatter) (Str.strip body)).
  { unfold reserialize, update_content. fold task. fold frontmatter.
    f_equal. rewrite Htask. reflexivity. }
  split; [exact Hser|].
  split; [intros Hb; rewrite Hser, Hb; reflexivity|].
  split.
  { unfold frontmatter, reserialized_frontmatter, update_frontmatter,
      tracked_started_at, tracked_done_at, py_or.
    rewrite Htask. cbv zeta. rewrite <- !if_pstr. reflexivity. }
  split.
  { intros k v Hk Hm Hv. unfold frontmatter. rewrite frontmatter_get, Htask.
    unfold codec_keys in Hk. simpl in Hk.
    repeat (destruct Hk as [<-|Hk];
            [cbn; unfold tracked_started_at, tracked_done_at, py_or, meta_val, meta_or;
             cbn; unfold meta_or; rewrite ?Hm; cbn; rewrite ?Hv, ?andb_false_r;
             reflexivity|]).
    destruct Hk. }
  unfold frontmatter. rewrite !frontmatter_get, Htask.
  split; [intros Hm; cbn; unfold meta_or; now rewrite Hm|].
  split; [intros Hm; cbn; unfold meta_or; now rewrite Hm|].
  split; [intros Hm; cbn; unfold meta_or; now rewrite Hm|].
  split; [intros Hm; cbn; unfold meta_or; now rewrite Hm|].
  split; [eexists; cbn; reflexivity|].
  intros k Hk. unfold update_frontmatter in Hk. apply has_key_filter_keys in Hk.
  cbn [has_key] in Hk. simpl.
  repeat (apply orb_prop in Hk as [Hk|Hk];
          [apply String.eqb_eq in Hk; subst k; tauto|]).
  discriminate Hk.
Qed.

(** A file that gives only a title, with a body that ends in a newline:
    the record read from it is written back with an estimate, a priority
    and a status that the file does not hold, and without the newline that
    ends the body. *)
Lemma reserialize_adds_defaults :
  let body := "Body
" in
  let content := file_text "title: Fix bug" body in
  let file_path := ["proj-1"; "backlog"; "t1.md"] in
  let task := task_of_content file_path content in
  let frontmatter := update_frontmatter time_3 (fmt (get task "status")) task in
  parse_metadata (fst (split_frontmatter content)) = [ ("title", "Fix bug") ] /\
  get frontmatter "title" = PStr "Fix bug" /\
  get frontmatter "priority" = PStr "medium" /\
  get frontmatter "estimate" = PStr "0h" /\
  get frontmatter "status" = PStr "backlog" /\
  Str.contains "priority" content = false /\
  Str.contains "priority: medium" (reserialize time_3 file_path content) = true /\
  Str.endswith content body = true /\
  Str.endswith (reserialize time_3 file_path content) body = false.
Proof. vm_compute. repeat split. Qed.

(** ** Files that an operation leaves alone *)

Lemma assoc_remove_entry_other (x y : string) (es : list (string * node)) :
  x <> y -> Fs.assoc y (Fs.remove_entry x es) = Fs.assoc y es.
Proof.
  intros Hxy. induction es as [|[z d] es IH]; simpl; [reflexivity|].
  destruct (String.eqb_spec z x) as [->|Hzx].
  - destruct (String.eqb_spec x y) as [->|_]; [contradiction | reflexivity].
  - simpl. now rewrite IH.
Qed.

(** Writing a file leaves every other file where it is. *)
Lemma write_text_keeps_file (q : path) (s : string) :
  forall p n n' k, Fs.lookup p n = Some (File k) -> p <> q ->
                   Fs.write_text q s n = Some n' ->
                   Fs.lookup p n' = Some (File k).
Proof.
  induction q as [|x q IH]; intros p n n' k Hp Hne Hw.
  - destruct n; discriminate.
  - destruct n as [j|es]; [discriminate|].
    destruct p as [|y p]; [discriminate|].
    cbn [Fs.write_text] in Hw. cbn [Fs.lookup] in Hp |- *.
    destruct q as [|z q].
    + destruct (String.eqb_spec x y) as [->|Hxy].
      * destruct (Fs.assoc y es) as [[j|es0]|] eqn:Ha; try discriminate.
        destruct p; [now elim Hne | discriminate].
      * assert (Hn' : n' = Dir (Fs.set_entry x (File (Text s)) es))
          by (destruct (Fs.assoc x es) as [[j|es0]|]; congruence).
        subst n'. cbn [Fs.lookup]. now rewrite (assoc_set_entry_other x y _ es Hxy).
    + destruct (Fs.assoc x es) as [c|] eqn:Ha; [|discriminate].
      destruct (Fs.write_text (z :: q) s c) as [c'|] eqn:Hc; [|discriminate].
      injection Hw as <-. cbn [Fs.lookup].
      destruct (String.eqb_spec x y) as [->|Hxy].
      * rewrite assoc_set_entry_same. rewrite Ha in Hp.
        apply (IH p c c' k Hp); [|exact Hc]. congruence.
      * now rewrite (assoc_set_entry_other x y _ es Hxy).
Qed.

(** Removing a file leaves every other file where it is. *)
Lemma unlink_keeps_file (q : path) :
  forall p n n' k, Fs.lookup p n = Some (File k) -> p <> q ->
                   Fs.unlink q n = Some n' ->
                   Fs.lookup p n' = Some (File k).
Proof.
  induction q as [|x q IH]; intros p n n' k Hp Hne Hu.
  - destruct n; discriminate.
  - destruct n as [j|es]; [discriminate|].
    destruct p as [|y p]; [discriminate|].
    cbn [Fs.unlink] in Hu. cbn [Fs.lookup] in Hp |- *.
    destruct q as [|z q].
    + destruct (Fs.assoc x es) as [[j|es0]|] eqn:Ha; try discriminate.
      injection Hu as <-. cbn [Fs.lookup].
      destruct (String.eqb_spec x y) as [->|Hxy].
      * rewrite Ha in Hp. destruct p; [now elim Hne | discriminate].
      * now rewrite (assoc_remove_entry_other x y es Hxy).
    + destruct (Fs.assoc x es) as [c|] eqn:Ha; [|discriminate].
      destruct (Fs.unlink (z :: q) c) as [c'|] eqn:Hc; [|discriminate].
      injection Hu as <-. cbn [Fs.lookup].
      destruct (String.eqb_spec x y) as [->|Hxy].
      * rewrite assoc_set_entry_same. rewrite Ha in Hp.
        apply (IH p c c' k Hp); [|exact Hc]. congruence.
      * now rewrite (assoc_set_entry_other x y _ es Hxy).
Qed.

(** What [unlink] removes was a file. *)
Lemma unlink_was_file (q : path) :
  forall n n', Fs.unlink q n = Some n' -> exists k, Fs.lookup q n = Some (File k).
Proof.
  induction q as [|x q IH]; intros n n' Hu.
  - destruct n; discriminate.
  - destruct n as [j|es]; [discriminate|].
    cbn [Fs.unlink] in Hu. cbn [Fs.lookup].
    destruct q as [|z q].
    + destruct (Fs.assoc x es) as [[j|es0]|]; try discriminate. now exists j.
    + destruct (Fs.assoc x es) as [c|]; [|discriminate].
      destruct (Fs.unlink (z :: q) c) as [c'|] eqn:Hc; [|discriminate].
      exact (IH c c' Hc).
Qed.

Lemma file_not_below (p q : path) (n : node) (k : contents) :
  Fs.lookup p n = Some (File k) -> Fs.exists_ q n = false -> p <> q.
Proof. intros Hp Hq ->. unfold Fs.exists_ in Hq. now rewrite Hp in Hq. Qed.

Lemma make_columns_keeps_file (pp : path) (cols : list string) :
  forall fs p k, Fs.lookup p fs = Some (File k) ->
                 Fs.lookup p (fst (make_columns pp cols fs)) = Some (File k).
Proof.
  induction cols as [|col cols IH]; intros fs p k Hp; cbn [make_columns]; [exact Hp|].
  destruct (Fs.mkdir_p (Fs.joinpath pp col) fs) as [fs1|] eqn:H1; [|exact Hp].
  pose proof (mkdir_p_keeps_file _ _ _ _ _ Hp H1) as Hp1.
  destruct (Fs.mkdir_p (Fs.joinpath (Fs.joinpath pp col) default_dev) fs1) as [fs2|] eqn:H2;
    [|exact Hp1].
  apply IH. exact (mkdir_p_keeps_file _ _ _ _ _ Hp1 H2).
Qed.

Lemma create_project_keeps_file (fs : node) (project_data : dict) (p : path) (k : contents) :
  Fs.lookup p fs = Some (File k) ->
  Fs.lookup p (fst (create_project fs project_data)) = Some (File k).
Proof.
  intros Hp. unfold create_project.
  destruct (negb (truthy (get project_data "id"))); [exact Hp|].
  destruct (get project_data "id") as [|pid| |]; try exact Hp.
  destruct (Fs.exists_ (Fs.joinpath [] pid) fs) eqn:Hex; [exact Hp|].
  unfold Fs.mkdir_new. rewrite Hex.
  destruct (Fs.mkdir_p (Fs.joinpath [] pid) fs) as [fs1|] eqn:Hmk; [|exact Hp].
  pose proof (mkdir_p_keeps_file _ _ _ _ _ Hp Hmk) as Hp1.
  destruct (Fs.write_text (Fs.joinpath (Fs.joinpath [] pid) "README.md") _ fs1)
    as [fs2|] eqn:Hw; [|exact Hp1].
  assert (Hne : p <> Fs.joinpath (Fs.joinpath [] pid) "README.md").
  { intros ->. unfold Fs.joinpath at 1 in Hp.
    assert (Fs.exists_ (Fs.joinpath [] pid) fs = true).
    { apply (exists_prefix _ (Fs.components "README.md")).
      unfold Fs.exists_. now rewrite Hp. }
    congruence. }
  pose proof (write_text_keeps_file _ _ _ _ _ _ Hp1 Hne Hw) as Hp2.
  pose proof (make_columns_keeps_file (Fs.joinpath [] pid) columns fs2 p k Hp2) as Hp3.
  destruct (make_columns (Fs.joinpath [] pid) columns fs2) as [fs3 ok]. exact Hp3.
Qed.

(** X1.  [create_task_file] never changes or removes a file: every regular
    file of the tree is found afterwards at the same path with the same
    content, whether the call creates the project, the task file, both or
    nothing.  In particular it never overwrites a task file. *)
Theorem create_task_file_keeps_files :
  forall (now : string) (fs : node) (project_id : string) (task_data : dict)
         (p : path) (k : contents),
    Fs.lookup p fs = Some (File k) ->
    Fs.lookup p (fst (create_task_file now fs project_id task_data)) = Some (File k).
Proof.
  intros now fs project_id task_data p k Hp. unfold create_task_file.
  set (pp := Fs.joinpath [] project_id).
  set (created := if negb (Fs.exists_ pp fs) then create_project fs _ else (fs, Return true)).
  assert (Hc : Fs.lookup p (fst created) = Some (File k)).
  { unfold created. destruct (negb (Fs.exists_ pp fs)); [|exact Hp].
    now apply create_project_keeps_file. }
  destruct created as [fs0 [[|]|]]; simpl fst in Hc; try exact Hc.
  destruct (negb (has_key task_data "id")); [exact Hc|].
  destruct (get_or task_data "folder" (PStr "backlog")) as [|target| |]; try exact Hc.
  destruct (Fs.mkdir_p (Fs.joinpath pp target) fs0) as [fs1|] eqn:Hmk; [|exact Hc].
  pose proof (mkdir_p_keeps_file _ _ _ _ _ Hc Hmk) as Hp1.
  destruct (Fs.exists_ _ fs1) eqn:Hex; [exact Hp1|].
  destruct (Fs.write_text _ _ fs1) as [fs2|] eqn:Hw; [|exact Hp1].
  simpl fst. exact (write_text_keeps_file _ _ _ _ _ _ Hp1 (file_not_below _ _ _ _ Hp1 Hex) Hw).
Qed.

Lemma create_task_file_keeps_files_witness :
  exists k,
    Fs.lookup ["proj-1"; "backlog"; "t1.md"] scenario_backlog = Some (File k) /\
    Fs.lookup ["proj-1"; "backlog"; "t1.md"]
      (fst (create_task_file time_2 scenario_backlog "proj-1"
              [ ("id", PStr "t1"); ("title", PStr "Another text");
                ("folder", PStr "backlog") ]))
    = Some (File k).
Proof.
  eexists. split; [reflexivity|].
  apply create_task_file_keeps_files. reflexivity.
Defined.

Lemma name_of_task_file (r : path) (task_id : pyval) :
  Fs.name (r ++ Fs.components (task_filename task_id))%list = task_file_name task_id.
Proof.
  unfold Fs.name, task_file_name, Fs.name.
  apply last_app_nonempty, components_task_filename_nonempty.
Qed.

(** X2.  [update_task_file] leaves alone every file whose name is not the
    file name of the task: such a file is found afterwards at the same path
    with the same content, whatever the outcome of the update. *)
Theorem update_task_file_keeps_other_files :
  forall (now : string) (fs : node) (project_id : string) (task_data : dict)
         (p : path) (k : contents),
    Fs.lookup p fs = Some (File k) ->
    Fs.name p <> task_file_name (get task_data "id") ->
    Fs.lookup p (fst (update_task_file now fs project_id task_data)) = Some (File k).
Proof.
  intros now fs project_id task_data p k Hp Hname. unfold update_task_file.
  set (pp := Fs.joinpath [] project_id).
  destruct (negb (Fs.exists_ pp fs)); [exact Hp|].
  destruct (negb (has_key task_data "id")); [exact Hp|].
  destruct (locate fs pp (get task_data "id")) as [[loc|]|] eqn:Hloc; try exact Hp.
  destruct (resolve_developer task_data (current_developer loc)) as [dev|]; [|exact Hp].
  destruct (new_folder pp _ dev) as [folder|] eqn:Hnf; [|exact Hp].
  destruct (Fs.mkdir_p folder fs) as [fs1|] eqn:Hmk; [|exact Hp].
  pose proof (mkdir_p_keeps_file _ _ _ _ _ Hp Hmk) as Hp1.
  destruct (collision_abort fs1 _ (current_file loc) (get task_data "id")); [exact Hp1|].
  destruct (locate_in_sound _ _ _ _ _ Hloc) as [[rc Hcur] Hver].
  destruct (verified_inv _ _ _ Hver) as (text & t & Hread & Hid).
  pose proof (mkdir_p_keeps_file _ _ _ _ _ (read_text_lookup _ _ _ Hread) Hmk) as Hfile.
  assert (Hexcur : Fs.exists_ (current_file loc) fs1 = true)
    by (unfold Fs.exists_; now rewrite Hfile).
  assert (Hnew : p <> Fs.joinpath folder (task_filename (get task_data "id"))).
  { intros ->. apply Hname. unfold Fs.joinpath. apply name_of_task_file. }
  assert (Hold : p <> current_file loc).
  { intros ->. apply Hname. rewrite Hcur, app_assoc. apply name_of_task_file. }
  destruct (remove_old fs1 _ (current_file loc) (get task_data "id")) as [fs2|] eqn:Hrm;
    [|exact Hp1].
  assert (Hp2 : Fs.lookup p fs2 = Some (File k)).
  { destruct (remove_old_cases _ _ _ _ _ Hexcur Hrm) as [[_ ->]|[_ Hun]]; [exact Hp1|].
    exact (unlink_keeps_file _ _ _ _ _ Hp1 Hold Hun). }
  destruct (Fs.write_text _ _ fs2) as [fs3|] eqn:Hw; [|exact Hp2].
  exact (write_text_keeps_file _ _ _ _ _ _ Hp2 Hnew Hw).
Qed.

Lemma update_task_file_keeps_other_files_witness :
  exists k,
    Fs.lookup ["proj-1"; "backlog"; "t2.md"] scenario_two_tasks = Some (File k) /\
    Fs.lookup ["proj-1"; "backlog"; "t2.md"]
      (fst (update_task_file time_3 scenario_two_tasks "proj-1"
              [ ("id", PStr "t1"); ("title", PStr "Fix bug");
                ("status", PStr "progress"); ("developer", PStr "dev-alice") ]))
    = Some (File k).
Proof.
  eexists. split; [reflexivity|].
  apply update_task_file_keeps_other_files; [reflexivity | vm_compute; discriminate].
Defined.

(** ** Deleting a task *)

Lemma weight_le_count (f x : string) (c : node) (es : list (string * node)) :
  Fs.assoc x es = Some c -> (weight f x c <= Fs.count_named f (Dir es))%nat.
Proof.
  induction es as [|[y d] es IH]; [discriminate|].
  rewrite count_named_cons. cbn [Fs.assoc].
  destruct (String.eqb_spec y x) as [->|_].
  - intros [= ->]. lia.
  - intros H. specialize (IH H). lia.
Qed.

(** A file at the end of the path [q] is one of the files of its name. *)
Lemma count_named_file_at (q : path) :
  forall n k, q <> [] -> Fs.lookup q n = Some (File k) ->
              (1 <= Fs.count_named (last q "") n)%nat.
Proof.
  induction q as [|x q IH]; intros n k Hq Hl; [contradiction|].
  destruct n as [j|es]; [discriminate|]. cbn [Fs.lookup] in Hl.
  destruct (Fs.assoc x es) as [c|] eqn:Ha; [|discriminate].
  pose proof (weight_le_count (last (x :: q) "") x c es Ha) as Hw.
  destruct q as [|y q].
  - cbn [Fs.lookup] in Hl. injection Hl as ->.
    cbn [last] in Hw |- *. unfold weight in Hw. rewrite String.eqb_refl in Hw. lia.
  - assert (Hne : y :: q <> []) by discriminate.
    specialize (IH c k Hne Hl).
    change (last (x :: y :: q) "") with (last (y :: q) "") in *.
    unfold weight in Hw. lia.
Qed.

Lemma find_in_dev_folders_file (fs : node) (status_path : path) (filename : string)
    (devs : list string) (p : path) :
  find_in_dev_folders fs status_path filename devs = Some p ->
  (exists d, p = Fs.joinpath (status_path ++ [d])%list filename) /\
  Fs.exists_ p fs = true.
Proof.
  induction devs as [|d devs IH]; simpl; [discriminate|].
  destruct (Fs.is_dir (status_path ++ [d])%list fs &&
            Fs.exists_ (Fs.joinpath (status_path ++ [d])%list filename) fs) eqn:H;
    [|exact IH].
  intros [= <-]. apply andb_prop in H as [_ H]. split; [now exists d | exact H].
Qed.

(** The file the search of [do_DELETE] returns lies below one of the
    status folders it goes through. *)
Lemma find_for_delete_in (fs : node) (pp : path) (filename : string)
    (folders : list string) (p : path) :
  find_for_delete fs pp filename folders = Return (Some p) ->
  exists folder r, In folder folders /\
                   p = (Fs.joinpath pp folder ++ r ++ Fs.components filename)%list.
Proof.
  induction folders as [|status folders IH]; simpl; [discriminate|].
  assert (IH' : find_for_delete fs pp filename folders = Return (Some p) ->
                exists folder r, (status = folder \/ In folder folders) /\
                  p = (Fs.joinpath pp folder ++ r ++ Fs.components filename)%list).
  { intros H. destruct (IH H) as (folder & r & Hin & ->). exists folder, r. auto. }
  destruct (Fs.exists_ (Fs.joinpath pp status) fs); [|exact IH'].
  destruct (Fs.exists_ (Fs.joinpath (Fs.joinpath pp status) filename) fs).
  - intros [= <-]. exists status, []. split; [now left | reflexivity].
  - destruct (Fs.iterdir (Fs.joinpath pp status) fs) as [devs|]; [|discriminate].
    destruct (find_in_dev_folders fs (Fs.joinpath pp status) filename devs) as [q|] eqn:Hf;
      [|exact IH'].
    intros [= <-]. apply find_in_dev_folders_file in Hf as [[d ->] _].
    exists status, [d]. split; [now left|]. unfold Fs.joinpath.
    now rewrite <- !app_assoc.
Qed.

(** X3.  The task branch of [do_DELETE], for a project id and a task file
    name that are relative names without [..] component.  A failure
    response leaves the tree as it was.  A success response has removed one regular file below the
    project directory, called after the task: the project holds one file
    of that name fewer and as many files of every other name, and every
    other file is where it was with its content. *)
Theorem delete_task_removes_one_file :
  forall (fs fs' : node) (project_id task_id : string) (ok : bool),
    relative_name project_id = true ->
    relative_name (task_id ++ ".md") = true ->
    delete_task fs project_id task_id = (fs', ok) ->
    let pp := Fs.joinpath [] project_id in
    let f := task_file_name (PStr task_id) in
    (ok = false -> fs' = fs) /\
    (ok = true ->
     exists removed,
       (exists r, removed = (pp ++ r)%list) /\
       Fs.name removed = f /\
       (exists k, Fs.lookup removed fs = Some (File k)) /\
       (count_in fs' pp f + 1 = count_in fs pp f)%nat /\
       (forall g, g <> f -> count_in fs' pp g = count_in fs pp g) /\
       (forall p k, p <> removed -> Fs.lookup p fs = Some (File k) ->
                    Fs.lookup p fs' = Some (File k))).
Proof.
  intros fs fs' project_id task_id ok _ _. unfold delete_task.
  set (pp := Fs.joinpath [] project_id).
  destruct (Fs.exists_ pp fs) eqn:Hex; simpl negb; cbv iota;
    [|intros [= <- <-]; split; [reflexivity | discriminate]].
  destruct (find_for_delete fs pp (task_id ++ ".md") delete_folders) as [[p|]|] eqn:Hfind;
    try (intros [= <- <-]; split; [reflexivity | discriminate]).
  destruct (Fs.unlink p fs) as [fs1|] eqn:Hun;
    intros [= <- <-]; (split; [try reflexivity; discriminate|]); [|discriminate].
  intros _. exists p.
  apply find_for_delete_under in Hfind as [r ->].
  assert (Hq : (r ++ Fs.components (task_id ++ ".md"))%list <> []).
  { intros H0. apply app_eq_nil in H0 as [_ H0].
    exact (components_task_filename_nonempty (PStr task_id) H0). }
  assert (Hname : Fs.name (pp ++ r ++ Fs.components (task_id ++ ".md"))%list
                  = task_file_name (PStr task_id)).
  { rewrite app_assoc. exact (name_of_task_file _ (PStr task_id)). }
  assert (Hlast : last (r ++ Fs.components (task_id ++ ".md"))%list ""
                  = task_file_name (PStr task_id))
    by exact (name_of_task_file r (PStr task_id)).
  split; [now exists (r ++ Fs.components (task_id ++ ".md"))%list|].
  split; [exact Hname|].
  split; [exact (unlink_was_file _ _ _ Hun)|].
  split.
  { destruct (count_in_unlink (task_file_name (PStr task_id)) pp _ fs fs1 Hq Hex Hun)
      as [Hc _].
    rewrite Hlast, String.eqb_refl in Hc. exact Hc. }
  split.
  { intros g Hg.
    destruct (count_in_unlink g pp _ fs fs1 Hq Hex Hun) as [Hc _].
    rewrite Hlast in Hc.
    destruct (String.eqb_spec (task_file_name (PStr task_id)) g) as [He|_];
      [now elim Hg | lia]. }
  intros q k Hne Hl. exact (unlink_keeps_file _ _ _ _ _ Hl Hne Hun).
Qed.

Lemma delete_task_removes_one_file_witness :
  (count_in (fst (delete_task scenario_two_tasks "proj-1" "t1")) ["proj-1"] "t1.md" + 1
   = count_in scenario_two_tasks ["proj-1"] "t1.md")%nat /\
  count_in (fst (delete_task scenario_two_tasks "proj-1" "t1")) ["proj-1"] "t2.md"
  = count_in scenario_two_tasks ["proj-1"] "t2.md".
Proof.
  destruct (delete_task_removes_one_file scenario_two_tasks
              (fst (delete_task scenario_two_tasks "proj-1" "t1")) "proj-1" "t1" true)
    as [_ H]; [reflexivity | reflexivity | vm_compute; reflexivity|].
  destruct (H eq_refl) as (removed & _ & _ & _ & Hcount & Hother & _).
  split; [exact Hcount | apply Hother; vm_compute; discriminate].
Defined.

(** X4.  The task branch of [do_DELETE] looks below [backlog], [progress],
    [review], [testing] and [done] only: for a project id and a task file
    name that are relative names without [..] component, when none of
    these folders holds a file called after the task the request fails and
    the tree is unchanged, also for a task that lies below [inprogress],
    where the resolver of [update_task_file] finds it. *)
Theorem delete_task_searches_five_folders :
  forall (fs : node) (project_id task_id : string),
    let pp := Fs.joinpath [] project_id in
    let f := task_file_name (PStr task_id) in
    relative_name project_id = true ->
    relative_name (task_id ++ ".md") = true ->
    (forall folder, In folder delete_folders ->
                    count_in fs (Fs.joinpath pp folder) f = 0%nat) ->
    delete_task fs project_id task_id = (fs, false).
Proof.
  intros fs project_id task_id pp f _ _ Hnone. unfold delete_task. fold pp.
  destruct (negb (Fs.exists_ pp fs)); [reflexivity|].
  destruct (find_for_delete fs pp (task_id ++ ".md") delete_folders) as [[p|]|] eqn:Hfind;
    try reflexivity.
  destruct (Fs.unlink p fs) as [fs1|] eqn:Hun; [|reflexivity].
  exfalso.
  destruct (unlink_was_file _ _ _ Hun) as [k Hk].
  apply find_for_delete_in in Hfind as (folder & r & Hin & ->).
  specialize (Hnone folder Hin). unfold count_in in Hnone.
  rewrite lookup_app in Hk.
  destruct (Fs.lookup (Fs.joinpath pp folder) fs) as [c|]; [|discriminate].
  assert (Hq : (r ++ Fs.components (task_id ++ ".md"))%list <> []).
  { intros H0. apply app_eq_nil in H0 as [_ H0].
    exact (components_task_filename_nonempty (PStr task_id) H0). }
  pose proof (count_named_file_at _ c k Hq Hk) as Hc.
  change (last (r ++ Fs.components (task_id ++ ".md"))%list "")
    with (Fs.name (r ++ Fs.components (task_filename (PStr task_id)))%list) in Hc.
  rewrite name_of_task_file in Hc. fold f in Hc. lia.
Qed.

Lemma delete_task_searches_five_folders_witness :
  locate alias_example_fs ["proj-1"] (PStr "t1") =
    Return (Some {| current_file := ["proj-1"; "inprogress"; "default-dev"; "t1.md"];
                    current_folder := "inprogress";
                    current_developer := Some "default-dev" |}) /\
  delete_task alias_example_fs "proj-1" "t1" = (alias_example_fs, false).
Proof.
  split; [vm_compute; reflexivity|].
  apply delete_task_searches_five_folders; [reflexivity | reflexivity |].
  intros folder [<-|[<-|[<-|[<-|[<-|[]]]]]]; reflexivity.
Defined.

(** ** The history of the other projects *)

Lemma cfd_get_set_other (d : cfd_data) (pid other : string) (h : list snapshot) :
  other <> pid -> cfd_get (cfd_set d pid h) other = cfd_get d other.
Proof.
  intros Hne. induction d as [|[k h0] d IH]; simpl.
  - destruct (String.eqb_spec pid other); [congruence | reflexivity].
  - destruct (String.eqb_spec k pid) as [->|Hk]; simpl.
    + destruct (String.eqb_spec pid other); [congruence | reflexivity].
    + now rewrite IH.
Qed.

(** X5.  [store_cfd_snapshot] touches the history of its own project
    alone: the entry of every other project in the data is what it was,
    and a project without an entry gets none. *)
Theorem store_cfd_snapshot_other_projects :
  forall (d : cfd_data) (project_id other : string) (snap : snapshot),
    other <> project_id ->
    cfd_get (fst (store_cfd_snapshot d project_id snap)) other = cfd_get d other.
Proof.
  intros d project_id other snap Hne. unfold store_cfd_snapshot.
  destruct (store_history (history_of d project_id) snap); [|reflexivity].
  simpl. now apply cfd_get_set_other.
Qed.

Lemma store_cfd_snapshot_other_projects_witness :
  cfd_get (fst (store_cfd_snapshot two_histories "proj-1" (snapshot_on 1 3))) "proj-2"
  = Some [snapshot_on 0 2].
Proof.
  exact (store_cfd_snapshot_other_projects two_histories "proj-1" "proj-2"
           (snapshot_on 1 3) ltac:(discriminate)).
Defined.

(** ** The status of the limits *)

Lemma info_get_set (d : wip_status) (k k' : string) (v : wip_info) :
  info_get (info_set d k v) k' = if (k =? k')%string then Some v else info_get d k'.
Proof.
  induction d as [|[k0 v0] d IH]; simpl.
  - reflexivity.
  - destruct (String.eqb_spec k0 k) as [->|Hk]; simpl.
    + now destruct (k =? k').
    + rewrite IH. destruct (String.eqb_spec k0 k') as [->|Hk'];
        [|reflexivity].
      destruct (String.eqb_spec k k'); [congruence | reflexivity].
Qed.

Lemma check_wip_limit_returns (cfg : wip_config) (fs : node) (project_id status : string)
    (L : Z) :
  limit_of (wip_limits cfg) status = Some L ->
  (Z.abs L < 2 ^ 1024 - 2 ^ 970)%Z ->
  exists allowed count is_warning,
    check_wip_limit cfg fs project_id status = Return (allowed, count, Some L, is_warning).
Proof.
  intros HL Hb. unfold check_wip_limit. rewrite HL.
  destruct (negb (Fs.exists_ _ fs)); [now eexists _, _, _|].
  destruct (negb (Fs.exists_ _ fs)); [now eexists _, _, _|].
  unfold int_to_float. apply Z.ltb_lt in Hb. rewrite Hb. now eexists _, _, _.
Qed.

Lemma limit_of_in (limits : list (string * option Z)) (k : string) (v : option Z) :
  NoDup (map fst limits) -> In (k, v) limits -> limit_of limits k = v.
Proof.
  induction limits as [|[k0 v0] limits IH]; simpl; [tauto|].
  intros Hnd [[= -> ->]|Hin].
  - now rewrite String.eqb_refl.
  - inversion Hnd as [|? ? Hnotin Hnd']; subst.
    destruct (String.eqb_spec k0 k) as [->|_]; [|now apply IH].
    elim Hnotin. now apply (in_map fst _ (k, v)).
Qed.

Lemma wip_status_loop_spec (cfg : wip_config) (fs : node) (project_id : string)
    (items : list (string * option Z)) :
  forall acc,
    NoDup (map fst items) ->
    (forall k v, In (k, v) items -> limit_of (wip_limits cfg) k = v) ->
    (forall k L, In (k, Some L) items -> (Z.abs L < 2 ^ 1024 - 2 ^ 970)%Z) ->
    exists info,
      wip_status_loop cfg fs project_id items acc = Return info /\
      forall status,
        match limit_of items status with
        | Some L =>
            exists r, check_wip_limit cfg fs project_id status = Return r /\
                      snd (fst r) = Some L /\
                      info_get info status = Some (entry_of r)
        | None => info_get info status = info_get acc status
        end.
Proof.
  induction items as [|[k v] items IH]; intros acc Hnd Hcfg Hb.
  - exists acc. split; [reflexivity|]. intros status. reflexivity.
  - inversion Hnd as [|? ? Hnotin Hnd']; subst.
    assert (Hcfg' : forall k0 v0, In (k0, v0) items -> limit_of (wip_limits cfg) k0 = v0)
      by (intros; apply Hcfg; now right).
    assert (Hb' : forall k0 L, In (k0, Some L) items -> (Z.abs L < 2 ^ 1024 - 2 ^ 970)%Z)
      by (intros k0 L H; apply (Hb k0); now right).
    assert (Hfresh : forall status, limit_of items status <> None -> k <> status).
    { intros status Hs ->. apply Hs. clear -Hnotin.
      induction items as [|[k1 v1] items IH]; simpl in *; [reflexivity|].
      destruct (String.eqb_spec k1 status) as [->|_]; [elim Hnotin; now left|].
      apply IH. tauto. }
    cbn [wip_status_loop limit_of]. destruct v as [L|].
    + destruct (check_wip_limit_returns cfg fs project_id k L) as (a & c & w & Hchk).
      { apply Hcfg. now left. }
      { apply (Hb k). now left. }
      rewrite Hchk.
      destruct (IH (info_set acc k (entry_of (a, c, Some L, w))) Hnd' Hcfg' Hb')
        as (info & Hrun & Hspec).
      exists info. split; [exact Hrun|]. intros status. specialize (Hspec status).
      destruct (String.eqb_spec k status) as [->|Hk].
      * destruct (limit_of items status) eqn:Hl;
          [elim (Hfresh status); [congruence | reflexivity]|].
        rewrite Hspec, info_get_set, String.eqb_refl.
        exists (a, c, Some L, w). now repeat split.
      * destruct (limit_of items status); [exact Hspec|].
        rewrite Hspec, info_get_set.
        destruct (String.eqb_spec k status); [contradiction | reflexivity].
    + destruct (IH acc Hnd' Hcfg' Hb') as (info & Hrun & Hspec).
      exists info. split; [exact Hrun|]. intros status. specialize (Hspec status).
      destruct (String.eqb_spec k status) as [->|Hk]; [|exact Hspec].
      destruct (limit_of items status) eqn:Hl;
        [elim (Hfresh status); [congruence | reflexivity] | exact Hspec].
Qed.

(** X6.  For a configuration that names every status once and whose limits
    are within the range of the doubles, [get_wip_status] returns, and the
    dictionary it returns has an entry exactly for the statuses whose
    limit is not null.  The entry of a status carries what
    [check_wip_limit] returns for it: the count, the limit, the warning,
    and [blocked] as the negation of [allowed]. *)
Theorem get_wip_status_entries :
  forall (cfg : wip_config) (fs : node) (project_id : string),
    NoDup (map fst (wip_limits cfg)) ->
    (forall status L, limit_of (wip_limits cfg) status = Some L ->
                      (Z.abs L < 2 ^ 1024 - 2 ^ 970)%Z) ->
    exists info,
      get_wip_status cfg fs project_id = Return info /\
      forall status,
        match limit_of (wip_limits cfg) status with
        | None => info_get info status = None
        | Some L =>
            exists e,
              info_get info status = Some e /\
              check_wip_limit cfg fs project_id status =
                Return (negb (w_blocked e), w_count e, Some L, w_warning e)
        end.
Proof.
  intros cfg fs project_id Hnd Hb.
  destruct (wip_status_loop_spec cfg fs project_id (wip_limits cfg) [] Hnd)
    as (info & Hrun & Hspec).
  - intros k v Hin. now apply limit_of_in.
  - intros k L Hin. apply (Hb k). now apply limit_of_in.
  - exists info. split; [exact Hrun|]. intros status. specialize (Hspec status).
    destruct (limit_of (wip_limits cfg) status) as [L|]; [|exact Hspec].
    destruct Hspec as ([[[a c] l] w] & Hchk & Hl & Hget). simpl in Hl. subst l.
    exists (entry_of (a, c, Some L, w)). split; [exact Hget|].
    simpl. now rewrite negb_involutive.
Qed.

Lemma get_wip_status_entries_witness :
  exists info,
    get_wip_status default_wip_config wip_example_fs "proj-1" = Return info /\
    info_get info "backlog" = None /\
    exists e,
      info_get info "progress" = Some e /\
      check_wip_limit default_wip_config wip_example_fs "proj-1" "progress" =
        Return (negb (w_blocked e), w_count e, Some 5%Z, w_warning e).
Proof.
  destruct (get_wip_status_entries default_wip_config wip_example_fs "proj-1")
    as (info & Hrun & Hspec).
  - cbn. repeat constructor; simpl; intuition discriminate.
  - intros status L H. cbn in H.
    repeat match type of H with
           | (if ?c then _ else _) = _ => destruct c
           end; try discriminate; injection H as <-; reflexivity.
  - exists info. split; [exact Hrun|].
    split; [exact (Hspec "backlog") | exact (Hspec "progress")].
Defined.

Lemma check_wip_limit_allows (cfg : wip_config) (fs : node) (project_id status : string)
    (r : wip_result) :
  block_setting cfg = false ->
  check_wip_limit cfg fs project_id status = Return r ->
  fst (fst (fst r)) = true.
Proof.
  intros Hblock. unfold check_wip_limit.
  destruct (limit_of (wip_limits cfg) status) as [L|]; [|now intros [= <-]].
  destruct (negb (Fs.exists_ _ fs)); [now intros [= <-]|].
  destruct (negb (Fs.exists_ _ fs)); [now intros [= <-]|].
  destruct (int_to_float L); [|discriminate].
  rewrite Hblock. now intros [= <-].
Qed.

Lemma wip_status_loop_unblocked (cfg : wip_config) (fs : node) (project_id : string)
    (items : list (string * option Z)) :
  block_setting cfg = false ->
  forall acc info,
    (forall status e, info_get acc status = Some e -> w_blocked e = false) ->
    wip_status_loop cfg fs project_id items acc = Return info ->
    forall status e, info_get info status = Some e -> w_blocked e = false.
Proof.
  intros Hblock. induction items as [|[k v] items IH]; intros acc info Hacc; simpl.
  - now intros [= <-].
  - destruct v as [L|]; [|now apply IH].
    destruct (check_wip_limit cfg fs project_id k) as [[[[a c] l] w]|] eqn:Hchk;
      [|discriminate].
    apply IH. intros status e. rewrite info_get_set.
    destruct (k =? status); [|now apply Hacc].
    intros [= <-]. simpl.
    now rewrite (check_wip_limit_allows cfg fs project_id k _ Hblock Hchk : a = true).
Qed.

(** X7.  Unless the configuration sets [block_on_limit], no entry of
    [get_wip_status] is blocked, however many tasks the status holds. *)
Theorem get_wip_status_blocks_only_on_request :
  forall (cfg : wip_config) (fs : node) (project_id : string) (info : wip_status),
    block_setting cfg = false ->
    get_wip_status cfg fs project_id = Return info ->
    forall status e, info_get info status = Some e -> w_blocked e = false.
Proof.
  intros cfg fs project_id info Hblock Hrun.
  apply (wip_status_loop_unblocked cfg fs project_id (wip_limits cfg) Hblock [] info);
    [discriminate | exact Hrun].
Qed.

Lemma get_wip_status_blocks_only_on_request_witness :
  exists info e,
    get_wip_status lenient_cfg wip_example_fs "proj-1" = Return info /\
    info_get info "progress" = Some e /\
    w_count e = 4%Z /\ w_limit e = Some 2%Z /\ w_blocked e = false.
Proof.
  pose (e := {| w_count := 4%Z; w_limit := Some 2%Z;
                w_warning := true; w_blocked := false |}).
  assert (Hrun : get_wip_status lenient_cfg wip_example_fs "proj-1"
                 = Return [("progress", e)]) by (vm_compute; reflexivity).
  exists [("progress", e)], e. split; [exact Hrun|].
  split; [reflexivity|]. split; [reflexivity|]. split; [reflexivity|].
  exact (get_wip_status_blocks_only_on_request lenient_cfg wip_example_fs "proj-1"
           [("progress", e)] eq_refl Hrun "progress" e eq_refl).
Defined.

(** ** Snapshots *)

Lemma check_wip_limit_counts (cfg : wip_config) (fs : node) (project_id status : string)
    (L : Z) :
  limit_of (wip_limits cfg) status = Some L ->
  (Z.abs L < 2 ^ 1024 - 2 ^ 970)%Z ->
  Fs.exists_ (Fs.joinpath [] project_id) fs = true ->
  exists allowed is_warning,
    check_wip_limit cfg fs project_id status =
      Return (allowed,
              if Fs.exists_ (Fs.joinpath (Fs.joinpath [] project_id) status) fs
              then Z.of_nat (List.length
                     (counted_paths (Fs.joinpath (Fs.joinpath [] project_id) status) fs))
              else 0%Z,
              Some L, is_warning).
Proof.
  intros HL Hb Hex. unfold check_wip_limit. rewrite HL, Hex. simpl negb. cbv iota.
  destruct (Fs.exists_ (Fs.joinpath (Fs.joinpath [] project_id) status) fs);
    simpl negb; cbv iota; [|now eexists _, _].
  unfold int_to_float. apply Z.ltb_lt in Hb. rewrite Hb. now eexists _, _.
Qed.

Lemma state_field_count (now : string) (fs : node) (project_id state : string)
    (snap : snapshot) :
  In state cfd_states ->
  take_cfd_snapshot now fs project_id = Some snap ->
  state_field snap state = Some (state_count fs (Fs.joinpath [] project_id) state).
Proof.
  intros Hin. unfold take_cfd_snapshot.
  destruct (negb (Fs.exists_ (Fs.joinpath [] project_id) fs)); [discriminate|].
  intros [= <-]. unfold cfd_states in Hin. simpl in Hin.
  repeat (destruct Hin as [<-|Hin]; [reflexivity|]). destruct Hin.
Qed.

(** X8.  The count of a state in the snapshot of [take_cfd_snapshot] is
    the count that [check_wip_limit] reports for the status of that name
    when it has a limit, with one exception: in a project that has a folder
    [inprogress] and no folder [progress] the snapshot counts the tasks
    below [inprogress] as progress, and the check reports 0. *)
Theorem take_cfd_snapshot_and_wip_check :
  forall (cfg : wip_config) (now : string) (fs : node) (project_id state : string)
         (L : Z) (snap : snapshot),
    In state cfd_states ->
    limit_of (wip_limits cfg) state = Some L ->
    (Z.abs L < 2 ^ 1024 - 2 ^ 970)%Z ->
    take_cfd_snapshot now fs project_id = Some snap ->
    let project_path := Fs.joinpath [] project_id in
    exists allowed count is_warning,
      check_wip_limit cfg fs project_id state = Return (allowed, count, Some L, is_warning) /\
      if (state =? "progress") &&
         negb (Fs.exists_ (Fs.joinpath project_path "progress") fs) &&
         Fs.exists_ (Fs.joinpath project_path "inprogress") fs
      then count = 0%Z /\
           state_field snap state =
             Some (Z.of_nat (List.length
                     (counted_paths (Fs.joinpath project_path "inprogress") fs)))
      else state_field snap state = Some count.
Proof.
  intros cfg now fs project_id state L snap Hin HL Hb Htake project_path.
  rewrite (state_field_count now fs project_id state snap Hin Htake).
  assert (Hex : Fs.exists_ project_path fs = true).
  { unfold take_cfd_snapshot in Htake. fold project_path in Htake.
    destruct (Fs.exists_ project_path fs); [reflexivity | discriminate]. }
  destruct (check_wip_limit_counts cfg fs project_id state L HL Hb Hex) as (a & w & Hchk).
  fold project_path in Hchk |- *.
  eexists a, _, w. split; [exact Hchk|]. unfold state_count.
  destruct (String.eqb_spec state "progress") as [->|Hs]; simpl andb.
  - destruct (Fs.exists_ (Fs.joinpath project_path "progress") fs); simpl negb; cbv iota;
      [reflexivity|].
    simpl andb.
    destruct (Fs.exists_ (Fs.joinpath project_path "inprogress") fs); simpl negb; cbv iota;
      [split; reflexivity | reflexivity].
  - destruct (Fs.exists_ (Fs.joinpath project_path state) fs) eqn:He; simpl negb; cbv iota;
      reflexivity.
Qed.

Lemma take_cfd_snapshot_and_wip_check_witness :
  exists snap allowed count is_warning,
    take_cfd_snapshot time_1 alias_example_fs "proj-1" = Some snap /\
    check_wip_limit default_wip_config alias_example_fs "proj-1" "progress" =
      Return (allowed, count, Some 5%Z, is_warning) /\
    count = 0%Z /\
    state_field snap "progress" = Some 2%Z.
Proof.
  destruct (take_cfd_snapshot time_1 alias_example_fs "proj-1") as [snap|] eqn:Htake;
    [|vm_compute in Htake; discriminate].
  destruct (take_cfd_snapshot_and_wip_check default_wip_config time_1 alias_example_fs
              "proj-1" "progress" 5%Z snap)
    as (a & c & w & Hchk & Hcond);
    [simpl; tauto | reflexivity | reflexivity | exact Htake |].
  exists snap, a, c, w. split; [reflexivity|]. split; [exact Hchk | exact Hcond].
Defined.

(** ** The history served *)

Lemma last_skipn (n : nat) (dflt : snapshot) (l : list snapshot) :
  (n < List.length l)%nat -> last (skipn n l) dflt = last l dflt.
Proof.
  revert l. induction n as [|n IH]; intros l Hn; [reflexivity|].
  destruct l as [|x l]; [simpl in Hn; lia|]. simpl in Hn.
  cbn [skipn]. rewrite IH by lia.
  destruct l; [simpl in Hn; lia | reflexivity].
Qed.

Lemma last_keep_latest (dflt : snapshot) (l : list snapshot) :
  last (keep_latest l) dflt = last l dflt.
Proof.
  unfold keep_latest. destruct (max_days <? List.length l)%nat eqn:H; [|reflexivity].
  apply Nat.ltb_lt in H. apply last_skipn. unfold max_days in *. lia.
Qed.

Lemma last_cfd_window (days : Z) (dflt : snapshot) (l : list snapshot) :
  (1 <= days)%Z -> last (cfd_window days l) dflt = last l dflt.
Proof.
  intros Hd. unfold cfd_window.
  destruct (negb (days =? 0)%Z && (days <? Z.of_nat (List.length l))%Z) eqn:H; [|reflexivity].
  apply andb_prop in H as [_ H]. apply Z.ltb_lt in H.
  destruct (days <? 0)%Z eqn:Hneg; [apply Z.ltb_lt in Hneg; lia|].
  apply last_skipn. lia.
Qed.

Lemma cfd_window_nonempty (days : Z) (l : list snapshot) :
  (1 <= days)%Z -> l <> [] -> cfd_window days l <> [].
Proof.
  intros Hd Hl. unfold cfd_window.
  destruct (negb (days =? 0)%Z && (days <? Z.of_nat (List.length l))%Z) eqn:H; [|exact Hl].
  apply andb_prop in H as [_ H]. apply Z.ltb_lt in H.
  destruct (days <? 0)%Z eqn:Hneg; [apply Z.ltb_lt in Hneg; lia|].
  intros H0. apply (f_equal (@List.length snapshot)) in H0.
  rewrite length_skipn in H0. simpl in H0. lia.
Qed.

Lemma keep_latest_nonempty (l : list snapshot) : l <> [] -> keep_latest l <> [].
Proof.
  intros Hl H0. pose proof (keep_latest_last (snapshot_on 0 0) l Hl) as Hin.
  rewrite H0 in Hin. destruct Hin.
Qed.

Lemma sort_by_date_nonempty (l : list snapshot) : l <> [] -> sort_by_date l <> [].
Proof.
  intros Hl H0. apply (f_equal (@List.length snapshot)) in H0.
  rewrite length_sort_by_date in H0. destruct l; [contradiction | discriminate].
Qed.

(** The history after storing a snapshot of a day that is not before any
    day of the history ends with that snapshot. *)
Lemma store_history_latest (h : list snapshot) (snap dflt : snapshot) :
  (count_date (s_date snap) h <= 1)%nat ->
  (forall x, In x h -> String.leb (s_date x) (s_date snap) = true) ->
  exists h', store_history h snap = Some h' /\ h' <> [] /\ last h' dflt = snap.
Proof.
  intros Hcount Hle. rewrite store_history_eq. eexists. split; [reflexivity|].
  destruct (upsert_split snap h Hcount) as (l1 & l2 & Hup & Hothers).
  split.
  - apply keep_latest_nonempty, sort_by_date_nonempty. rewrite Hup.
    intros H0. now apply app_eq_nil in H0 as [_ H0].
  - rewrite last_keep_latest, Hup. apply sort_by_date_last_max.
    intros y Hy. destruct (Hothers y Hy) as [Hin Hne].
    destruct (String.leb (s_date snap) (s_date y)) eqn:Hl; [|reflexivity].
    elim Hne. apply String.leb_antisym; [apply Hle; exact Hin | exact Hl].
Qed.

(** X9.  A snapshot taken by the [cfd-snapshot] request is the last entry
    of the history that the [cfd-data] request serves afterwards, for any
    positive number of days, when the history of the project held at most
    one entry of the day of the snapshot and no entry of a later day. *)
Theorem cfd_snapshot_is_served_last :
  forall (now : string) (fs : node) (d : cfd_data) (project_id : string)
         (snap : snapshot) (days : Z),
    let h := history_of d project_id in
    snd (cfd_snapshot now fs d project_id) = Some snap ->
    (count_date (s_date snap) h <= 1)%nat ->
    (forall x, In x h -> String.leb (s_date x) (s_date snap) = true) ->
    (1 <= days)%Z ->
    exists earlier,
      cfd_data_response (fst (cfd_snapshot now fs d project_id)) project_id days
      = (earlier ++ [snap])%list.
Proof.
  intros now fs d project_id snap days h Hsnap Hcount Hle Hdays.
  unfold cfd_snapshot in *.
  destruct (take_cfd_snapshot now fs project_id) as [s|]; [|discriminate].
  simpl in Hsnap. injection Hsnap as ->. simpl fst.
  destruct (store_history_latest h snap snap Hcount Hle) as (h' & Hstore & Hne & Hlast).
  unfold cfd_data_response. rewrite (history_after_store d project_id snap h' Hstore).
  pose proof (cfd_window_nonempty days h' Hdays Hne) as Hwne.
  pose proof (last_cfd_window days snap h' Hdays) as Hwl. rewrite Hlast in Hwl.
  destruct (exists_last Hwne) as (earlier & x & Heq).
  exists earlier. rewrite Heq in Hwl |- *. rewrite last_last in Hwl. now subst x.
Qed.

Lemma cfd_snapshot_is_served_last_witness :
  exists snap earlier,
    snd (cfd_snapshot time_1 scenario_backlog two_day_history "proj-1") = Some snap /\
    cfd_data_response (fst (cfd_snapshot time_1 scenario_backlog two_day_history "proj-1"))
                      "proj-1" 30
    = (earlier ++ [snap])%list.
Proof.
  pose (snap := {| s_date := "2024-05-01"; s_timestamp := time_1;
                   s_backlog := 1; s_progress := 0; s_review := 0;
                   s_testing := 0; s_done := 0 |}).
  assert (Hsnap : snd (cfd_snapshot time_1 scenario_backlog two_day_history "proj-1")
                  = Some snap) by (vm_compute; reflexivity).
  destruct (cfd_snapshot_is_served_last time_1 scenario_backlog two_day_history "proj-1"
              snap 30 Hsnap) as [earlier H].
  - vm_compute. repeat constructor.
  - intros x Hx. vm_compute in Hx. destruct Hx as [<-|[<-|[]]]; reflexivity.
  - lia.
  - exists snap, earlier. split; [exact Hsnap | exact H].
Defined.

(** ** The developers of a project *)

Lemma str_in_iff (x : string) (l : list string) : str_in x l = true <-> In x l.
Proof.
  unfold str_in. rewrite existsb_exists. split.
  - intros (y & Hin & He). apply String.eqb_eq in He. now subst.
  - intros Hin. exists x. split; [exact Hin | apply String.eqb_refl].
Qed.




Lemma exists_iterdir (p : path) (n : node) (items : list string) :
  Fs.iterdir p n = Some items -> Fs.exists_ p n = true.
Proof.
  unfold Fs.iterdir, Fs.exists_. now destruct (Fs.lookup p n) as [[|]|].
Qed.

Lemma is_dir_iterdir (p : path) (n : node) :
  Fs.is_dir p n = true -> exists items, Fs.iterdir p n = Some items.
Proof.
  unfold Fs.iterdir, Fs.is_dir. destruct (Fs.lookup p n) as [[|es]|]; try discriminate.
  intros _. now eexists.
Qed.










(** ** The first line of a README *)

Lemma rstrip_idem (p : ascii -> bool) (s : string) :
  Str.rstrip_by p (Str.rstrip_by p s) = Str.rstrip_by p s.
Proof.
  induction s as [|c s IH]; [reflexivity|]. cbn [Str.rstrip_by].
  destruct (Str.rstrip_by p s) as [|a r] eqn:Hr.
  - destruct (p c) eqn:Hc; [reflexivity|]. cbn [Str.rstrip_by]. now rewrite Hc.
  - cbn [Str.rstrip_by] in IH |- *. now rewrite IH.
Qed.

Lemma rstrip_app_keep (p : ascii -> bool) (a b : string) :
  Str.rstrip_by p b <> "" -> Str.rstrip_by p (a ++ b) = a ++ Str.rstrip_by p b.
Proof.
  intros Hb. induction a as [|c a IH]; [reflexivity|].
  cbn [append Str.rstrip_by]. rewrite IH.
  destruct (a ++ Str.rstrip_by p b) eqn:H; [|reflexivity].
  destruct a; [simpl in H; contradiction | discriminate].
Qed.

Lemma first_line_cons (c : ascii) (s : string) :
  first_line (String c s) =
  if (c =? Str.newline)%char then "" else String c (first_line s).
Proof.
  unfold first_line. cbn [Str.split_char].
  destruct (c =? Str.newline)%char; [reflexivity|].
  pose proof (split_char_nonempty Str.newline s) as Hne.
  destruct (Str.split_char Str.newline s); [contradiction | reflexivity].
Qed.

(** The first line of a text does not depend on what follows its first
    line break. *)
Lemma first_line_app_newline (a b : string) :
  first_line (a ++ String Str.newline b) = first_line a.
Proof.
  induction a as [|c a IH].
  - reflexivity.
  - cbn [append]. rewrite !first_line_cons, IH. reflexivity.
Qed.

Lemma contains_char_cons (c a : ascii) (s : string) :
  Str.contains (String c "") (String a s) =
  (c =? a)%char || Str.contains (String c "") s.
Proof.
  cbn [Str.contains String.prefix].
  destruct (ascii_dec c a) as [->|Hne].
  - rewrite Ascii.eqb_refl. now destruct s.
  - destruct (Ascii.eqb_spec c a); [contradiction | reflexivity].
Qed.

Lemma first_line_plain (s : string) :
  Str.contains (String Str.newline "") s = false -> first_line s = s.
Proof.
  induction s as [|c s IH]; [reflexivity|].
  rewrite contains_char_cons, first_line_cons. intros H.
  apply orb_false_iff in H as [Hc Hs]. rewrite Ascii.eqb_sym, Hc. now rewrite IH.
Qed.

Lemma remove_hash_plain (s : string) :
  Str.contains "#" s = false -> remove_hash s = s.
Proof.
  induction s as [|c s IH]; [reflexivity|].
  rewrite contains_char_cons. intros H. apply orb_false_iff in H as [Hc Hs].
  cbn [remove_hash]. rewrite Ascii.eqb_sym, Hc. now rewrite IH.
Qed.

Lemma heading_of_plain (s : string) : plain_text s -> heading_of s = s.
Proof.
  intros (_ & Hnl & Hhash & Hstrip & _). unfold heading_of.
  change ("# " ++ s) with (String "#" (String " " s)).
  rewrite !first_line_cons. change ("#" =? Str.newline)%char with false.
  change (" " =? Str.newline)%char with false. cbv iota.
  rewrite (first_line_plain s Hnl). cbn [remove_hash].
  change ("#" =? "#")%char with true. change (" " =? "#")%char with false. cbv iota.
  rewrite (remove_hash_plain s Hhash).
  rewrite strip_cons_space by reflexivity. exact Hstrip.
Qed.

Lemma strip_hash_line (s rest : string) :
  Str.rstrip_by Str.is_space rest <> "" ->
  Str.strip ("# " ++ s ++ rest) = "# " ++ s ++ Str.rstrip_by Str.is_space rest.
Proof.
  intros Hrest. unfold Str.strip, Str.strip_by.
  change ("# " ++ s ++ rest) with (String "#" (String " " (s ++ rest))).
  cbn [Str.lstrip_by]. change (Str.is_space "#") with false. cbv iota.
  change (String "#" (String " " (s ++ rest))) with (("# " ++ s) ++ rest) at 1.
  rewrite <- append_assoc at 1.
  rewrite (rstrip_app_keep Str.is_space ("# " ++ s) rest Hrest).
  now rewrite append_assoc.
Qed.

(** The description read from a README whose text is the line [# s]
    followed by a line break. *)
Lemma description_of_heading (s : string) :
  Str.rstrip_by Str.is_space s = s -> s <> "" ->
  first_line (Str.strip ("# " ++ s ++ String Str.newline "")) = first_line ("# " ++ s).
Proof.
  intros Hs Hne.
  assert (H : Str.strip ("# " ++ s ++ String Str.newline "") = Str.strip ("# " ++ s)).
  { rewrite <- (strip_app_space ("# " ++ s) Str.newline eq_refl).
    now rewrite append_assoc. }
  rewrite H.
  assert (H2 : Str.strip ("# " ++ s) = "# " ++ s).
  { pose proof (strip_hash_line "" s) as H3. cbn [append] in H3.
    change ("# " ++ s) with (String "#" (String " " s)).
    rewrite H3 by (rewrite Hs; exact Hne). now rewrite Hs. }
  now rewrite H2.
Qed.

(** ** The description of a project *)

Lemma get_has_key (d : dict) (k : string) (v : pyval) :
  get d k = v -> v <> PNone -> has_key d k = true.
Proof.
  intros Hg Hv. destruct (has_key d k) eqn:H; [reflexivity|].
  rewrite (get_absent d k H) in Hg. congruence.
Qed.

(** The README that [update_project_info] writes starts with the line of
    the project id. *)
Lemma first_line_of_update (project_id d : string) :
  Str.nonempty (Str.strip d) = true ->
  first_line
    (Str.strip ("# " ++ project_id ++ String Str.newline (String Str.newline "") ++
                Str.strip d ++ String Str.newline ""))
  = first_line ("# " ++ project_id).
Proof.
  intros Hne.
  assert (Hd : Str.rstrip_by Str.is_space (Str.strip d ++ String Str.newline "")
               = Str.strip d).
  { rewrite rstrip_app_space by reflexivity. unfold Str.strip, Str.strip_by.
    apply rstrip_idem. }
  assert (Hnz : Str.strip d <> "") by (destruct (Str.strip d); [discriminate | discriminate]).
  assert (Hrest : Str.rstrip_by Str.is_space
                    (String Str.newline (String Str.newline "") ++
                     Str.strip d ++ String Str.newline "")
                  = String Str.newline (String Str.newline (Str.strip d))).
  { rewrite rstrip_app_keep by (rewrite Hd; exact Hnz). now rewrite Hd. }
  rewrite strip_hash_line by (rewrite Hrest; discriminate).
  rewrite Hrest.
  change ("# " ++ project_id ++ String Str.newline (String Str.newline (Str.strip d)))
    with (String "#" (String " " (project_id ++
            String Str.newline (String Str.newline (Str.strip d))))).
  change ("# " ++ project_id) with (String "#" (String " " project_id)).
  rewrite !first_line_cons. now rewrite first_line_app_newline.
Qed.

(** X11.  For a project id and a description of ASCII characters without
    carriage return, [get_project_info] does not show the description that
    [update_project_info] has written: the description it shows is read
    from the first line of the README, which is the heading of the project
    id.  For a project id without line break, hash sign or surrounding
    blanks the description shown is the project id. *)
Theorem update_project_info_shows_project_id :
  forall (fs fs' : node) (project_id d : string) (project_data : dict)
         (info : project_info),
    portable project_id = true ->
    portable d = true ->
    get project_data "description" = PStr d ->
    Str.nonempty (Str.strip d) = true ->
    update_project_info fs project_id project_data = (fs', true) ->
    get_project_info fs' project_id = Return (Some info) ->
    p_description info =
      (if Str.nonempty (heading_of project_id) then heading_of project_id
       else "Project " ++ project_id) /\
    (plain_text project_id -> p_description info = project_id).
Proof.
  intros fs fs' project_id d project_data info _ _ Hget Hd Hup Hinfo.
  assert (Hdesc : p_description info =
                  if Str.nonempty (heading_of project_id) then heading_of project_id
                  else "Project " ++ project_id).
  { unfold update_project_info in Hup.
    destruct (negb (Fs.exists_ (Fs.joinpath [] project_id) fs)); [discriminate|].
    rewrite (get_has_key project_data "description" (PStr d) Hget) in Hup by discriminate.
    rewrite Hget, Hd in Hup.
    destruct (Fs.write_text _ _ fs) as [fs1|] eqn:Hw; [|discriminate].
    injection Hup as <-. apply write_text_read in Hw.
    unfold get_project_info in Hinfo.
    destruct (negb (Fs.exists_ (Fs.joinpath [] project_id) fs1)); [discriminate|].
    destruct (calculate_project_stats fs1 project_id); [|discriminate].
    destruct (get_project_developers fs1 project_id); [|discriminate].
    injection Hinfo as <-. cbn [p_description]. unfold readme_description.
    assert (Hex : Fs.exists_ (Fs.joinpath (Fs.joinpath [] project_id) "README.md") fs1 = true).
    { apply read_text_lookup in Hw. unfold Fs.exists_. now rewrite Hw. }
    rewrite Hex, Hw. cbv zeta. rewrite (first_line_of_update project_id d Hd).
    reflexivity. }
  split; [exact Hdesc|].
  intros Hplain. rewrite Hdesc, (heading_of_plain project_id Hplain).
  destruct Hplain as (_ & _ & _ & _ & Hne). now destruct project_id.
Qed.

Lemma update_project_info_shows_project_id_witness :
  exists info,
    get_project_info
      (fst (update_project_info scenario_created "proj-1"
              [("description", PStr "Tracks the release")])) "proj-1"
    = Return (Some info) /\
    p_description info = "proj-1".
Proof.
  destruct (get_project_info
              (fst (update_project_info scenario_created "proj-1"
                      [("description", PStr "Tracks the release")])) "proj-1")
    as [[info|]|] eqn:Hinfo;
    [|vm_compute in Hinfo; discriminate|vm_compute in Hinfo; discriminate].
  exists info. split; [reflexivity|].
  refine (proj2 (update_project_info_shows_project_id scenario_created
                   (fst (update_project_info scenario_created "proj-1"
                           [("description", PStr "Tracks the release")]))
                   "proj-1" "Tracks the release"
                   [("description", PStr "Tracks the release")] info
                   eq_refl eq_refl eq_refl eq_refl _ Hinfo) _).
  - vm_compute. reflexivity.
  - split; [reflexivity|].
    split; [reflexivity | split; [reflexivity | split; [reflexivity | discriminate]]].
Defined.

(** ** Reading below the project directory *)

Section Relocation.

Variables (fs c : node) (pp : path).
Hypothesis Hc : Fs.lookup pp fs = Some c.

Lemma lookup_below (q : path) : Fs.lookup (pp ++ q)%list fs = Fs.lookup q c.
Proof. now rewrite lookup_app, Hc. Qed.

Lemma exists_below (q : path) : Fs.exists_ (pp ++ q)%list fs = Fs.exists_ q c.
Proof. unfold Fs.exists_. now rewrite lookup_below. Qed.

Lemma is_dir_below (q : path) : Fs.is_dir (pp ++ q)%list fs = Fs.is_dir q c.
Proof. unfold Fs.is_dir. now rewrite lookup_below. Qed.

Lemma iterdir_below (q : path) : Fs.iterdir (pp ++ q)%list fs = Fs.iterdir q c.
Proof. unfold Fs.iterdir. now rewrite lookup_below. Qed.

Lemma read_text_below (q : path) : Fs.read_text (pp ++ q)%list fs = Fs.read_text q c.
Proof. unfold Fs.read_text. now rewrite lookup_below. Qed.

Lemma glob_md_below (q : path) : glob_md (pp ++ q)%list fs = glob_md q c.
Proof. unfold glob_md. now rewrite iterdir_below. Qed.

Lemma count_dev_folders_below (folder : string) (q : path) (items : list string) :
  forall total devs,
    count_dev_folders fs folder (pp ++ q)%list items total devs =
    count_dev_folders c folder q items total devs.
Proof.
  induction items as [|d items IH]; intros total devs; cbn [count_dev_folders];
    [reflexivity|].
  rewrite <- app_assoc, is_dir_below, glob_md_below.
  destruct (Fs.is_dir (q ++ [d])%list c && negb (Str.startswith (Str.lower d) "readme"));
    apply IH.
Qed.

Lemma count_folders_below (folders : list string) :
  forall total devs,
    count_folders fs pp folders total devs = count_folders c [] folders total devs.
Proof.
  induction folders as [|folder folders IH]; intros total devs; cbn [count_folders];
    [reflexivity|].
  unfold Fs.joinpath. cbn [app].
  rewrite exists_below, glob_md_below, iterdir_below.
  destruct (Fs.exists_ (Fs.components folder) c); [|apply IH].
  destruct (Fs.iterdir (Fs.components folder) c) as [items|]; [|reflexivity].
  rewrite count_dev_folders_below.
  destruct (count_dev_folders c folder (Fs.components folder) items _ devs). apply IH.
Qed.

Lemma developers_in_below (q : path) (items : list string) :
  forall devs,
    developers_in fs (pp ++ q)%list items devs = developers_in c q items devs.
Proof.
  induction items as [|d items IH]; intros devs; cbn [developers_in]; [reflexivity|].
  rewrite <- app_assoc, is_dir_below.
  destruct (Fs.is_dir (q ++ [d])%list c &&
            (Str.startswith d "dev-" || Str.startswith d "tech-")); apply IH.
Qed.

Lemma collect_developers_below (folders : list string) :
  forall devs,
    collect_developers fs pp folders devs = collect_developers c [] folders devs.
Proof.
  induction folders as [|folder folders IH]; intros devs; cbn [collect_developers];
    [reflexivity|].
  unfold Fs.joinpath. cbn [app].
  rewrite exists_below, iterdir_below.
  destruct (Fs.exists_ (Fs.components folder) c); [|apply IH].
  destruct (Fs.iterdir (Fs.components folder) c) as [items|]; [|reflexivity].
  rewrite developers_in_below. apply IH.
Qed.

Lemma readme_description_below (project_id : string) :
  readme_description fs pp project_id = readme_description c [] project_id.
Proof.
  unfold readme_description, Fs.joinpath. cbn [app].
  now rewrite exists_below, read_text_below.
Qed.

End Relocation.

(** X12.  [get_project_info] right after a successful [create_project]
    returns the id as id and name, a count of 0 for each statistic with
    the detail [(1 devs)] for the tasks in progress (the folder
    [default-dev] below [inprogress]), and no developer.  The description
    it shows is the one given to [create_project] when that is a text of
    ASCII characters without line break, carriage return, hash sign or
    surrounding blanks, and the default text when the description given is
    empty. *)
Theorem get_project_info_after_create_project :
  forall (fs fs' : node) (project_data : dict) (pid : string),
    get project_data "id" = PStr pid ->
    create_project fs project_data = (fs', Return true) ->
    let description := project_description project_data pid in
    let info shown :=
      Return (Some {| p_id := pid;
                      p_name := pid;
                      p_description := shown;
                      p_stats := fresh_stats;
                      p_developers := [] |}) in
    (plain_text description -> get_project_info fs' pid = info description) /\
    (description = "" -> get_project_info fs' pid = info ("Project " ++ pid)).
Proof.
  intros fs fs' project_data pid Hid Hcreate desc info.
  pose proof (create_project_skeleton fs fs' project_data pid Hid Hcreate) as Hsk.
  fold desc in Hsk.
  assert (Hinfo : get_project_info fs' pid =
                  info (readme_description (project_skeleton desc) [] pid)).
  { unfold get_project_info, calculate_project_stats, get_project_developers.
    assert (Hex : Fs.exists_ (Fs.joinpath [] pid) fs' = true)
      by (unfold Fs.exists_; now rewrite Hsk).
    rewrite Hex. simpl negb. cbv iota.
    rewrite !(count_folders_below fs' _ _ Hsk).
    rewrite (collect_developers_below fs' _ _ Hsk).
    rewrite (readme_description_below fs' _ _ Hsk).
    reflexivity. }
  rewrite Hinfo. split.
  - intros Hplain. f_equal. f_equal. f_equal.
    unfold readme_description, project_skeleton.
    change (Fs.exists_ (Fs.joinpath [] "README.md") _) with true. cbv iota.
    change (Fs.read_text (Fs.joinpath [] "README.md") _)
      with (Some ("# " ++ desc ++ String Str.newline "")).
    cbv iota zeta. destruct Hplain as (Hport & Hnl & Hhash & Hstrip & Hne).
    rewrite description_of_heading; [|
      unfold Str.strip, Str.strip_by in Hstrip; rewrite <- Hstrip at 1;
      rewrite rstrip_idem; exact Hstrip | exact Hne].
    fold (heading_of desc).
    rewrite (heading_of_plain desc (conj Hport (conj Hnl (conj Hhash (conj Hstrip Hne))))).
    now destruct desc.
  - intros Hempty. rewrite Hempty. reflexivity.
Qed.

Lemma get_project_info_after_create_project_witness :
  get_project_info
    (fst (create_project (Dir []) [ ("id", PStr "proj-1");
                                    ("description", PStr "Release tracker") ])) "proj-1"
  = Return (Some {| p_id := "proj-1";
                    p_name := "proj-1";
                    p_description := "Release tracker";
                    p_stats := fresh_stats;
                    p_developers := [] |}).
Proof.
  refine (proj1 (get_project_info_after_create_project (Dir [])
                   (fst (create_project (Dir []) [ ("id", PStr "proj-1");
                                                   ("description", PStr "Release tracker") ]))
                   [ ("id", PStr "proj-1"); ("description", PStr "Release tracker") ]
                   "proj-1" eq_refl _) _).
  - vm_compute. reflexivity.
  - split; [reflexivity|].
    split; [reflexivity | split; [reflexivity | split; [reflexivity | discriminate]]].
Defined.

(** ** The listing of the projects *)

Lemma get_project_info_id (fs : node) (project_id : string) (info : project_info) :
  get_project_info fs project_id = Return (Some info) -> p_id info = project_id.
Proof.
  unfold get_project_info.
  destruct (negb (Fs.exists_ (Fs.joinpath [] project_id) fs)); [discriminate|].
  destruct (calculate_project_stats fs project_id); [|discriminate].
  destruct (get_project_developers fs project_id); [|discriminate].
  now intros [= <-].
Qed.

Lemma get_project_info_exists (fs : node) (project_id : string) :
  get_project_info fs project_id = Return None ->
  Fs.exists_ (Fs.joinpath [] project_id) fs = false.
Proof.
  unfold get_project_info.
  destruct (Fs.exists_ (Fs.joinpath [] project_id) fs); [|reflexivity].
  simpl negb. cbv iota.
  destruct (calculate_project_stats fs project_id); [|discriminate].
  destruct (get_project_developers fs project_id); discriminate.
Qed.

Lemma projects_loop_ids (fs : node) (items : list string) :
  (forall d, In d items -> Fs.components d = [d]) ->
  forall acc projects,
    projects_loop fs items acc = Return projects ->
    map p_id projects = (map p_id acc ++ filter (is_visible_project fs) items)%list.
Proof.
  induction items as [|d items IH]; intros Hwf acc projects; cbn [projects_loop filter].
  - intros [= <-]. now rewrite app_nil_r.
  - assert (Hwf' : forall x, In x items -> Fs.components x = [x])
      by (intros x Hx; apply Hwf; now right).
    fold (is_visible_project fs d).
    destruct (is_visible_project fs d) eqn:Hvis; [|now apply IH].
    destruct (get_project_info fs d) as [[info|]|] eqn:Hinfo; [| |discriminate].
    + intros Hrun. rewrite (IH Hwf' _ _ Hrun), map_app. cbn [map].
      rewrite (get_project_info_id fs d info Hinfo), <- app_assoc. reflexivity.
    + apply get_project_info_exists in Hinfo. unfold Fs.joinpath in Hinfo.
      rewrite (Hwf d (or_introl eq_refl)) in Hinfo. cbn [app] in Hinfo.
      unfold is_visible_project, Fs.is_dir in Hvis. unfold Fs.exists_ in Hinfo.
      destruct (Fs.lookup [d] fs) as [[|]|]; discriminate.
Qed.

(** X13.  When [get_projects] returns, it lists exactly the
    subdirectories of the base directory whose name does not start with a
    dot, in the order of the directory and each under its name. *)
Theorem get_projects_lists_visible_directories :
  forall (fs : node) (items : list string) (projects : list project_info),
    Fs.iterdir [] fs = Some items ->
    (forall d, In d items -> Fs.components d = [d]) ->
    get_projects fs = Return projects ->
    map p_id projects = filter (is_visible_project fs) items.
Proof.
  intros fs items projects Hit Hwf. unfold get_projects. rewrite Hit.
  intros Hrun. exact (projects_loop_ids fs items Hwf [] projects Hrun).
Qed.

Lemma get_projects_lists_visible_directories_witness :
  exists projects,
    get_projects listing_example_fs = Return projects /\
    map p_id projects = ["proj-1"].
Proof.
  destruct (get_projects listing_example_fs) as [projects|] eqn:Hrun;
    [|vm_compute in Hrun; discriminate].
  exists projects. split; [reflexivity|].
  refine (get_projects_lists_visible_directories listing_example_fs
            ["proj-1"; ".git"; "notes.txt"] projects eq_refl _ Hrun).
  intros d [<-|[<-|[<-|[]]]]; reflexivity.
Defined.

Lemma count_folders_raises (fs : node) (pp : path) (folder : string) (k : contents)
    (folders : list string) :
  In folder folders ->
  Fs.lookup (Fs.joinpath pp folder) fs = Some (File k) ->
  forall total devs, count_folders fs pp folders total devs = Raise.
Proof.
  intros Hin Hfile. induction folders as [|f folders IH]; [destruct Hin|].
  intros total devs. cbn [count_folders].
  destruct Hin as [->|Hin].
  - unfold Fs.exists_, Fs.iterdir. now rewrite Hfile.
  - destruct (Fs.exists_ (Fs.joinpath pp f) fs); [|now apply IH].
    destruct (Fs.iterdir (Fs.joinpath pp f) fs) as [items|]; [|reflexivity].
    destruct (count_dev_folders fs f (Fs.joinpath pp f) items _ devs). now apply IH.
Qed.

Lemma collect_developers_raises (fs : node) (pp : path) (folder : string) (k : contents)
    (folders : list string) :
  In folder folders ->
  Fs.lookup (Fs.joinpath pp folder) fs = Some (File k) ->
  forall devs, collect_developers fs pp folders devs = Raise.
Proof.
  intros Hin Hfile. induction folders as [|f folders IH]; [destruct Hin|].
  intros devs. cbn [collect_developers].
  destruct Hin as [->|Hin].
  - unfold Fs.exists_, Fs.iterdir. now rewrite Hfile.
  - destruct (Fs.exists_ (Fs.joinpath pp f) fs); [|now apply IH].
    destruct (Fs.iterdir (Fs.joinpath pp f) fs) as [items|]; [|reflexivity].
    now apply IH.
Qed.

(** A regular file in the place of a status folder makes
    [get_project_info] raise. *)
Lemma get_project_info_raises (fs : node) (project_id folder : string) (k : contents) :
  In folder status_folders ->
  Fs.lookup (Fs.joinpath (Fs.joinpath [] project_id) folder) fs = Some (File k) ->
  get_project_info fs project_id = Raise.
Proof.
  intros Hin Hfile. unfold get_project_info.
  assert (Hex : Fs.exists_ (Fs.joinpath [] project_id) fs = true).
  { apply (exists_prefix _ (Fs.components folder)). unfold Fs.exists_.
    change (Fs.joinpath [] project_id ++ Fs.components folder)%list
      with (Fs.joinpath (Fs.joinpath [] project_id) folder).
    now rewrite Hfile. }
  rewrite Hex. simpl negb. cbv iota.
  set (pp := Fs.joinpath [] project_id) in *.
  assert (Hstats : In folder ["backlog"; "progress"; "inprogress"; "done"] ->
                   calculate_project_stats fs project_id = Raise).
  { intros H. unfold calculate_project_stats. fold pp. simpl in H.
    destruct H as [<-|H].
    { now rewrite (count_folders_raises fs pp "backlog" k ["backlog"]
                     (or_introl eq_refl) Hfile). }
    destruct (count_folders fs pp ["backlog"] 0 []) as [[b d0]|]; [|reflexivity].
    assert (Hp : In folder ["progress"; "inprogress"] \/ folder = "done")
      by (simpl; intuition).
    destruct Hp as [Hp | ->].
    { now rewrite (count_folders_raises fs pp folder k ["progress"; "inprogress"] Hp Hfile). }
    destruct (count_folders fs pp ["progress"; "inprogress"] 0 []) as [[p d1]|];
      [|reflexivity].
    now rewrite (count_folders_raises fs pp "done" k ["done"] (or_introl eq_refl) Hfile). }
  assert (Hdevs : In folder developer_status_folders ->
                  get_project_developers fs project_id = Raise).
  { intros H. unfold get_project_developers. fold pp. rewrite Hex. simpl negb. cbv iota.
    now rewrite (collect_developers_raises fs pp folder k _ H Hfile). }
  unfold status_folders in Hin. simpl in Hin.
  destruct Hin as [<-|[<-|[<-|[<-|[<-|[<-|[]]]]]]].
  - rewrite Hstats; [reflexivity | simpl; tauto].
  - rewrite Hstats; [reflexivity | simpl; tauto].
  - rewrite Hstats; [reflexivity | simpl; tauto].
  - destruct (calculate_project_stats fs project_id); [|reflexivity].
    rewrite Hdevs; [reflexivity | unfold developer_status_folders; simpl; tauto].
  - destruct (calculate_project_stats fs project_id); [|reflexivity].
    rewrite Hdevs; [reflexivity | unfold developer_status_folders; simpl; tauto].
  - rewrite Hstats; [reflexivity | simpl; tauto].
Qed.

Lemma projects_loop_raises (fs : node) (d : string) (items : list string) :
  In d items ->
  is_visible_project fs d = true ->
  get_project_info fs d = Raise ->
  forall acc, projects_loop fs items acc = Raise.
Proof.
  intros Hin Hvis Hraise. induction items as [|x items IH]; [destruct Hin|].
  intros acc. cbn [projects_loop]. fold (is_visible_project fs x).
  destruct (string_dec x d) as [->|Hne].
  - now rewrite Hvis, Hraise.
  - destruct Hin as [->|Hin]; [contradiction|].
    destruct (is_visible_project fs x); [|now apply IH].
    destruct (get_project_info fs x) as [[info|]|]; [| |reflexivity]; now apply IH.
Qed.

(** X14.  A regular file in the place of a status folder of one visible
    project makes [get_projects] raise: no project at all is listed. *)
Theorem get_projects_fails_on_misplaced_file :
  forall (fs : node) (items : list string) (d folder : string) (k : contents),
    Fs.iterdir [] fs = Some items ->
    In d items ->
    is_visible_project fs d = true ->
    In folder status_folders ->
    Fs.lookup (Fs.joinpath (Fs.joinpath [] d) folder) fs = Some (File k) ->
    get_projects fs = Raise.
Proof.
  intros fs items d folder k Hit Hin Hvis Hfolder Hfile.
  unfold get_projects. rewrite Hit.
  apply (projects_loop_raises fs d items Hin Hvis).
  exact (get_project_info_raises fs d folder k Hfolder Hfile).
Qed.

Lemma get_projects_fails_on_misplaced_file_witness :
  get_projects misplaced_example_fs = Raise.
Proof.
  apply (get_projects_fails_on_misplaced_file misplaced_example_fs
           ["proj-1"; "proj-2"] "proj-2" "backlog" (Text "not a folder"));
    try reflexivity; simpl; tauto.
Defined.

(** ** The listing of the tasks *)

Lemma get_dict_set (d : dict) (k k' : string) (v : pyval) :
  get (dict_set d k v) k' = if (k =? k')%string then v else get d k'.
Proof.
  induction d as [|[k0 v0] d IH]; simpl.
  - reflexivity.
  - destruct (String.eqb_spec k0 k) as [->|Hk]; simpl.
    + now destruct (k =? k').
    + rewrite IH. destruct (String.eqb_spec k0 k') as [->|Hk']; [|reflexivity].
      destruct (String.eqb_spec k k'); [congruence | reflexivity].
Qed.

Lemma parse_task_file_fields (fs : node) (file_path : path) (task : dict) :
  parse_task_file fs file_path = Some task ->
  (exists text, Fs.read_text file_path fs = Some text) /\
  get task "id" = PStr (stem (Fs.name file_path)) /\
  get task "file_path" = PStr (path_text file_path).
Proof.
  unfold parse_task_file. destruct (Fs.read_text file_path fs) as [text|]; [|discriminate].
  intros [= <-]. split; [now exists text|]. unfold task_of_content.
  destruct (split_frontmatter text). split; reflexivity.
Qed.

Lemma name_last (dir : path) (nm : string) : Fs.name (dir ++ [nm])%list = nm.
Proof. unfold Fs.name. apply last_last. Qed.

Lemma tasks_in_origin (fs : node) (dir : path) (status project_id : string)
    (developer : option string) (all names : list string) :
  (forall nm, In nm names -> In nm all) ->
  all = glob_md dir fs ->
  forall acc task,
    In task (tasks_in fs dir status project_id developer names acc) ->
    In task acc \/
    exists nm, task_from_file fs dir nm status project_id developer task.
Proof.
  intros Hsub Hall. induction names as [|nm names IH]; intros acc task; cbn [tasks_in].
  - now left.
  - assert (Hsub' : forall x, In x names -> In x all) by (intros x Hx; apply Hsub; now right).
    destruct (is_task_name nm) eqn:Hname; [|now apply IH].
    destruct (parse_task_file fs (dir ++ [nm])%list) as [parsed|] eqn:Hparse; [|now apply IH].
    intros Hin. destruct (IH Hsub' _ _ Hin) as [Hacc|Hfrom]; [|now right].
    apply in_app_or in Hacc as [Hacc|[<-|[]]]; [now left|]. right. exists nm.
    destruct (parse_task_file_fields _ _ _ Hparse) as (Hread & Hid & Hpath).
    rewrite name_last in Hid.
    unfold task_from_file. rewrite <- Hall.
    split; [apply Hsub; now left|]. split; [exact Hname|]. split; [exact Hread|].
    destruct developer as [d|]; rewrite !get_dict_set; cbn; repeat split; assumption.
Qed.

Lemma developer_tasks_origin (fs : node) (folder_path : path)
    (status project_id : string) (all items : list string) :
  (forall x, In x items -> In x all) ->
  forall acc task,
    In task (developer_tasks fs folder_path status project_id items acc) ->
    In task acc \/
    exists item nm,
      In item all /\
      Fs.is_dir (folder_path ++ [item])%list fs = true /\
      Str.startswith item "." = false /\
      task_from_file fs (folder_path ++ [item])%list nm status project_id (Some item) task.
Proof.
  intros Hsub. induction items as [|item items IH]; intros acc task;
    cbn [developer_tasks].
  - now left.
  - assert (Hsub' : forall x, In x items -> In x all) by (intros x Hx; apply Hsub; now right).
    destruct (Fs.is_dir (folder_path ++ [item])%list fs) eqn:Hdir; cbn [andb];
      [|now apply IH].
    destruct (Str.startswith item ".") eqn:Hdot; cbn [negb]; [now apply IH|].
    intros Hin. destruct (IH Hsub' _ _ Hin) as [Hacc|Hfrom]; [|now right].
    destruct (tasks_in_origin fs (folder_path ++ [item])%list status project_id (Some item)
                _ _ (fun x H => H) eq_refl acc task Hacc) as [Hacc'|[nm Hfrom]];
      [now left|].
    right. exists item, nm. split; [apply Hsub; now left|].
    split; [exact Hdir | split; [exact Hdot | exact Hfrom]].
Qed.

Lemma tasks_loop_origin (fs : node) (project_path : path) (project_id : string)
    (mappings : list (string * string)) :
  forall acc tasks,
    tasks_loop fs project_path project_id mappings acc = Return tasks ->
    forall task, In task tasks ->
                 In task acc \/ task_origin fs project_path project_id mappings task.
Proof.
  induction mappings as [|[folder status] mappings IH]; intros acc tasks;
    cbn [tasks_loop].
  - intros [= <-] task Hin. now left.
  - assert (Hweak : forall task,
              task_origin fs project_path project_id mappings task ->
              task_origin fs project_path project_id ((folder, status) :: mappings) task).
    { intros task (f & s & nm & Hin & H). exists f, s, nm. split; [now right | exact H]. }
    destruct (Fs.exists_ (Fs.joinpath project_path folder) fs).
    + destruct (Fs.iterdir (Fs.joinpath project_path folder) fs) as [items|] eqn:Hit;
        [|discriminate].
      intros Hrun task Hin.
      destruct (IH _ _ Hrun task Hin) as [Hacc|Horigin]; [|right; now apply Hweak].
      destruct (developer_tasks_origin fs _ status project_id items items (fun x H => H)
                  _ task Hacc) as [Hacc'|(item & nm & Hitem & Hdir & Hdot & Hfrom)].
      * destruct (tasks_in_origin fs _ status project_id None _ _ (fun x H => H) eq_refl
                    acc task Hacc') as [Hacc''|[nm Hfrom]]; [now left|].
        right. exists folder, status, nm. split; [now left|]. now left.
      * right. exists folder, status, nm. split; [now left|]. right.
        exists items, item.
        split; [exact Hit | split; [exact Hitem | split; [exact Hdir | split;
          [exact Hdot | exact Hfrom]]]].
    + intros Hrun task Hin.
      destruct (IH _ _ Hrun task Hin) as [Hacc|Horigin]; [now left|].
      right. now apply Hweak.
Qed.

(** Every task of the listing was read from a file of a status folder or
    of one of its visible subfolders. *)
Lemma get_project_tasks_origin (fs : node) (project_id : string) (tasks : list dict)
    (task : dict) :
  get_project_tasks fs project_id = Return tasks ->
  In task tasks ->
  task_origin fs (Fs.joinpath [] project_id) project_id task_folder_mappings task.
Proof.
  unfold get_project_tasks.
  destruct (negb (Fs.exists_ (Fs.joinpath [] project_id) fs)); [now intros [= <-] []|].
  intros Hrun Hin.
  destruct (tasks_loop_origin fs _ project_id _ _ _ Hrun task Hin) as [[]|H]. exact H.
Qed.

(** X15.  Every task that [get_project_tasks] returns carries the project
    id asked for and one of the columns [backlog], [progress], [review],
    [testing] and [done] (a task below [inprogress] is reported as
    [progress]).  It was read from a file [*.md] other than a README, in a
    status folder or in one of its subdirectories whose name does not start
    with a dot; in a subdirectory, its developer is the name of the
    subdirectory. *)
Theorem get_project_tasks_fields :
  forall (fs : node) (project_id : string) (tasks : list dict) (task : dict),
    get_project_tasks fs project_id = Return tasks ->
    In task tasks ->
    get task "projectId" = PStr project_id /\
    (exists status, In status cfd_states /\ get task "column" = PStr status) /\
    task_origin fs (Fs.joinpath [] project_id) project_id task_folder_mappings task.
Proof.
  intros fs project_id tasks task Hrun Hin.
  pose proof (get_project_tasks_origin fs project_id tasks task Hrun Hin) as Horigin.
  split; [|split; [|exact Horigin]].
  - destruct Horigin as (folder & status & nm & _ & [H|(items & item & _ & _ & _ & _ & H)]);
      unfold task_from_file in H; tauto.
  - destruct Horigin as (folder & status & nm & Hmap & H).
    exists status. split.
    + unfold task_folder_mappings, cfd_states in *. simpl in *.
      repeat (destruct Hmap as [[= <- <-]|Hmap]; [tauto|]). destruct Hmap.
    + destruct H as [H|(items & item & _ & _ & _ & _ & H)];
        unfold task_from_file in H; tauto.
Qed.

Lemma get_project_tasks_fields_witness :
  exists tasks task,
    get_project_tasks alias_example_fs "proj-1" = Return tasks /\
    In task tasks /\
    get task "projectId" = PStr "proj-1" /\
    exists status, In status cfd_states /\ get task "column" = PStr status.
Proof.
  destruct (get_project_tasks alias_example_fs "proj-1") as [tasks|] eqn:Hrun;
    [|vm_compute in Hrun; discriminate].
  destruct tasks as [|task rest]; [vm_compute in Hrun; discriminate|].
  exists (task :: rest), task. split; [reflexivity|]. split; [now left|].
  destruct (get_project_tasks_fields alias_example_fs "proj-1" (task :: rest) task Hrun
              (or_introl eq_refl)) as (Hid & Hcolumn & _).
  split; [exact Hid | exact Hcolumn].
Defined.

(** ** The name and the id of a task file *)

Lemma split_char_app (c : ascii) (a b : string) :
  Str.split_char c (a ++ String c b) = (Str.split_char c a ++ Str.split_char c b)%list.
Proof.
  induction a as [|x a IH]; cbn [append Str.split_char].
  - now rewrite Ascii.eqb_refl.
  - destruct (x =? c)%char; [now rewrite IH|].
    rewrite IH. pose proof (split_char_nonempty c a) as Hne.
    destruct (Str.split_char c a); [contradiction | reflexivity].
Qed.

Lemma join_split_char (c : ascii) (s : string) :
  Str.join (String c "") (Str.split_char c s) = s.
Proof.
  unfold Str.join. induction s as [|x s IH]; [reflexivity|].
  cbn [Str.split_char]. pose proof (split_char_nonempty c s) as Hne.
  destruct (Str.split_char c s) as [|h t]; [contradiction|].
  destruct (Ascii.eqb_spec x c) as [->|Hx].
  - cbn [String.concat]. cbn [String.concat] in IH. now rewrite IH.
  - cbn [String.concat] in IH |- *. destruct t; cbn [append]; now rewrite <- IH.
Qed.

(** The stem of the name of a task file is the name without [.md]. *)
Lemma stem_md (x : string) : x <> "" -> stem (x ++ ".md") = x.
Proof.
  intros Hx. unfold stem.
  change (x ++ ".md") with (x ++ String "." "md").
  rewrite split_char_app. change (Str.split_char "." "md") with ["md"].
  rewrite rev_app_distr. cbn [rev app].
  pose proof (split_char_nonempty "." x) as Hne.
  destruct (rev (Str.split_char "." x)) as [|b bs] eqn:Hrev.
  { apply (f_equal (@rev string)) in Hrev. rewrite rev_involutive in Hrev.
    contradiction. }
  rewrite <- Hrev, rev_involutive, join_split_char.
  destruct x; [contradiction | reflexivity].
Qed.

Lemma drop_split (n : nat) (s : string) : exists x, s = x ++ Str.drop n s.
Proof.
  revert s. induction n as [|n IH]; intros s; [now exists ""|].
  destruct s as [|c s]; [now exists ""|].
  destruct (IH s) as [x Hx]. exists (String c x). cbn [Str.drop append]. now rewrite <- Hx.
Qed.

Lemma endswith_split (s suf : string) :
  Str.endswith s suf = true -> exists x, s = x ++ suf.
Proof.
  unfold Str.endswith. intros H. apply andb_prop in H as [_ H].
  apply String.eqb_eq in H.
  destruct (drop_split (String.length s - String.length suf) s) as [x Hx].
  exists x. now rewrite <- H.
Qed.

(** The file of a listed task is called after its id, but for the file
    called [.md]. *)
Lemma task_file_of_stem (nm : string) :
  Str.endswith nm ".md" = true -> stem nm <> ".md" -> stem nm ++ ".md" = nm.
Proof.
  intros Hend Hstem. destruct (endswith_split nm ".md" Hend) as [x ->].
  destruct x as [|c x]; [now elim Hstem|].
  now rewrite stem_md by discriminate.
Qed.

(** ** Names that are one path component *)

Lemma plain_names_lookup (p : path) :
  forall n c, plain_names n = true -> Fs.lookup p n = Some c -> plain_names c = true.
Proof.
  induction p as [|x p IH]; intros n c Hn Hl; cbn [Fs.lookup] in Hl.
  - now injection Hl as <-.
  - destruct n as [k|es]; [discriminate|].
    destruct (Fs.assoc x es) as [d|] eqn:Ha; [|discriminate].
    apply (IH d c); [|exact Hl]. cbn [plain_names] in Hn.
    clear -Hn Ha. induction es as [|[y e] es IHes]; [discriminate|].
    cbn [forallb] in Hn. apply andb_prop in Hn as [Hy Hes].
    cbn [Fs.assoc] in Ha. destruct (y =? x).
    + injection Ha as <-. now apply andb_prop in Hy as [_ Hy].
    + now apply IHes.
Qed.

Lemma plain_names_iterdir (p : path) (n : node) (items : list string) (x : string) :
  plain_names n = true -> Fs.iterdir p n = Some items -> In x items ->
  Fs.components x = [x].
Proof.
  intros Hn Hit Hx. unfold Fs.iterdir in Hit.
  destruct (Fs.lookup p n) as [[k|es]|] eqn:Hl; try discriminate.
  injection Hit as <-. pose proof (plain_names_lookup p n _ Hn Hl) as Hes.
  cbn [plain_names] in Hes. rewrite forallb_forall in Hes.
  apply in_map_iff in Hx as ([y e] & <- & Hin). specialize (Hes _ Hin).
  apply andb_prop in Hes as [Hy _]. cbn [fst].
  now destruct (list_eq_dec string_dec (Fs.components y) [y]).
Qed.

Lemma glob_md_inv (dir : path) (fs : node) (nm : string) :
  In nm (glob_md dir fs) ->
  Str.endswith nm ".md" = true /\
  exists items, Fs.iterdir dir fs = Some items /\ In nm items.
Proof.
  unfold glob_md. destruct (Fs.iterdir dir fs) as [items|]; [|intros []].
  intros H. apply filter_In in H as [Hin Hend]. split; [exact Hend|]. now exists items.
Qed.

(** ** Listed tasks and the resolver *)

Lemma tasks_loop_dirs (fs : node) (project_path : path) (project_id : string)
    (mappings : list (string * string)) :
  forall acc tasks,
    tasks_loop fs project_path project_id mappings acc = Return tasks ->
    forall folder, In folder (map fst mappings) ->
      Fs.exists_ (Fs.joinpath project_path folder) fs = true ->
      Fs.is_dir (Fs.joinpath project_path folder) fs = true.
Proof.
  induction mappings as [|[f s] mappings IH]; intros acc tasks; cbn [tasks_loop map fst].
  - intros _ folder [].
  - destruct (Fs.exists_ (Fs.joinpath project_path f) fs) eqn:Hex.
    + destruct (Fs.iterdir (Fs.joinpath project_path f) fs) as [items|] eqn:Hit;
        [|discriminate].
      intros Hrun folder [<-|Hin].
      * intros _. unfold Fs.iterdir in Hit. unfold Fs.is_dir.
        now destruct (Fs.lookup (Fs.joinpath project_path f) fs) as [[|]|].
      * now apply (IH _ _ Hrun).
    + intros Hrun folder [<-|Hin]; [congruence|]. now apply (IH _ _ Hrun).
Qed.

(** A file that reads as text and is called after the task is a match of
    the resolver. *)
Lemma is_match_named (fs : node) (t : string) (loc : location) (dir : path) :
  current_file loc = (dir ++ [(t ++ ".md")%string])%list ->
  (exists text, Fs.read_text (dir ++ [(t ++ ".md")%string])%list fs = Some text) ->
  is_match fs (PStr t) loc = true.
Proof.
  intros Hfile [text Hread]. unfold is_match, verified. rewrite Hfile, Hread.
  apply read_text_lookup in Hread. unfold Fs.exists_. rewrite Hread.
  rewrite name_last, contains_append. now rewrite orb_true_r.
Qed.

(** X16.  Every task of the listing can be resolved for an update: in a
    tree whose entry names are single path components, the resolver of
    [update_task_file] finds a file called after the id of any task that
    [get_project_tasks] returns, the id [.md] apart. *)
Theorem listed_task_is_located :
  forall (fs : node) (project_id : string) (tasks : list dict) (task : dict) (t : string),
    plain_names fs = true ->
    get_project_tasks fs project_id = Return tasks ->
    In task tasks ->
    get task "id" = PStr t ->
    t <> ".md" ->
    exists loc,
      locate fs (Fs.joinpath [] project_id) (PStr t) = Return (Some loc) /\
      Fs.name (current_file loc) = t ++ ".md".
Proof.
  intros fs project_id tasks task t Hplain Hrun Hin Hid Ht.
  set (pp := Fs.joinpath [] project_id).
  pose proof (get_project_tasks_origin fs project_id tasks task Hrun Hin) as Horigin.
  fold pp in Horigin.
  assert (Hdirs : forall folder, In folder status_folders ->
            Fs.exists_ (Fs.joinpath pp folder) fs = true ->
            Fs.is_dir (Fs.joinpath pp folder) fs = true).
  { unfold get_project_tasks in Hrun. fold pp in Hrun.
    destruct (negb (Fs.exists_ pp fs)); [injection Hrun as <-; destruct Hin|].
    exact (tasks_loop_dirs fs pp project_id task_folder_mappings [] tasks Hrun). }
  unfold locate. rewrite (locate_in_first fs pp (PStr t) status_folders Hdirs).
  fold (candidates fs pp (PStr t)).
  assert (Hfound : exists loc, In loc (candidates fs pp (PStr t)) /\
                               is_match fs (PStr t) loc = true).
  { destruct Horigin as (folder & status & nm & Hmap & Hfrom). cbv zeta in Hfrom.
    assert (Hfolder : In folder status_folders).
    { unfold task_folder_mappings in Hmap. unfold status_folders. simpl in Hmap |- *.
      repeat (destruct Hmap as [[= <- <-]|Hmap]; [tauto|]). destruct Hmap. }
    assert (Hnamed : forall dir developer,
              task_from_file fs dir nm status project_id developer task ->
              Fs.components (task_filename (PStr t)) = [(t ++ ".md")%string] /\
              exists text, Fs.read_text (dir ++ [(t ++ ".md")%string])%list fs = Some text).
    { intros dir developer (Hglob & _ & Hread & Hstem & _).
      rewrite Hid in Hstem. injection Hstem as Hstem.
      destruct (glob_md_inv dir fs nm Hglob) as (Hend & items & Hit & Hnm).
      assert (Hnm' : t ++ ".md" = nm)
        by (rewrite Hstem; apply task_file_of_stem; [exact Hend | congruence]).
      rewrite Hnm'. split; [|exact Hread].
      unfold task_filename. cbn [fmt]. rewrite Hnm'.
      exact (plain_names_iterdir dir fs items nm Hplain Hit Hnm). }
    destruct Hfrom as [Hfrom|(items & item & Hit & Hitem & Hdir & Hdot & Hfrom)].
    - destruct (Hnamed _ _ Hfrom) as [Hcomp Hread].
      exists (direct_candidate pp (PStr t) folder). split.
      + unfold candidates. apply in_flat_map. exists folder. split; [exact Hfolder|].
        unfold folder_candidates.
        assert (Hex : Fs.exists_ (Fs.joinpath pp folder) fs = true).
        { destruct Hread as [text Hread]. apply read_text_lookup in Hread.
          apply (exists_prefix _ [(t ++ ".md")%string]). unfold Fs.exists_. now rewrite Hread. }
        rewrite Hex. now left.
      + apply (is_match_named fs t _ (Fs.joinpath pp folder)); [|exact Hread].
        unfold direct_candidate. cbn [current_file]. unfold Fs.joinpath at 1.
        now rewrite Hcomp.
    - destruct (Hnamed _ _ Hfrom) as [Hcomp Hread].
      exists (developer_candidate pp (PStr t) folder item). split.
      + unfold candidates. apply in_flat_map. exists folder. split; [exact Hfolder|].
        unfold folder_candidates. rewrite (exists_iterdir _ _ _ Hit). right.
        apply in_map. unfold developer_folders. rewrite Hit.
        apply filter_In. split; [exact Hitem|]. now rewrite Hdir, Hdot.
      + apply (is_match_named fs t _ (Fs.joinpath pp folder ++ [item])%list);
          [|exact Hread].
        unfold developer_candidate. cbn [current_file]. unfold Fs.joinpath at 1.
        now rewrite Hcomp. }
  destruct Hfound as (loc0 & Hin0 & Hmatch0).
  destruct (find (is_match fs (PStr t)) (candidates fs pp (PStr t))) as [loc|] eqn:Hfind.
  - exists loc. split; [reflexivity|].
    assert (Hloc : locate_in fs pp (PStr t) status_folders = Return (Some loc)).
    { rewrite (locate_in_first fs pp (PStr t) status_folders Hdirs).
      fold (candidates fs pp (PStr t)). now rewrite Hfind. }
    destruct (locate_in_sound fs pp (PStr t) status_folders loc Hloc) as [[r Hr] _].
    rewrite Hr, app_assoc. rewrite (name_of_task_file _ (PStr t)).
    destruct Horigin as (folder & status & nm & Hmap & Hfrom). cbv zeta in Hfrom.
    assert (Hcomp : Fs.components (task_filename (PStr t)) = [(t ++ ".md")%string]).
    { assert (Hnamed : forall dir developer,
                task_from_file fs dir nm status project_id developer task ->
                Fs.components (task_filename (PStr t)) = [(t ++ ".md")%string]).
      { intros dir developer (Hglob & _ & Hread & Hstem & _).
        rewrite Hid in Hstem. injection Hstem as Hstem.
        destruct (glob_md_inv dir fs nm Hglob) as (Hend & items & Hit & Hnm).
        assert (Hnm' : t ++ ".md" = nm)
          by (rewrite Hstem; apply task_file_of_stem; [exact Hend | congruence]).
        unfold task_filename. cbn [fmt]. rewrite Hnm'.
        exact (plain_names_iterdir dir fs items nm Hplain Hit Hnm). }
      destruct Hfrom as [Hfrom|(items & item & _ & _ & _ & _ & Hfrom)];
        exact (Hnamed _ _ Hfrom). }
    unfold task_file_name. now rewrite Hcomp.
  - pose proof (find_none _ _ Hfind loc0 Hin0) as Hno. congruence.
Qed.

Lemma listed_task_is_located_witness :
  exists loc,
    locate alias_example_fs ["proj-1"] (PStr "t1") = Return (Some loc) /\
    Fs.name (current_file loc) = "t1.md".
Proof.
  assert (Hlisted : exists tasks task,
            get_project_tasks alias_example_fs "proj-1" = Return tasks /\
            In task tasks /\ get task "id" = PStr "t1").
  { eexists _, _. split; [vm_compute; reflexivity|].
    split; [right; left; reflexivity | reflexivity]. }
  destruct Hlisted as (tasks & task & Hrun & Hin & Hid).
  exact (listed_task_is_located alias_example_fs "proj-1" tasks task "t1"
           eq_refl Hrun Hin Hid ltac:(discriminate)).
Defined.

(** ** Blocking and unblocking *)













(** ** The listing as a list of files *)

Lemma tasks_in_flat (fs : node) (dir : path) (status project_id : string)
    (developer : option string) (names : list string) :
  forall acc,
    tasks_in fs dir status project_id developer names acc =
    (acc ++ flat_map (file_tasks fs dir status project_id developer) names)%list.
Proof.
  induction names as [|nm names IH]; intros acc; cbn [tasks_in flat_map].
  - now rewrite app_nil_r.
  - unfold file_tasks at 1. destruct (is_task_name nm); [|now rewrite IH].
    destruct (parse_task_file fs (dir ++ [nm])%list) as [task|]; [|now rewrite IH].
    rewrite IH, <- app_assoc. reflexivity.
Qed.

Lemma developer_tasks_flat (fs : node) (folder_path : path) (status project_id : string)
    (items : list string) :
  forall acc,
    developer_tasks fs folder_path status project_id items acc =
    (acc ++ flat_map (fun item =>
                        dir_tasks fs (folder_path ++ [item])%list status project_id
                                  (Some item))
                     (filter (fun d => Fs.is_dir (folder_path ++ [d])%list fs &&
                                       negb (Str.startswith d ".")) items))%list.
Proof.
  induction items as [|item items IH]; intros acc; cbn [developer_tasks filter].
  - now rewrite app_nil_r.
  - destruct (Fs.is_dir (folder_path ++ [item])%list fs && negb (Str.startswith item "."));
      [|apply IH].
    rewrite IH, tasks_in_flat. cbn [flat_map]. now rewrite <- app_assoc.
Qed.

Lemma tasks_loop_flat (fs : node) (project_path : path) (project_id : string)
    (mappings : list (string * string)) :
  (forall folder, In folder (map fst mappings) ->
     Fs.exists_ (Fs.joinpath project_path folder) fs = true ->
     Fs.is_dir (Fs.joinpath project_path folder) fs = true) ->
  forall acc,
    tasks_loop fs project_path project_id mappings acc =
    Return (acc ++ flat_map (folder_tasks fs project_path project_id) mappings)%list.
Proof.
  induction mappings as [|[folder status] mappings IH]; intros Hdirs acc;
    cbn [tasks_loop flat_map].
  - now rewrite app_nil_r.
  - assert (Hdirs' : forall f, In f (map fst mappings) ->
              Fs.exists_ (Fs.joinpath project_path f) fs = true ->
              Fs.is_dir (Fs.joinpath project_path f) fs = true)
      by (intros f Hf; apply Hdirs; now right).
    unfold folder_tasks at 1. cbn [fst snd].
    destruct (Fs.exists_ (Fs.joinpath project_path folder) fs) eqn:Hex;
      [|now rewrite IH].
    destruct (is_dir_iterdir _ _ (Hdirs folder (or_introl eq_refl) Hex)) as [items Hit].
    rewrite Hit, IH by exact Hdirs'.
    rewrite developer_tasks_flat, tasks_in_flat.
    unfold developer_folders, dir_tasks. rewrite Hit.
    now rewrite <- !app_assoc.
Qed.

(** The listing of a project whose status folders are directories. *)
Lemma get_project_tasks_flat (fs : node) (project_id : string) :
  let project_path := Fs.joinpath [] project_id in
  (forall folder, In folder status_folders ->
     Fs.exists_ (Fs.joinpath project_path folder) fs = true ->
     Fs.is_dir (Fs.joinpath project_path folder) fs = true) ->
  get_project_tasks fs project_id =
  Return (if Fs.exists_ project_path fs
          then flat_map (folder_tasks fs project_path project_id) task_folder_mappings
          else []).
Proof.
  intros project_path Hdirs. unfold get_project_tasks. fold project_path.
  destruct (Fs.exists_ project_path fs); [|reflexivity]. simpl negb. cbv iota.
  now rewrite (tasks_loop_flat fs project_path project_id task_folder_mappings Hdirs []).
Qed.

(** ** The task shown and the file resolved *)

Lemma get_listed_task (status project_id : string) (developer : option string)
    (task : dict) (k : string) :
  k <> "column" -> k <> "projectId" -> k <> "developer" ->
  get (listed_task status project_id developer task) k = get task k.
Proof.
  intros H1 H2 H3. unfold listed_task.
  destruct developer as [d|]; rewrite !get_dict_set;
    repeat match goal with
           | |- context [String.eqb ?a k] =>
               destruct (String.eqb_spec a k); [congruence|]
           end; reflexivity.
Qed.

Lemma has_id_listed (t status project_id : string) (developer : option string)
    (task : dict) :
  has_id t (listed_task status project_id developer task) = has_id t task.
Proof. unfold has_id. now rewrite get_listed_task by discriminate. Qed.

Lemma stem_eqb (t nm : string) :
  Str.endswith nm ".md" = true -> t <> "" -> t <> ".md" ->
  (stem nm =? t) = (nm =? t ++ ".md").
Proof.
  intros Hend Ht0 Ht. destruct (String.eqb_spec nm (t ++ ".md")) as [->|Hne].
  - rewrite stem_md by exact Ht0. apply String.eqb_refl.
  - destruct (String.eqb_spec (stem nm) t) as [He|]; [|reflexivity].
    elim Hne. rewrite <- He. symmetry. apply task_file_of_stem; [exact Hend | congruence].
Qed.

Lemma find_file_tasks (fs : node) (dir : path) (status project_id : string)
    (developer : option string) (t nm : string) :
  Str.endswith nm ".md" = true -> t <> "" -> t <> ".md" ->
  is_task_name (t ++ ".md") = true ->
  find (has_id t) (file_tasks fs dir status project_id developer nm) =
  if (nm =? t ++ ".md")
  then option_map (listed_task status project_id developer)
                  (parse_task_file fs (dir ++ [(t ++ ".md")%string])%list)
  else None.
Proof.
  intros Hend Ht0 Ht Hname. unfold file_tasks.
  destruct (String.eqb_spec nm (t ++ ".md")) as [->|Hne].
  - rewrite Hname.
    destruct (parse_task_file fs (dir ++ [(t ++ ".md")%string])%list) as [task|] eqn:Hp;
      [|reflexivity].
    cbn [find option_map]. rewrite has_id_listed. unfold has_id.
    destruct (parse_task_file_fields _ _ _ Hp) as (_ & Hid & _).
    rewrite name_last in Hid. rewrite Hid, stem_md by exact Ht0.
    now rewrite String.eqb_refl.
  - destruct (is_task_name nm); [|reflexivity].
    destruct (parse_task_file fs (dir ++ [nm])%list) as [task|] eqn:Hp; [|reflexivity].
    cbn [find]. rewrite has_id_listed. unfold has_id.
    destruct (parse_task_file_fields _ _ _ Hp) as (_ & Hid & _).
    rewrite name_last in Hid. rewrite Hid, (stem_eqb t nm Hend Ht0 Ht).
    destruct (String.eqb_spec nm (t ++ ".md")); [contradiction | reflexivity].
Qed.

Lemma find_flat_file_tasks (fs : node) (dir : path) (status project_id : string)
    (developer : option string) (t : string) (names : list string) :
  (forall nm, In nm names -> Str.endswith nm ".md" = true) ->
  t <> "" -> t <> ".md" -> is_task_name (t ++ ".md") = true ->
  find (has_id t) (flat_map (file_tasks fs dir status project_id developer) names) =
  if str_in (t ++ ".md") names
  then option_map (listed_task status project_id developer)
                  (parse_task_file fs (dir ++ [(t ++ ".md")%string])%list)
  else None.
Proof.
  intros Hend Ht0 Ht Hname. induction names as [|nm names IH]; [reflexivity|].
  cbn [flat_map]. rewrite find_app_first.
  rewrite (find_file_tasks fs dir status project_id developer t nm)
    by (try apply Hend; try (now left); assumption).
  rewrite IH by (intros x Hx; apply Hend; now right).
  unfold str_in. cbn [existsb]. fold (str_in (t ++ ".md") names).
  destruct (nm =? t ++ ".md"); cbn [orb]; [|reflexivity].
  destruct (parse_task_file fs (dir ++ [(t ++ ".md")%string])%list); cbn [option_map];
    [reflexivity|].
  now destruct (str_in (t ++ ".md") names).
Qed.

Lemma assoc_in_names (x : string) (es : list (string * node)) (c : node) :
  Fs.assoc x es = Some c -> In x (map fst es).
Proof.
  induction es as [|[y d] es IH]; [discriminate|]. cbn [Fs.assoc map fst].
  destruct (String.eqb_spec y x) as [->|_]; [now left|]. intros H. right. now apply IH.
Qed.

(** An entry that can be looked up is among the names of its directory. *)
Lemma lookup_in_iterdir (dir : path) (nm : string) (fs c : node) :
  Fs.lookup (dir ++ [nm])%list fs = Some c ->
  exists items, Fs.iterdir dir fs = Some items /\ In nm items.
Proof.
  rewrite lookup_app. unfold Fs.iterdir.
  destruct (Fs.lookup dir fs) as [[k|es]|]; try discriminate.
  cbn [Fs.lookup]. destruct (Fs.assoc nm es) as [d|] eqn:Ha; [|discriminate].
  intros _. eexists. split; [reflexivity|]. exact (assoc_in_names nm es d Ha).
Qed.

Lemma parsed_in_glob (fs : node) (dir : path) (nm : string) (task : dict) :
  Str.endswith nm ".md" = true ->
  parse_task_file fs (dir ++ [nm])%list = Some task ->
  In nm (glob_md dir fs).
Proof.
  intros Hend Hp. destruct (parse_task_file_fields _ _ _ Hp) as ([text Hread] & _).
  apply read_text_lookup in Hread.
  destruct (lookup_in_iterdir dir nm fs _ Hread) as (items & Hit & Hin).
  unfold glob_md. rewrite Hit. apply filter_In. now split.
Qed.

Lemma length_append (a b : string) :
  String.length (a ++ b) = (String.length a + String.length b)%nat.
Proof. induction a as [|c a IH]; [reflexivity|]. cbn [append String.length]. now rewrite IH. Qed.

Lemma drop_append (a b : string) : Str.drop (String.length a) (a ++ b) = b.
Proof. induction a as [|c a IH]; [reflexivity | exact IH]. Qed.

Lemma endswith_md (t : string) : Str.endswith (t ++ ".md") ".md" = true.
Proof.
  unfold Str.endswith. rewrite length_append.
  replace (String.length t + String.length ".md" - String.length ".md")%nat
    with (String.length t) by lia.
  rewrite drop_append. apply andb_true_intro.
  split; [apply Nat.leb_le; lia | reflexivity].
Qed.

(** The first task with the id [t] among the tasks of a directory is the
    one read from the file [t.md]. *)
Lemma find_dir_tasks (fs : node) (dir : path) (status project_id : string)
    (developer : option string) (t : string) :
  t <> "" -> t <> ".md" -> is_task_name (t ++ ".md") = true ->
  find (has_id t) (dir_tasks fs dir status project_id developer) =
  option_map (listed_task status project_id developer)
             (parse_task_file fs (dir ++ [(t ++ ".md")%string])%list).
Proof.
  intros Ht0 Ht Hname. unfold dir_tasks.
  rewrite find_flat_file_tasks; try assumption.
  - destruct (str_in (t ++ ".md") (glob_md dir fs)) eqn:Hin; [reflexivity|].
    destruct (parse_task_file fs (dir ++ [(t ++ ".md")%string])%list) as [task|] eqn:Hp;
      [|reflexivity].
    apply (parsed_in_glob fs dir _ task (endswith_md t)) in Hp.
    apply str_in_iff in Hp. congruence.
  - intros nm Hnm. now apply glob_md_inv in Hnm as [Hend _].
Qed.

Lemma is_match_parsed (fs : node) (t : string) (loc : location) (dir : path) :
  current_file loc = (dir ++ [(t ++ ".md")%string])%list ->
  is_match fs (PStr t) loc =
  match parse_task_file fs (dir ++ [(t ++ ".md")%string])%list with
  | Some _ => true
  | None => false
  end.
Proof.
  intros Hfile. unfold parse_task_file.
  destruct (Fs.read_text (dir ++ [(t ++ ".md")%string])%list fs) as [text|] eqn:Hread.
  - apply (is_match_named fs t loc dir Hfile). now exists text.
  - unfold is_match, verified. rewrite Hfile, Hread. apply andb_false_r.
Qed.

Lemma same_file_app (t : string) (fs : node) (a b : list dict) (a' b' : list location) :
  same_file (find (has_id t) a) (find (is_match fs (PStr t)) a') ->
  same_file (find (has_id t) b) (find (is_match fs (PStr t)) b') ->
  same_file (find (has_id t) (a ++ b)%list) (find (is_match fs (PStr t)) (a' ++ b')%list).
Proof.
  rewrite !find_app_first.
  destruct (find (has_id t) a), (find (is_match fs (PStr t)) a'); simpl; tauto.
Qed.

(** The tasks of one directory against the one candidate of the resolver
    in it. *)
Lemma same_file_dir (fs : node) (dir : path) (status project_id : string)
    (developer : option string) (t : string) (loc : location) :
  t <> "" -> t <> ".md" -> is_task_name (t ++ ".md") = true ->
  current_file loc = (dir ++ [(t ++ ".md")%string])%list ->
  same_file (find (has_id t) (dir_tasks fs dir status project_id developer))
            (find (is_match fs (PStr t)) [loc]).
Proof.
  intros Ht0 Ht Hname Hfile.
  rewrite (find_dir_tasks fs dir status project_id developer t Ht0 Ht Hname).
  cbn [find]. rewrite (is_match_parsed fs t loc dir Hfile).
  destruct (parse_task_file fs (dir ++ [(t ++ ".md")%string])%list) as [task|] eqn:Hp;
    cbn [option_map same_file]; [|exact I].
  rewrite get_listed_task by discriminate.
  destruct (parse_task_file_fields _ _ _ Hp) as (_ & _ & Hpath). now rewrite Hpath, Hfile.
Qed.

Lemma same_file_folder (fs : node) (pp : path) (project_id t : string)
    (m : string * string) :
  Fs.components (t ++ ".md") = [t ++ ".md"] ->
  t <> "" -> t <> ".md" -> is_task_name (t ++ ".md") = true ->
  same_file (find (has_id t) (folder_tasks fs pp project_id m))
            (find (is_match fs (PStr t)) (folder_candidates fs pp (PStr t) (fst m))).
Proof.
  intros Hcomp Ht0 Ht Hname. unfold folder_tasks, folder_candidates.
  destruct (Fs.exists_ (Fs.joinpath pp (fst m)) fs); [|exact I].
  apply (same_file_app t fs _ _ [_] _).
  - apply same_file_dir; try assumption.
    unfold direct_candidate. cbn [current_file]. unfold Fs.joinpath at 1.
    unfold task_filename. cbn [fmt]. now rewrite Hcomp.
  - induction (developer_folders fs (Fs.joinpath pp (fst m))) as [|d ds IH];
      [exact I|].
    cbn [flat_map map]. apply (same_file_app t fs _ _ [_] _); [|exact IH].
    apply same_file_dir; try assumption.
    unfold developer_candidate. cbn [current_file]. unfold Fs.joinpath at 1.
    unfold task_filename. cbn [fmt]. now rewrite Hcomp.
Qed.

Lemma same_file_project (fs : node) (pp : path) (project_id t : string)
    (mappings : list (string * string)) :
  Fs.components (t ++ ".md") = [t ++ ".md"] ->
  t <> "" -> t <> ".md" -> is_task_name (t ++ ".md") = true ->
  same_file (find (has_id t) (flat_map (folder_tasks fs pp project_id) mappings))
            (find (is_match fs (PStr t))
                  (flat_map (folder_candidates fs pp (PStr t)) (map fst mappings))).
Proof.
  intros Hcomp Ht0 Ht Hname. induction mappings as [|m mappings IH]; [exact I|].
  cbn [flat_map map]. apply same_file_app; [|exact IH].
  now apply same_file_folder.
Qed.

Lemma folder_tasks_missing (fs : node) (pp : path) (project_id : string)
    (mappings : list (string * string)) :
  Fs.exists_ pp fs = false ->
  flat_map (folder_tasks fs pp project_id) mappings = [].
Proof.
  intros Hex. induction mappings as [|m mappings IH]; [reflexivity|].
  cbn [flat_map]. rewrite IH. unfold folder_tasks.
  destruct (Fs.exists_ (Fs.joinpath pp (fst m)) fs) eqn:H; [|reflexivity].
  unfold Fs.joinpath in H. apply exists_prefix in H. congruence.
Qed.

(** X19.  The task shown is the task updated.  For a project whose status
    folders are directories and a task id that is a plain file name (not
    empty, not [.md], not a README), the branch of [do_GET] for one task
    and the resolver of [update_task_file] find nothing both, or the task
    shown was read from the very file that the resolver returns. *)
Theorem get_task_shows_located_file :
  forall (fs : node) (project_id t : string),
    let project_path := Fs.joinpath [] project_id in
    (forall folder, In folder status_folders ->
       Fs.exists_ (Fs.joinpath project_path folder) fs = true ->
       Fs.is_dir (Fs.joinpath project_path folder) fs = true) ->
    Fs.components (t ++ ".md") = [t ++ ".md"] ->
    t <> "" -> t <> ".md" ->
    is_task_name (t ++ ".md") = true ->
    exists shown resolved,
      get_task fs project_id t = Return shown /\
      locate fs project_path (PStr t) = Return resolved /\
      same_file shown resolved.
Proof.
  intros fs project_id t project_path Hdirs Hcomp Ht0 Ht Hname.
  unfold get_task. rewrite (get_project_tasks_flat fs project_id Hdirs).
  fold project_path.
  unfold locate. rewrite (locate_in_first fs project_path (PStr t) status_folders Hdirs).
  eexists _, _. split; [reflexivity|]. split; [reflexivity|].
  assert (Hlist : (if Fs.exists_ project_path fs
                   then flat_map (folder_tasks fs project_path project_id)
                                 task_folder_mappings
                   else []) =
                  flat_map (folder_tasks fs project_path project_id) task_folder_mappings).
  { destruct (Fs.exists_ project_path fs) eqn:Hex; [reflexivity|].
    symmetry. now apply folder_tasks_missing. }
  rewrite Hlist.
  exact (same_file_project fs project_path project_id t task_folder_mappings
           Hcomp Ht0 Ht Hname).
Qed.

Lemma get_task_shows_located_file_witness :
  exists shown resolved,
    get_task resolver_example_fs "proj-1" "t1" = Return shown /\
    locate resolver_example_fs ["proj-1"] (PStr "t1") = Return resolved /\
    same_file shown resolved.
Proof.
  apply (get_task_shows_located_file resolver_example_fs "proj-1" "t1");
    try reflexivity; try discriminate.
  intros folder [<-|[<-|[<-|[<-|[<-|[<-|[]]]]]]]; vm_compute; auto.
Defined.

(** ** A created task in the listing *)




Lemma status_folder_component (s : string) :
  In s status_folders -> Fs.components s = [s].
Proof.
  unfold status_folders. simpl.
  intros [<-|[<-|[<-|[<-|[<-|[<-|[]]]]]]]; reflexivity.
Qed.




(** ** The folder of a developer *)



(** X21.  The branch [create-directory] of [do_POST] never changes or
    removes a file; in particular a README that the folder of the developer
    holds already is kept. *)
Theorem create_directory_keeps_files :
  forall (fs : node) (data : dict) (p : path) (k : contents),
    Fs.lookup p fs = Some (File k) ->
    Fs.lookup p (fst (create_directory fs data)) = Some (File k).
Proof.
  intros fs data p k Hp. unfold create_directory, mkdir_exist_ok.
  destruct (get_or data "project_id" (PStr "")) as [|a| |]; try exact Hp.
  destruct (get_or data "parent_dir" (PStr "")) as [|b| |]; try exact Hp.
  destruct (get_or data "dir_name" (PStr "")) as [|c| |]; try exact Hp.
  destruct (negb _); [exact Hp|].
  destruct (negb _); [exact Hp|].
  destruct (Fs.is_dir _ fs); [|exact Hp].
  destruct (Fs.mkdir_p _ fs) as [fs1|] eqn:H1; [|exact Hp].
  pose proof (mkdir_p_keeps_file _ _ _ _ _ Hp H1) as Hp1.
  destruct (Fs.is_dir _ fs1); [|exact Hp1].
  destruct (Fs.mkdir_p _ fs1) as [fs2|] eqn:H2; [|exact Hp1].
  pose proof (mkdir_p_keeps_file _ _ _ _ _ Hp1 H2) as Hp2.
  destruct (Fs.exists_ _ fs2) eqn:Hex; simpl negb; cbv iota; [exact Hp2|].
  destruct (Fs.write_text _ _ fs2) as [fs3|] eqn:Hw; [|exact Hp2].
  exact (write_text_keeps_file _ _ _ _ _ _ Hp2 (file_not_below _ _ _ _ Hp2 Hex) Hw).
Qed.

Lemma create_directory_keeps_files_witness :
  exists k,
    Fs.lookup ["proj-1"; "progress"; "dev-alice"; "README.md"] wip_example_fs
    = Some (File k) /\
    Fs.lookup ["proj-1"; "progress"; "dev-alice"; "README.md"]
      (fst (create_directory wip_example_fs
              [ ("project_id", PStr "proj-1"); ("parent_dir", PStr "progress");
                ("dir_name", PStr "dev-alice") ]))
    = Some (File k).
Proof.
  eexists. split; [reflexivity|].
  apply create_directory_keeps_files. reflexivity.
Defined.




(** ** Deleting a project *)

(** X23.  The project branch of [do_DELETE] with a project id that is a
    relative name and whose path has no component, a single dot for one,
    removes the base directory itself with every project in it, and
    reports success. *)
Theorem delete_project_of_the_base_directory :
  forall (es : list (string * node)) (project_id : string),
    relative_name project_id = true ->
    Fs.components project_id = [] ->
    delete_project (Dir es) project_id = (None, true).
Proof.
  intros es project_id _ Hcomp. unfold delete_project, Fs.joinpath.
  rewrite Hcomp. reflexivity.
Qed.

Lemma delete_project_of_the_base_directory_witness :
  delete_project (Dir [ ("proj-1", Dir []); ("proj-2", Dir []) ]) "." = (None, true).
Proof.
  apply delete_project_of_the_base_directory; reflexivity.
Defined.

Lemma remove_dir_other (q : path) :
  forall p n n' c, Fs.lookup p n = Some c ->
                   (forall r, p <> (q ++ r)%list) ->
                   (forall r, q <> (p ++ r)%list) ->
                   remove_dir q n = Some n' ->
                   Fs.lookup p n' = Some c.
Proof.
  induction q as [|x q IH]; intros p n n' c Hp Hpq Hqp Hr.
  - destruct n; discriminate.
  - destruct n as [j|es]; [discriminate|].
    destruct p as [|y p]; [elim (Hqp (x :: q)); reflexivity|].
    cbn [remove_dir] in Hr. cbn [Fs.lookup] in Hp |- *.
    destruct q as [|z q].
    + destruct (Fs.assoc x es) as [[j|es0]|] eqn:Ha; try discriminate.
      injection Hr as <-. cbn [Fs.lookup].
      destruct (String.eqb_spec x y) as [->|Hxy]; [elim (Hpq p); reflexivity|].
      now rewrite (assoc_remove_entry_other x y es Hxy).
    + destruct (Fs.assoc x es) as [d|] eqn:Ha; [|discriminate].
      destruct (remove_dir (z :: q) d) as [d'|] eqn:Hd; [|discriminate].
      injection Hr as <-. cbn [Fs.lookup].
      destruct (String.eqb_spec x y) as [->|Hxy].
      * rewrite assoc_set_entry_same. rewrite Ha in Hp.
        apply (IH p d d' c Hp); [| |exact Hd].
        -- intros r ->. now elim (Hpq r).
        -- intros r Hq. elim (Hqp r). cbn [app]. now rewrite <- Hq.
      * now rewrite (assoc_set_entry_other x y _ es Hxy).
Qed.

(** X24.  The project branch of [do_DELETE] for a project id that is a
    relative name without [..] component.  When it leaves the base
    directory in place, a failure response leaves the tree as it was, and
    a success response has removed a directory: every entry that lies
    neither below the path of the project nor above it is where it was. *)
Theorem delete_project_keeps_other_projects :
  forall (fs fs' : node) (project_id : string) (ok : bool),
    relative_name project_id = true ->
    delete_project fs project_id = (Some fs', ok) ->
    let project_path := Fs.joinpath [] project_id in
    (ok = false -> fs' = fs) /\
    (ok = true ->
     Fs.is_dir project_path fs = true /\
     forall p c, Fs.lookup p fs = Some c ->
                 (forall r, p <> (project_path ++ r)%list) ->
                 (forall r, project_path <> (p ++ r)%list) ->
                 Fs.lookup p fs' = Some c).
Proof.
  intros fs fs' project_id ok _. unfold delete_project.
  set (pp := Fs.joinpath [] project_id).
  destruct (negb (Fs.exists_ pp fs)); [intros [= <- <-]; split; [reflexivity | discriminate]|].
  unfold rmtree. destruct pp as [|x pp'] eqn:Hpp.
  { destruct fs; [intros [= <- <-]; split; [reflexivity | discriminate] | discriminate]. }
  destruct (remove_dir (x :: pp') fs) as [n'|] eqn:Hr;
    intros [= <- <-]; (split; [try reflexivity; discriminate|]); [|discriminate].
  intros _. split.
  - clear -Hr. revert fs n' Hr. generalize (x :: pp') as q.
    induction q as [|y q IH]; intros fs n' Hr.
    + destruct fs; discriminate.
    + destruct fs as [j|es]; [discriminate|]. cbn [remove_dir] in Hr.
      unfold Fs.is_dir. cbn [Fs.lookup]. destruct q as [|z q].
      * destruct (Fs.assoc y es) as [[j|es0]|]; try discriminate. reflexivity.
      * destruct (Fs.assoc y es) as [d|]; [|discriminate].
        destruct (remove_dir (z :: q) d) as [d'|] eqn:Hd; [|discriminate].
        exact (IH d d' Hd).
  - intros p c Hp Hpq Hqp. exact (remove_dir_other _ _ _ _ _ Hp Hpq Hqp Hr).
Qed.

Lemma delete_project_keeps_other_projects_witness :
  exists fs' c,
    delete_project misplaced_example_fs "proj-2" = (Some fs', true) /\
    Fs.lookup ["proj-1"; "README.md"] misplaced_example_fs = Some c /\
    Fs.lookup ["proj-1"; "README.md"] fs' = Some c.
Proof.
  destruct (delete_project misplaced_example_fs "proj-2") as [[fs'|] ok] eqn:Hrun;
    [|vm_compute in Hrun; discriminate].
  assert (Hok : ok = true)
    by (pose proof Hrun as Hc; vm_compute in Hc; now injection Hc as _ <-).
  subst ok. exists fs'. eexists. split; [reflexivity|].
  split; [vm_compute; reflexivity|].
  destruct (delete_project_keeps_other_projects misplaced_example_fs fs' "proj-2" true
              eq_refl Hrun) as [_ H].
  destruct (H eq_refl) as [_ Hkeep].
  apply Hkeep; [vm_compute; reflexivity | |]; intros r H0; vm_compute in H0; discriminate.
Defined.

(** ** A task that was deleted *)

(** X25.  A task that was deleted is not shown any more: after a success
    response of the task branch of [do_DELETE], in a project that held at
    most one file of the name of the task, the branch of [do_GET] for one
    task finds no task of that id (a plain file name other than [.md]). *)
Theorem deleted_task_is_not_listed :
  forall (fs fs' : node) (project_id task_id : string) (shown : option dict),
    let project_path := Fs.joinpath [] project_id in
    delete_task fs project_id task_id = (fs', true) ->
    (count_in fs project_path (task_file_name (PStr task_id)) <= 1)%nat ->
    Fs.components (task_id ++ ".md") = [(task_id ++ ".md")%string] ->
    task_id <> ".md" ->
    get_task fs' project_id task_id = Return shown ->
    shown = None.
Proof.
  intros fs fs' project_id task_id shown pp Hdel Hcount Hplain Hmd Hget.
  assert (Hname : task_file_name (PStr task_id) = task_id ++ ".md").
  { unfold task_file_name, task_filename. cbn [fmt]. now rewrite Hplain. }
  rewrite Hname in Hcount.
  assert (Hzero : count_in fs' pp (task_id ++ ".md") = 0%nat).
  { revert Hdel. unfold delete_task. fold pp.
    destruct (Fs.exists_ pp fs) eqn:Hex; simpl negb; cbv iota; [|discriminate].
    destruct (find_for_delete fs pp (task_id ++ ".md") delete_folders) as [[p|]|] eqn:Hfind;
      try discriminate.
    destruct (Fs.unlink p fs) as [fs1|] eqn:Hun; [|discriminate].
    intros [= <-].
    apply find_for_delete_under in Hfind as [r ->].
    assert (Hq : (r ++ Fs.components (task_id ++ ".md"))%list <> []).
    { rewrite Hplain. now destruct r. }
    destruct (count_in_unlink (task_id ++ ".md") pp _ fs fs1 Hq Hex Hun) as [Hc _].
    rewrite Hplain, last_last, String.eqb_refl in Hc. lia. }
  unfold get_task in Hget.
  destruct (get_project_tasks fs' project_id) as [tasks|] eqn:Hrun; [|discriminate].
  injection Hget as <-.
  destruct (find (has_id task_id) tasks) as [task|] eqn:Hfind; [exfalso | reflexivity].
  apply find_some in Hfind as [Hin Hid].
  unfold has_id in Hid.
  destruct (get task "id") as [|s| |] eqn:Hs; try discriminate.
  apply String.eqb_eq in Hid. subst s.
  destruct (get_project_tasks_origin fs' project_id tasks task Hrun Hin)
    as (folder & status & nm & _ & Horigin).
  cbv zeta in Horigin. fold pp in Horigin.
  assert (Hfile : forall q, task_from_file fs' (pp ++ q)%list nm status project_id None task \/
                            (exists d, task_from_file fs' (pp ++ q)%list nm status project_id
                                                      (Some d) task) ->
                            False).
  { intros q Hfrom.
    assert (Hfrom' : In nm (glob_md (pp ++ q)%list fs') /\
                     (exists text, Fs.read_text ((pp ++ q) ++ [nm])%list fs' = Some text) /\
                     get task "id" = PStr (stem nm)).
    { destruct Hfrom as [H|[d H]]; destruct H as (H1 & _ & H2 & H3 & _); auto. }
    destruct Hfrom' as (Hglob & [text Hread] & Hstem).
    rewrite Hs in Hstem. injection Hstem as Hstem.
    apply glob_md_inv in Hglob as [Hends _].
    assert (Hnm : nm = task_id ++ ".md").
    { rewrite Hstem. symmetry. apply task_file_of_stem; [exact Hends | now rewrite <- Hstem]. }
    apply read_text_lookup in Hread.
    rewrite <- app_assoc, lookup_app in Hread.
    unfold count_in in Hzero.
    destruct (Fs.lookup pp fs') as [c|]; [|discriminate].
    assert (Hne : (q ++ [nm])%list <> []) by now destruct q.
    pose proof (count_named_file_at _ c _ Hne Hread) as Hone.
    rewrite last_last, Hnm in Hone. lia. }
  destruct Horigin as [Hdirect|(items & item & _ & _ & _ & _ & Hdev)].
  - apply (Hfile (Fs.components folder)). left. exact Hdirect.
  - apply (Hfile (Fs.components folder ++ [item])%list). right. exists item.
    unfold Fs.joinpath in Hdev. rewrite <- app_assoc in Hdev. exact Hdev.
Qed.

Lemma deleted_task_is_not_listed_witness :
  get_task (fst (delete_task scenario_two_tasks "proj-1" "t1")) "proj-1" "t1" = Return None.
Proof.
  destruct (get_task (fst (delete_task scenario_two_tasks "proj-1" "t1")) "proj-1" "t1")
    as [shown|] eqn:Hget; [|vm_compute in Hget; discriminate].
  f_equal.
  apply (deleted_task_is_not_listed scenario_two_tasks
           (fst (delete_task scenario_two_tasks "proj-1" "t1")) "proj-1" "t1" shown);
    [vm_compute; reflexivity | vm_compute; lia | reflexivity | discriminate | exact Hget].
Defined.

(** ** An update that does not move the task *)




(** What lies above an entry is a directory. *)
Lemma is_dir_above (p q : path) (n : node) :
  q <> [] -> Fs.exists_ (p ++ q)%list n = true -> Fs.is_dir p n = true.
Proof.
  intros Hq. unfold Fs.exists_, Fs.is_dir. rewrite lookup_app.
  destruct (Fs.lookup p n) as [[k|es]|]; try discriminate; [|reflexivity].
  destruct q; [contradiction | discriminate].
Qed.

(** The shape of the location that the resolver returns. *)
Lemma locate_in_shape (fs : node) (pp : path) (task_id : pyval)
    (folders : list string) (loc : location) :
  locate_in fs pp task_id folders = Return (Some loc) ->
  In (current_folder loc) folders /\
  verified fs (current_file loc) task_id = true /\
  (loc = direct_candidate pp task_id (current_folder loc) \/
   exists d, loc = developer_candidate pp task_id (current_folder loc) d).
Proof.
  induction folders as [|folder folders IH]; simpl; [discriminate|].
  assert (Hrest : locate_in fs pp task_id folders = Return (Some loc) ->
                  (folder = current_folder loc \/ In (current_folder loc) folders) /\
                  verified fs (current_file loc) task_id = true /\
                  (loc = direct_candidate pp task_id (current_folder loc) \/
                   exists d, loc = developer_candidate pp task_id (current_folder loc) d)).
  { intros H. destruct (IH H) as (H1 & H2 & H3). auto. }
  destruct (Fs.exists_ (Fs.joinpath pp folder) fs); [|exact Hrest].
  destruct (Fs.exists_ (Fs.joinpath (Fs.joinpath pp folder) (task_filename task_id)) fs
            && verified fs (Fs.joinpath (Fs.joinpath pp folder) (task_filename task_id)) task_id)
    eqn:Hm.
  - intros [= <-]. apply andb_prop in Hm as [_ Hv]. simpl.
    split; [now left|]. split; [exact Hv|]. now left.
  - destruct (Fs.iterdir (Fs.joinpath pp folder) fs) as [devs|]; [|discriminate].
    destruct (scan_dev_folders fs (Fs.joinpath pp folder) task_id devs) as [[f d]|] eqn:Hs;
      [|exact Hrest].
    intros [= <-]. apply scan_dev_folders_sound in Hs as [-> Hv]. simpl.
    split; [now left|]. split; [exact Hv|]. right. now exists d.
Qed.



(** ** Where an update leaves the task *)

Lemma weight_two_le_count (f x y : string) (c1 c2 : node) (es : list (string * node)) :
  x <> y -> Fs.assoc x es = Some c1 -> Fs.assoc y es = Some c2 ->
  (weight f x c1 + weight f y c2 <= Fs.count_named f (Dir es))%nat.
Proof.
  intros Hxy. induction es as [|[z d] es IH]; [discriminate|].
  rewrite count_named_cons. cbn [Fs.assoc].
  destruct (String.eqb_spec z x) as [Hzx|Hzx]; destruct (String.eqb_spec z y) as [Hzy|Hzy].
  - elim Hxy. congruence.
  - intros [= ->] H2. subst z. pose proof (weight_le_count f y c2 es H2). lia.
  - intros H1 [= ->]. subst z. pose proof (weight_le_count f x c1 es H1). lia.
  - intros H1 H2. specialize (IH H1 H2). lia.
Qed.

Lemma weight_file_at (x : string) (q : path) (c : node) (k : contents) :
  Fs.lookup q c = Some (File k) -> (1 <= weight (last (x :: q) "") x c)%nat.
Proof.
  intros Hl. unfold weight. destruct q as [|y q].
  - cbn [Fs.lookup] in Hl. injection Hl as ->. cbn [last]. rewrite String.eqb_refl. lia.
  - assert (Hne : y :: q <> []) by discriminate.
    pose proof (count_named_file_at _ c k Hne Hl).
    change (last (x :: y :: q) "") with (last (y :: q) ""). lia.
Qed.

(** Two files of one name at different paths count twice. *)
Lemma count_named_two_files (f : string) (p : path) :
  forall q n k1 k2,
    p <> q ->
    Fs.lookup p n = Some (File k1) -> Fs.lookup q n = Some (File k2) ->
    last p "" = f -> last q "" = f ->
    (2 <= Fs.count_named f n)%nat.
Proof.
  induction p as [|x p IH]; intros q n k1 k2 Hne H1 H2 L1 L2.
  - cbn [Fs.lookup] in H1. injection H1 as ->.
    destruct q; [contradiction | discriminate].
  - destruct n as [j|es]; [discriminate|].
    destruct q as [|y q]; [discriminate|].
    cbn [Fs.lookup] in H1, H2.
    destruct (Fs.assoc x es) as [c1|] eqn:A1; [|discriminate].
    destruct (Fs.assoc y es) as [c2|] eqn:A2; [|discriminate].
    destruct (String.eqb_spec x y) as [->|Hxy].
    + rewrite A1 in A2. injection A2 as <-.
      assert (Hne' : p <> q) by congruence.
      pose proof (weight_le_count f y c1 es A1) as Hw.
      destruct p as [|a p].
      { cbn [Fs.lookup] in H1. injection H1 as ->.
        destruct q; [contradiction | discriminate]. }
      destruct q as [|b q].
      { cbn [Fs.lookup] in H2. injection H2 as ->. discriminate. }
      change (last (y :: a :: p) "") with (last (a :: p) "") in L1.
      change (last (y :: b :: q) "") with (last (b :: q) "") in L2.
      pose proof (IH (b :: q) c1 k1 k2 Hne' H1 H2 L1 L2).
      unfold weight in Hw. lia.
    + pose proof (weight_two_le_count f x y c1 c2 es Hxy A1 A2) as Hw.
      pose proof (weight_file_at x p c1 k1 H1) as W1.
      pose proof (weight_file_at y q c2 k2 H2) as W2.
      rewrite L1 in W1. rewrite L2 in W2. lia.
Qed.

(** In a project that holds at most one file of a name, two paths to
    files of that name are one path. *)
Lemma unique_file (fs : node) (pp q1 q2 : path) (f : string) (k1 k2 : contents) :
  (count_in fs pp f <= 1)%nat ->
  Fs.lookup (pp ++ q1)%list fs = Some (File k1) ->
  Fs.lookup (pp ++ q2)%list fs = Some (File k2) ->
  last q1 "" = f -> last q2 "" = f ->
  q1 = q2.
Proof.
  intros Hc H1 H2 L1 L2. rewrite lookup_app in H1, H2. unfold count_in in Hc.
  destruct (Fs.lookup pp fs) as [c|]; [|discriminate].
  destruct (list_eq_dec string_dec q1 q2) as [He|Hne]; [exact He|].
  pose proof (count_named_two_files f q1 q2 c k1 k2 Hne H1 H2 L1 L2). lia.
Qed.

(** The file that a successful update has written. *)
Lemma update_task_file_written_at (now : string) (fs fs' : node) (project_id : string)
    (task_data : dict) :
  let pp := Fs.joinpath [] project_id in
  update_task_file now fs project_id task_data = (fs', Return true) ->
  exists loc dev dir st,
    locate fs pp (get task_data "id") = Return (Some loc) /\
    get_or task_data "status" (get_or task_data "column" (PStr "backlog")) = PStr st /\
    resolve_developer task_data (current_developer loc) = Return dev /\
    new_folder pp (PStr st) dev = Return dir /\
    Fs.read_text (Fs.joinpath dir (task_filename (get task_data "id"))) fs'
    = Some (update_content now st task_data).
Proof.
  intros pp. unfold update_task_file. fold pp. intros H.
  destruct (negb (Fs.exists_ pp fs)); [discriminate|].
  destruct (negb (has_key task_data "id")); [discriminate|].
  destruct (locate fs pp (get task_data "id")) as [[loc|]|] eqn:Hloc; try discriminate.
  destruct (resolve_developer task_data (current_developer loc)) as [dev|] eqn:Hres;
    [|discriminate].
  destruct (get_or task_data "status" (get_or task_data "column" (PStr "backlog")))
    as [|st| |] eqn:Hst; try discriminate.
  destruct (new_folder pp (PStr st) dev) as [folder|] eqn:Hnf; [|discriminate].
  destruct (Fs.mkdir_p folder fs) as [fs1|]; [|discriminate].
  destruct (collision_abort fs1 _ (current_file loc) (get task_data "id"));
    [discriminate|].
  destruct (remove_old fs1 _ (current_file loc) (get task_data "id")) as [fs2|];
    [|discriminate].
  destruct (Fs.write_text _ _ fs2) as [fs3|] eqn:Hw; [|discriminate].
  injection H as <-.
  exists loc, dev, folder, st.
  split; [reflexivity|]. split; [reflexivity|]. split; [exact Hres|]. split; [exact Hnf|].
  exact (write_text_read _ _ _ _ Hw).
Qed.

Lemma find_exists {A : Type} (f : A -> bool) (l : list A) (x : A) :
  In x l -> f x = true -> exists y, find f l = Some y.
Proof.
  intros Hin Hf. destruct (find f l) as [y|] eqn:Hfind; [now exists y|].
  now rewrite (find_none f l Hfind x Hin) in Hf.
Qed.

Lemma str_in_spec (x : string) (l : list string) : str_in x l = true <-> In x l.
Proof.
  unfold str_in. rewrite existsb_exists. split.
  - intros (y & Hin & Hy). apply String.eqb_eq in Hy. now subst.
  - intros Hin. exists x. split; [exact Hin | apply String.eqb_refl].
Qed.

Lemma last_path_app (p q : path) (x : string) : last (p ++ q ++ [x])%list "" = x.
Proof. rewrite app_assoc. apply last_last. Qed.

(** The candidates of the resolver and their shape. *)
Lemma candidates_shape (fs : node) (pp : path) (task_id : pyval) (loc : location) :
  In loc (candidates fs pp task_id) ->
  exists folder,
    In folder status_folders /\
    (loc = direct_candidate pp task_id folder \/
     exists d, loc = developer_candidate pp task_id folder d).
Proof.
  unfold candidates. rewrite in_flat_map. intros (folder & Hin & Hloc).
  exists folder. split; [exact Hin|]. unfold folder_candidates in Hloc.
  destruct (Fs.exists_ (Fs.joinpath pp folder) fs); [|contradiction].
  destruct Hloc as [<-|Hloc]; [now left|].
  apply in_map_iff in Hloc as (d & <- & _). right. now exists d.
Qed.

(** The paths of the candidates, for plain names. *)
Lemma direct_candidate_file (pp : path) (t folder : string) :
  Fs.components folder = [folder] ->
  Fs.components (t ++ ".md") = [(t ++ ".md")%string] ->
  current_file (direct_candidate pp (PStr t) folder)
  = (pp ++ [folder; (t ++ ".md")%string])%list.
Proof.
  intros Hf Ht. unfold direct_candidate, task_filename, Fs.joinpath. cbn [current_file fmt].
  now rewrite Hf, Ht, <- app_assoc.
Qed.

Lemma developer_candidate_file (pp : path) (t folder d : string) :
  Fs.components folder = [folder] ->
  Fs.components (t ++ ".md") = [(t ++ ".md")%string] ->
  current_file (developer_candidate pp (PStr t) folder d)
  = (pp ++ [folder; d; (t ++ ".md")%string])%list.
Proof.
  intros Hf Ht. unfold developer_candidate, task_filename, Fs.joinpath. cbn [current_file fmt].
  now rewrite Hf, Ht, <- !app_assoc.
Qed.

Lemma place_after_update_file (pp : path) (t st : string) (dev : pyval) (dir : path) :
  In st status_folders ->
  Fs.components (t ++ ".md") = [(t ++ ".md")%string] ->
  match dev with
  | PStr d => d = "" \/ (Fs.components d = [d] /\ Str.startswith d "." = false)
  | _ => True
  end ->
  new_folder pp (PStr st) dev = Return dir ->
  Fs.joinpath dir (task_filename (PStr t)) = current_file (place_after_update pp (PStr t) st dev).
Proof.
  intros Hst Ht Hdev. unfold new_folder, place_after_update.
  apply str_in_spec in Hst as Hin. rewrite Hin, andb_true_r.
  pose proof (status_folder_component st Hst) as Hcomp.
  destruct (truthy dev) eqn:Htr.
  - destruct dev as [|d| |]; try discriminate. intros [= <-].
    destruct Hdev as [-> | [Hd _]]; [discriminate Htr|].
    cbv iota. cbn [fmt]. rewrite (developer_candidate_file pp t st d Hcomp Ht).
    unfold task_filename, Fs.joinpath. cbn [fmt].
    now rewrite Hcomp, Hd, Ht, <- !app_assoc.
  - intros [= <-]. reflexivity.
Qed.

(** X27.  After a successful update to one of the six status folders, in
    a project that held at most one file of the name of the task and whose
    status folders are directories, the resolver finds the task in the
    folder of the new status: in the subfolder of the developer that
    [resolve_developer] gave (a plain name that does not start with a dot),
    or directly in the status folder when it gave none. *)
Theorem update_task_file_moves_task :
  forall (now : string) (fs fs' : node) (project_id : string) (task_data : dict)
         (t st : string),
    let project_path := Fs.joinpath [] project_id in
    update_task_file now fs project_id task_data = (fs', Return true) ->
    get task_data "id" = PStr t ->
    Fs.components (t ++ ".md") = [(t ++ ".md")%string] ->
    get_or task_data "status" (get_or task_data "column" (PStr "backlog")) = PStr st ->
    In st status_folders ->
    (count_in fs project_path (t ++ ".md") <= 1)%nat ->
    (forall folder, In folder status_folders ->
       Fs.exists_ (Fs.joinpath project_path folder) fs' = true ->
       Fs.is_dir (Fs.joinpath project_path folder) fs' = true) ->
    exists loc dev,
      locate fs project_path (PStr t) = Return (Some loc) /\
      resolve_developer task_data (current_developer loc) = Return dev /\
      (match dev with
       | PStr d => d = "" \/ (Fs.components d = [d] /\ Str.startswith d "." = false)
       | _ => True
       end ->
       locate fs' project_path (PStr t)
       = Return (Some (place_after_update project_path (PStr t) st dev))).
Proof.
  intros now fs fs' project_id task_data t st pp Hrun Hid Ht Hst Hin Hcount Hdirs.
  destruct (update_task_file_written_at now fs fs' project_id task_data Hrun)
    as (loc & dev & dir & st' & Hloc & Hst' & Hresolve & Hdir & Hread).
  fold pp in Hloc, Hdir. rewrite Hst in Hst'. injection Hst' as <-.
  rewrite Hid in Hloc, Hread.
  exists loc, dev. split; [exact Hloc|]. split; [exact Hresolve|]. intros Hdev.
  rewrite (place_after_update_file pp t st dev dir Hin Ht Hdev Hdir) in Hread.
  set (place := place_after_update pp (PStr t) st dev) in *.
  pose proof (status_folder_component st Hin) as Hcomp.
  assert (Hcount' : (count_in fs' pp (t ++ ".md") <= 1)%nat).
  { pose proof (update_task_file_count now fs project_id task_data (t ++ ".md")) as Hc.
    cbv zeta in Hc. rewrite Hrun in Hc. cbn [fst] in Hc. fold pp in Hc. lia. }
  assert (Hplace : current_file place = (pp ++ [st; (t ++ ".md")%string])%list /\
                   truthy dev = false \/
                   exists d, current_file place = (pp ++ [st; d; (t ++ ".md")%string])%list /\
                             dev = PStr d /\ Str.startswith d "." = false /\
                             truthy dev = true).
  { unfold place, place_after_update. destruct (truthy dev) eqn:Htr.
    - right. destruct dev as [|d| |].
      + discriminate.
      + destruct Hdev as [-> | [_ Hdot]]; [discriminate Htr|].
        exists d. cbn [fmt]. now rewrite (developer_candidate_file pp t st d Hcomp Ht).
      + unfold new_folder in Hdir. apply str_in_spec in Hin. rewrite Htr, Hin in Hdir.
        discriminate.
      + unfold new_folder in Hdir. apply str_in_spec in Hin. rewrite Htr, Hin in Hdir.
        discriminate.
    - left. now rewrite (direct_candidate_file pp t st Hcomp Ht). }
  pose proof (read_text_lookup _ _ _ Hread) as Hfile.
  assert (Hmatch : is_match fs' (PStr t) place = true).
  { unfold is_match, Fs.exists_, verified. rewrite Hfile, Hread. cbn [andb].
    apply orb_true_iff. right.
    assert (Hname : Fs.name (current_file place) = t ++ ".md").
    { unfold Fs.name. destruct Hplace as [[-> _]|(d & -> & _)].
      - apply (last_path_app pp [st]).
      - apply (last_path_app pp [st; d]). }
    rewrite Hname. apply contains_append. }
  assert (Hcand : In place (candidates fs' pp (PStr t))).
  { unfold candidates. apply in_flat_map. exists st. split; [exact Hin|].
    unfold folder_candidates.
    assert (Hex : Fs.exists_ (Fs.joinpath pp st) fs' = true).
    { unfold Fs.joinpath. rewrite Hcomp.
      destruct Hplace as [[Hp _]|(d & Hp & _)]; rewrite Hp in Hfile.
      - apply (exists_prefix _ [(t ++ ".md")%string]). rewrite <- app_assoc.
        unfold Fs.exists_. cbn [app]. now rewrite Hfile.
      - apply (exists_prefix _ [d; (t ++ ".md")%string]). rewrite <- app_assoc.
        unfold Fs.exists_. cbn [app]. now rewrite Hfile. }
    rewrite Hex. unfold place, place_after_update.
    destruct Hplace as [[_ Htr]|(d & Hp & -> & Hdot & Htr)]; rewrite Htr; [now left|].
    right. apply in_map. cbn [fmt]. unfold developer_folders.
    rewrite Hp in Hfile. unfold Fs.joinpath. rewrite Hcomp.
    assert (Hdev_dir : Fs.is_dir ((pp ++ [st]) ++ [d])%list fs' = true).
    { apply (is_dir_above _ [(t ++ ".md")%string]); [discriminate|].
      rewrite <- !app_assoc. unfold Fs.exists_. cbn [app]. now rewrite Hfile. }
    assert (Hl : exists c, Fs.lookup ((pp ++ [st]) ++ [d])%list fs' = Some c).
    { unfold Fs.is_dir in Hdev_dir.
      destruct (Fs.lookup ((pp ++ [st]) ++ [d])%list fs'); [eauto | discriminate]. }
    destruct Hl as [c Hl].
    destruct (lookup_in_iterdir _ d fs' c Hl) as (items & -> & Hitem).
    apply filter_In. split; [exact Hitem|]. now rewrite Hdev_dir, Hdot. }
  unfold locate. rewrite (locate_in_first fs' pp (PStr t) status_folders Hdirs).
  fold (candidates fs' pp (PStr t)).
  destruct (find_exists _ _ _ Hcand Hmatch) as [found Hfound].
  rewrite Hfound. do 2 f_equal.
  apply find_some in Hfound as [Hin' Hm'].
  destruct (candidates_shape _ _ _ _ Hin') as (folder & Hfolder & Hshape).
  pose proof (status_folder_component folder Hfolder) as Hcomp'.
  unfold is_match in Hm'. apply andb_prop in Hm' as [_ Hv'].
  destruct (verified_inv _ _ _ Hv') as (text' & t' & Hread' & _).
  apply read_text_lookup in Hread'.
  assert (Hsame : forall q q', current_file found = (pp ++ q)%list ->
                               current_file place = (pp ++ q')%list ->
                               last q "" = t ++ ".md" -> last q' "" = t ++ ".md" ->
                               q = q').
  { intros q q' Hq Hq' L L'. rewrite Hq in Hread'. rewrite Hq' in Hfile.
    exact (unique_file fs' pp q q' _ _ _ Hcount' Hread' Hfile L L'). }
  unfold place, place_after_update in *.
  destruct Hshape as [->|[d' ->]];
    [pose proof (direct_candidate_file pp t folder Hcomp' Ht) as Hq
    |pose proof (developer_candidate_file pp t folder d' Hcomp' Ht) as Hq];
    (destruct Hplace as [[Hq' Htr]|(d & Hq' & -> & _ & Htr)]; rewrite Htr in *;
     pose proof (Hsame _ _ Hq Hq' eq_refl eq_refl) as He;
     try discriminate He; injection He as ->; try subst d'; reflexivity).
Qed.

Lemma update_task_file_moves_task_witness :
  locate scenario_progress ["proj-1"] (PStr "t1") =
  Return (Some (developer_candidate ["proj-1"] (PStr "t1") "progress" "dev-alice")).
Proof.
  destruct (update_task_file_moves_task time_2 scenario_backlog scenario_progress "proj-1"
              [ ("id", PStr "t1"); ("title", PStr "Fix bug");
                ("status", PStr "progress"); ("developer", PStr "dev-alice") ]
              "t1" "progress")
    as (loc & dev & Hloc & Hres & Hplace).
  - vm_compute. reflexivity.
  - reflexivity.
  - reflexivity.
  - reflexivity.
  - simpl. tauto.
  - vm_compute. lia.
  - intros folder [<-|[<-|[<-|[<-|[<-|[<-|[]]]]]]]; vm_compute; auto.
  - vm_compute in Hloc. injection Hloc as <-.
    vm_compute in Hres. injection Hres as <-.
    apply Hplace. right. split; reflexivity.
Defined.

(** X28.  A successful update to a status that is a plain name outside
    the six status folders writes the file to a folder of that name, where
    the resolver does not look: in a project that held at most one file of
    the name of the task, the resolver finds nothing afterwards. *)
Theorem update_to_unknown_status_hides_task :
  forall (now : string) (fs fs' : node) (project_id : string) (task_data : dict)
         (t st : string) (resolved : option location),
    let project_path := Fs.joinpath [] project_id in
    update_task_file now fs project_id task_data = (fs', Return true) ->
    get task_data "id" = PStr t ->
    Fs.components (t ++ ".md") = [(t ++ ".md")%string] ->
    get_or task_data "status" (get_or task_data "column" (PStr "backlog")) = PStr st ->
    Fs.components st = [st] ->
    ~ In st status_folders ->
    (count_in fs project_path (t ++ ".md") <= 1)%nat ->
    Fs.exists_ (project_path ++ [st; (t ++ ".md")%string])%list fs' = true /\
    (locate fs' project_path (PStr t) = Return resolved -> resolved = None).
Proof.
  intros now fs fs' project_id task_data t st resolved pp Hrun Hid Ht Hst Hcomp Hout Hcount.
  destruct (update_task_file_written_at now fs fs' project_id task_data Hrun)
    as (loc & dev & dir & st' & Hloc & Hst' & Hresolve & Hdir & Hread).
  fold pp in Hloc, Hdir. rewrite Hst in Hst'. injection Hst' as <-.
  rewrite Hid in Hread.
  assert (Hno : str_in st status_folders = false).
  { destruct (str_in st status_folders) eqn:Hs; [|reflexivity].
    apply str_in_spec in Hs. contradiction. }
  unfold new_folder in Hdir. rewrite Hno, andb_false_r in Hdir. injection Hdir as <-.
  unfold task_filename, Fs.joinpath in Hread. cbn [fmt] in Hread.
  rewrite Hcomp, Ht, <- app_assoc in Hread. cbn [app] in Hread.
  apply read_text_lookup in Hread.
  split; [unfold Fs.exists_; now rewrite Hread|].
  intros Hres. destruct resolved as [found|]; [exfalso | reflexivity].
  assert (Hcount' : (count_in fs' pp (t ++ ".md") <= 1)%nat).
  { pose proof (update_task_file_count now fs project_id task_data (t ++ ".md")) as Hc.
    cbv zeta in Hc. rewrite Hrun in Hc. cbn [fst] in Hc. fold pp in Hc. lia. }
  destruct (locate_in_shape _ _ _ _ _ Hres) as (Hfolder & Hv & Hshape).
  pose proof (status_folder_component _ Hfolder) as Hcomp'.
  destruct (verified_inv _ _ _ Hv) as (text' & t' & Hread' & _).
  apply read_text_lookup in Hread'.
  destruct Hshape as [Hs|[d Hs]]; rewrite Hs in Hread'.
  - rewrite (direct_candidate_file pp t _ Hcomp' Ht) in Hread'.
    pose proof (unique_file fs' pp _ _ _ _ _ Hcount' Hread' Hread eq_refl eq_refl) as He.
    injection He as He. rewrite He in Hfolder. contradiction.
  - rewrite (developer_candidate_file pp t _ d Hcomp' Ht) in Hread'.
    pose proof (unique_file fs' pp _ _ _ _ _ Hcount' Hread' Hread eq_refl eq_refl) as He.
    discriminate He.
Qed.

Lemma update_to_unknown_status_hides_task_witness :
  Fs.exists_ ["proj-1"; "archive"; "t1.md"] scenario_archived = true /\
  locate scenario_archived ["proj-1"] (PStr "t1") = Return None.
Proof.
  destruct (locate scenario_archived ["proj-1"] (PStr "t1")) as [resolved|] eqn:Hres;
    [|vm_compute in Hres; discriminate].
  destruct (update_to_unknown_status_hides_task time_2 scenario_backlog scenario_archived
              "proj-1" archive_update "t1" "archive" resolved) as [Hex Hnone].
  - vm_compute. reflexivity.
  - reflexivity.
  - reflexivity.
  - reflexivity.
  - reflexivity.
  - simpl. intuition discriminate.
  - vm_compute. lia.
  - split; [exact Hex | f_equal; exact (Hnone Hres)].
Defined.

(** ** The codec, line by line *)

Lemma lstrip_by_head (p : ascii -> bool) (s : string) :
  head_is p s = false -> Str.lstrip_by p s = s.
Proof. destruct s as [|c s]; [reflexivity|]. cbn. now intros ->. Qed.

Lemma rstrip_by_last (p : ascii -> bool) (s : string) :
  last_is p s = false -> Str.rstrip_by p s = s.
Proof.
  induction s as [|c s IH]; [reflexivity|]. cbn [last_is Str.rstrip_by].
  destruct s as [|d s].
  - intros ->. reflexivity.
  - intros H. now rewrite (IH H).
Qed.

Lemma strip_by_edge_free (p : ascii -> bool) (s : string) :
  edge_free p s = true -> Str.strip_by p s = s.
Proof.
  unfold edge_free, Str.strip_by. intros H. apply andb_prop in H as [Hh Hl].
  apply negb_true_iff in Hh, Hl. now rewrite (lstrip_by_head p s Hh), (rstrip_by_last p s Hl).
Qed.

Lemma last_is_app (p : ascii -> bool) (a b : string) :
  b <> "" -> last_is p (a ++ b) = last_is p b.
Proof.
  intros Hb. induction a as [|c a IH]; [reflexivity|].
  cbn [append last_is]. destruct (a ++ b) eqn:Hab; [|exact IH].
  destruct a; [simpl in Hab; contradiction | discriminate].
Qed.

Lemma head_is_app (p : ascii -> bool) (a b : string) :
  a <> "" -> head_is p (a ++ b) = head_is p a.
Proof. destruct a; [contradiction | reflexivity]. Qed.

Lemma edge_free_weaken (p q : ascii -> bool) (s : string) :
  (forall c, q c = true -> p c = true) ->
  edge_free p s = true -> edge_free q s = true.
Proof.
  intros Hpq. unfold edge_free. intros H. apply andb_prop in H as [Hh Hl].
  apply negb_true_iff in Hh, Hl. apply andb_true_intro. split; apply negb_true_iff.
  - destruct s as [|c s]; [reflexivity|]. cbn in *.
    destruct (q c) eqn:Hq; [|reflexivity]. now rewrite (Hpq c Hq) in Hh.
  - clear Hh. induction s as [|c s IH]; [reflexivity|]. cbn [last_is] in *.
    destruct s as [|d s].
    + destruct (q c) eqn:Hq; [|reflexivity]. now rewrite (Hpq c Hq) in Hl.
    + exact (IH Hl).
Qed.

Lemma rstrip_by_app_char (p : ascii -> bool) (s : string) (c : ascii) :
  p c = true -> Str.rstrip_by p (s ++ String c "") = Str.rstrip_by p s.
Proof.
  intros Hc. induction s as [|a s IH]; simpl.
  - now rewrite Hc.
  - now rewrite IH.
Qed.

Lemma all_chars_app (p : ascii -> bool) (a b : string) :
  all_chars p (a ++ b) = all_chars p a && all_chars p b.
Proof.
  induction a as [|c a IH]; [reflexivity|]. cbn. now rewrite IH, andb_assoc.
Qed.

Lemma all_chars_imp (p q : ascii -> bool) (s : string) :
  (forall c, p c = true -> q c = true) -> all_chars p s = true -> all_chars q s = true.
Proof.
  intros Hpq. induction s as [|c s IH]; [reflexivity|]. cbn.
  intros H. apply andb_prop in H as [Hc Hs]. now rewrite (Hpq c Hc), (IH Hs).
Qed.

(** A text without the character [c] is one piece for [split]. *)
Lemma split_char_none (c : ascii) (s : string) :
  all_chars (fun a => negb (a =? c)%char) s = true -> Str.split_char c s = [s].
Proof.
  induction s as [|a s IH]; [reflexivity|]. cbn.
  intros H. apply andb_prop in H as [Ha Hs]. apply negb_true_iff in Ha.
  now rewrite Ha, (IH Hs).
Qed.

Lemma split_once_colon (k t : string) :
  all_chars (fun a => negb (a =? ":")%char) k = true ->
  Str.split_once ":" (k ++ ":" ++ t) = Some (k, t).
Proof.
  induction k as [|a k IH]; intros H.
  - cbn. now destruct t.
  - cbn [all_chars] in H. apply andb_prop in H as [Ha Hk]. apply negb_true_iff in Ha.
    change (String a k ++ ":" ++ t) with (String a (k ++ ":" ++ t)).
    cbn [Str.split_once String.prefix].
    destruct (ascii_dec ":" a) as [<-|_]; [discriminate Ha|].
    now rewrite (IH Hk).
Qed.

Lemma contains_colon (k t : string) : Str.contains ":" (k ++ ":" ++ t) = true.
Proof.
  induction k as [|a k IH].
  - cbn. now destruct t.
  - change (String a k ++ ":" ++ t) with (String a (k ++ ":" ++ t)).
    cbn [Str.contains]. rewrite IH. apply orb_true_r.
Qed.

Lemma key_ok_inv (k : string) :
  key_ok k = true ->
  k <> "" /\
  all_chars (fun a => negb (a =? ":")%char) k = true /\
  all_chars (fun a => negb (a =? Str.newline)%char) k = true /\
  Str.strip k = k /\
  head_is Str.is_space k = false.
Proof.
  unfold key_ok. intros H. apply andb_prop in H as [H He]. apply andb_prop in H as [Hn Ha].
  split; [now destruct k|].
  split.
  { revert Ha. apply all_chars_imp. intros c Hc. now apply andb_prop in Hc as [_ Hc]. }
  split.
  { revert Ha. apply all_chars_imp. intros c Hc. apply andb_prop in Hc as [Hc _].
    now apply andb_prop in Hc as [_ Hc]. }
  split; [exact (strip_by_edge_free _ _ He)|].
  unfold edge_free in He. apply andb_prop in He as [Hh _]. now apply negb_true_iff in Hh.
Qed.

Lemma rstrip_key_colon (k : string) :
  Str.rstrip_by Str.is_space (k ++ ":") = k ++ ":".
Proof.
  apply rstrip_by_last. now rewrite last_is_app by discriminate.
Qed.

(** The parser reads a line [key:tail] as the key with the tail stripped
    of blanks and then of quotes, whenever the blanks at the end of the
    tail are what the line loses when it is stripped. *)
Lemma parse_line_key (m : metadata) (k t : string) :
  key_ok k = true ->
  Str.rstrip_by Str.is_space (k ++ ":" ++ t) = k ++ ":" ++ Str.rstrip_by Str.is_space t ->
  Str.strip (Str.rstrip_by Str.is_space t) = Str.strip t ->
  parse_line m (k ++ ":" ++ t) = meta_set m k (Str.strip_quotes (Str.strip t)).
Proof.
  intros Hk Hr Hs. destruct (key_ok_inv k Hk) as (Hne & Hcolon & _ & Hstrip & Hhead).
  unfold parse_line.
  assert (Hline : Str.strip (k ++ ":" ++ t) = k ++ ":" ++ Str.rstrip_by Str.is_space t).
  { unfold Str.strip, Str.strip_by. rewrite lstrip_by_head; [exact Hr|].
    now rewrite head_is_app. }
  rewrite Hline, contains_colon, (split_once_colon k _ Hcolon), Hstrip, Hs. reflexivity.
Qed.

Lemma rstrip_tail (k t : string) :
  Str.rstrip_by Str.is_space (k ++ ":" ++ t) = k ++ ":" ++ Str.rstrip_by Str.is_space t.
Proof.
  destruct (Str.rstrip_by Str.is_space t) as [|c r] eqn:Ht.
  - (* the tail is blank *)
    assert (H : forall a, Str.rstrip_by Str.is_space (a ++ t) = Str.rstrip_by Str.is_space a).
    { intros a. induction a as [|x a IH]; [exact Ht|].
      cbn [append Str.rstrip_by]. now rewrite IH. }
    change (k ++ ":" ++ t) with (k ++ String ":" t).
    replace (k ++ String ":" t) with ((k ++ ":") ++ t)
      by (rewrite append_assoc; reflexivity).
    rewrite H. apply rstrip_key_colon.
  - change (k ++ ":" ++ t) with (k ++ String ":" t).
    replace (k ++ String ":" t) with ((k ++ ":") ++ t)
      by (rewrite append_assoc; reflexivity).
    rewrite rstrip_app_keep by (rewrite Ht; discriminate).
    rewrite Ht, append_assoc. reflexivity.
Qed.

(** The text shown for the value of an entry. *)
Lemma shown_value (e : entry) :
  value_ok (e_value e) = true ->
  let w := if e_quoted e then in_quotes (e_value e) else e_value e in
  edge_free Str.is_space w = true /\ Str.strip_quotes w = e_value e.
Proof.
  intros Hv w. unfold value_ok in Hv. apply andb_prop in Hv as [_ He].
  assert (Hs : edge_free Str.is_space (e_value e) = true).
  { revert He. apply edge_free_weaken. intros c Hc. now rewrite Hc. }
  assert (Hq : edge_free Str.is_quote (e_value e) = true).
  { revert He. apply edge_free_weaken. intros c Hc. rewrite Hc. apply orb_true_r. }
  subst w. destruct (e_quoted e).
  - split.
    + unfold edge_free, in_quotes. cbn [append head_is].
      change (String "'" (e_value e ++ "'")) with ("'" ++ (e_value e ++ "'")).
      rewrite <- append_assoc, last_is_app by discriminate. reflexivity.
    + unfold Str.strip_quotes, Str.strip_by, in_quotes. cbn [append Str.lstrip_by].
      change (Str.is_quote "'") with true. cbv iota.
      destruct (e_value e) as [|c v] eqn:Hval; [reflexivity|].
      unfold edge_free in Hq. apply andb_prop in Hq as [Hh Hl].
      apply negb_true_iff in Hh, Hl.
      rewrite lstrip_by_head by (rewrite head_is_app by discriminate; exact Hh).
      rewrite rstrip_by_app_char by reflexivity. now apply rstrip_by_last.
  - split; [exact Hs | exact (strip_by_edge_free _ _ Hq)].
Qed.

Lemma parse_line_strip_eq (m : metadata) (a b : string) :
  Str.strip a = Str.strip b -> parse_line m a = parse_line m b.
Proof. intros H. unfold parse_line. now rewrite H. Qed.

Lemma entry_line_tail (e : entry) :
  entry_line e =
  e_key e ++ ":" ++ (" " ++ (if e_quoted e then in_quotes (e_value e) else e_value e)).
Proof. reflexivity. Qed.

(** The parser reads the line of an entry as its key and its value. *)
Lemma parse_line_entry (m : metadata) (e : entry) :
  entry_ok e = true ->
  parse_line m (entry_line e) = meta_set m (e_key e) (e_value e).
Proof.
  intros He. unfold entry_ok in He. apply andb_prop in He as [Hk Hv].
  destruct (shown_value e Hv) as [Hedge Hquotes]. cbv zeta in Hedge, Hquotes.
  rewrite entry_line_tail.
  set (w := if e_quoted e then in_quotes (e_value e) else e_value e) in *.
  rewrite (parse_line_key m (e_key e) (" " ++ w) Hk (rstrip_tail _ _)).
  - change (" " ++ w) with (String " " w). rewrite strip_cons_space by reflexivity.
    fold (Str.strip_by Str.is_space w). unfold Str.strip.
    now rewrite (strip_by_edge_free _ _ Hedge), Hquotes.
  - destruct w as [|c w'] eqn:Hw; [reflexivity|].
    rewrite rstrip_by_last; [reflexivity|].
    change (" " ++ String c w') with (" " ++ (String c w')).
    rewrite last_is_app by discriminate.
    unfold edge_free in Hedge. apply andb_prop in Hedge as [_ Hl].
    now apply negb_true_iff in Hl.
Qed.

Lemma entry_line_head (e : entry) :
  entry_ok e = true ->
  entry_line e <> "" /\ head_is Str.is_space (entry_line e) = false.
Proof.
  intros He. unfold entry_ok in He. apply andb_prop in He as [Hk _].
  destruct (key_ok_inv _ Hk) as (Hne & _ & _ & _ & Hhead).
  unfold entry_line. split.
  - destruct (e_key e); [contradiction | discriminate].
  - now rewrite head_is_app.
Qed.

(** Stripping the blanks at the end of the line of an entry changes
    nothing for the parser. *)
Lemma rstrip_entry_line (m : metadata) (e : entry) :
  entry_ok e = true ->
  let l := Str.rstrip_by Str.is_space (entry_line e) in
  l <> "" /\ head_is Str.is_space l = false /\
  parse_line m l = meta_set m (e_key e) (e_value e).
Proof.
  intros He l. destruct (entry_line_head e He) as [Hne Hhead].
  pose proof He as He'. unfold entry_ok in He'. apply andb_prop in He' as [Hk _].
  destruct (key_ok_inv _ Hk) as (Hkne & _ & _ & _ & Hkhead).
  assert (Hl : l = e_key e ++ ":" ++ Str.rstrip_by Str.is_space
                 (" " ++ (if e_quoted e then in_quotes (e_value e) else e_value e))).
  { unfold l. rewrite entry_line_tail. apply rstrip_tail. }
  assert (Hlh : head_is Str.is_space l = false)
    by (rewrite Hl, head_is_app by exact Hkne; exact Hkhead).
  split; [rewrite Hl; destruct (e_key e); [contradiction | discriminate]|].
  split; [exact Hlh|].
  rewrite <- (parse_line_entry m e He). apply parse_line_strip_eq.
  unfold Str.strip, Str.strip_by.
  rewrite (lstrip_by_head _ _ Hlh), (lstrip_by_head _ _ Hhead).
  unfold l. apply rstrip_idem.
Qed.

Lemma join_cons (sep x : string) (xs : list string) :
  xs <> [] -> Str.join sep (x :: xs) = x ++ sep ++ Str.join sep xs.
Proof. destruct xs; [contradiction | reflexivity]. Qed.

Lemma join_last_nonempty (sep : string) (ls : list string) (l : string) :
  l <> "" -> Str.join sep (ls ++ [l])%list <> "".
Proof.
  intros Hl. induction ls as [|a ls IH]; [exact Hl|].
  cbn [app]. rewrite join_cons by (now destruct ls).
  intros H. destruct a; [|discriminate].
  destruct sep; [|discriminate]. cbn in H. contradiction.
Qed.

Lemma rstrip_join_last (sep : string) (ls : list string) (l : string) :
  Str.rstrip_by Str.is_space l <> "" ->
  Str.rstrip_by Str.is_space (Str.join sep (ls ++ [l])%list)
  = Str.join sep (ls ++ [Str.rstrip_by Str.is_space l])%list.
Proof.
  intros Hl. induction ls as [|a ls IH]; [reflexivity|].
  cbn [app]. rewrite !join_cons by (now destruct ls).
  rewrite <- !append_assoc.
  rewrite rstrip_app_keep by (rewrite IH; now apply join_last_nonempty).
  now rewrite IH.
Qed.

Lemma split_char_join (c : ascii) (ls : list string) :
  ls <> [] ->
  (forall l, In l ls -> all_chars (fun a => negb (a =? c)%char) l = true) ->
  Str.split_char c (Str.join (String c "") ls) = ls.
Proof.
  induction ls as [|a ls IH]; [contradiction|]. intros _ Hall.
  destruct ls as [|b ls].
  - cbn. apply split_char_none, Hall. now left.
  - rewrite join_cons by discriminate.
    change (a ++ String c "" ++ Str.join (String c "") (b :: ls))
      with (a ++ String c (Str.join (String c "") (b :: ls))).
    rewrite split_char_app, (split_char_none c a) by (apply Hall; now left).
    rewrite IH; [reflexivity | discriminate |].
    intros l Hl. apply Hall. now right.
Qed.

Lemma all_chars_rstrip (p q : ascii -> bool) (s : string) :
  all_chars p s = true -> all_chars p (Str.rstrip_by q s) = true.
Proof.
  induction s as [|c s IH]; [reflexivity|]. cbn [all_chars Str.rstrip_by].
  intros H. apply andb_prop in H as [Hc Hs]. specialize (IH Hs).
  destruct (Str.rstrip_by q s) as [|d r].
  - destruct (q c); [reflexivity|]. cbn. now rewrite Hc.
  - cbn [all_chars] in IH |- *. now rewrite Hc, IH.
Qed.

Lemma entry_line_one_line (e : entry) :
  entry_ok e = true ->
  all_chars (fun a => negb (a =? Str.newline)%char) (entry_line e) = true.
Proof.
  intros He. unfold entry_ok in He. apply andb_prop in He as [Hk Hv].
  destruct (key_ok_inv _ Hk) as (_ & _ & Hknl & _).
  unfold value_ok in Hv. apply andb_prop in Hv as [Hv _].
  assert (Hvnl : all_chars (fun a => negb (a =? Str.newline)%char) (e_value e) = true).
  { revert Hv. apply all_chars_imp. intros c Hc. now apply andb_prop in Hc as [_ Hc]. }
  unfold entry_line, in_quotes. rewrite !all_chars_app, Hknl.
  destruct (e_quoted e); rewrite ?all_chars_app, Hvnl; reflexivity.
Qed.

Lemma meta_get_set (m : metadata) (k v k' : string) :
  meta_get (meta_set m k v) k' = if (k =? k')%string then Some v else meta_get m k'.
Proof.
  induction m as [|[k0 v0] m IH]; cbn.
  - reflexivity.
  - destruct (String.eqb_spec k0 k) as [->|Hk]; cbn.
    + destruct (k =? k'); reflexivity.
    + rewrite IH. destruct (String.eqb_spec k0 k') as [->|Hk'].
      * destruct (String.eqb_spec k k') as [->|_]; [contradiction | reflexivity].
      * reflexivity.
Qed.

Lemma meta_get_entries (es : list entry) :
  forall m k,
    meta_get (fold_left set_entry_of es m) k =
    match entry_get es k with Some v => Some v | None => meta_get m k end.
Proof.
  induction es as [|e es IH]; intros m k; [reflexivity|].
  cbn [fold_left entry_get]. rewrite IH. unfold set_entry_of.
  rewrite meta_get_set. destruct (entry_get es k); [reflexivity|].
  now destruct (e_key e =? k).
Qed.

Lemma fold_parse_lines (es : list entry) :
  forallb entry_ok es = true ->
  forall m, fold_left parse_line (map entry_line es) m = fold_left set_entry_of es m.
Proof.
  induction es as [|e es IH]; intros Hok m; [reflexivity|].
  cbn [forallb] in Hok. apply andb_prop in Hok as [He Hes].
  cbn [map fold_left]. rewrite (parse_line_entry m e He). now apply IH.
Qed.

Lemma head_is_join (p : ascii -> bool) (sep x : string) (xs : list string) :
  x <> "" -> head_is p (Str.join sep (x :: xs)) = head_is p x.
Proof.
  intros Hx. destruct xs as [|y ys]; [reflexivity|].
  rewrite join_cons by discriminate. now apply head_is_app.
Qed.

(** The parser reads the frontmatter text of the entries as the entries. *)
Lemma parse_entries_text (es : list entry) (k : string) :
  forallb entry_ok es = true ->
  meta_get (parse_metadata (Str.strip (entries_text es))) k = entry_get es k.
Proof.
  intros Hok. destruct es as [|e0 es'] eqn:Hes; [reflexivity|].
  assert (Hne : es <> []) by (rewrite Hes; discriminate).
  rewrite <- Hes in *.
  assert (Hlstrip : Str.lstrip_by Str.is_space (entries_text es) = entries_text es).
  { apply lstrip_by_head. rewrite Hes in Hok |- *. cbn [forallb] in Hok.
    apply andb_prop in Hok as [He0 _]. destruct (entry_line_head e0 He0) as [H0 Hh].
    unfold entries_text. cbn [map]. now rewrite head_is_join. }
  destruct (exists_last Hne) as (es0 & e & Hlast).
  rewrite Hlast in Hok. rewrite forallb_app in Hok. apply andb_prop in Hok as [Hok0 He].
  cbn [forallb] in He. rewrite andb_true_r in He.
  destruct (rstrip_entry_line [] e He) as (Hlne & _ & _). cbv zeta in Hlne.
  assert (Hstrip : Str.strip (entries_text es) =
                   Str.join (String Str.newline "")
                     (map entry_line es0 ++ [Str.rstrip_by Str.is_space (entry_line e)])%list).
  { unfold Str.strip, Str.strip_by. rewrite Hlstrip. unfold entries_text.
    rewrite Hlast, map_app. cbn [map]. now apply rstrip_join_last. }
  rewrite Hstrip. unfold parse_metadata.
  assert (Hnz : Str.nonempty
                  (Str.join (String Str.newline "")
                     (map entry_line es0 ++ [Str.rstrip_by Str.is_space (entry_line e)])%list)
                = true).
  { pose proof (join_last_nonempty (String Str.newline "") (map entry_line es0) _ Hlne) as H.
    destruct (Str.join _ _); [contradiction | reflexivity]. }
  rewrite Hnz, split_char_join.
  - rewrite fold_left_app. cbn [fold_left].
    destruct (rstrip_entry_line (fold_left parse_line (map entry_line es0) []) e He)
      as (_ & _ & Hparse).
    cbv zeta in Hparse. rewrite Hparse, (fold_parse_lines es0 Hok0).
    change (meta_set (fold_left set_entry_of es0 []) (e_key e) (e_value e))
      with (fold_left set_entry_of [e] (fold_left set_entry_of es0 [])).
    rewrite <- fold_left_app, <- Hlast, meta_get_entries.
    now destruct (entry_get es k).
  - now destruct (map entry_line es0).
  - intros l Hl. apply in_app_or in Hl as [Hl|[<-|[]]].
    + apply in_map_iff in Hl as (e1 & <- & He1). apply entry_line_one_line.
      rewrite forallb_forall in Hok0. now apply Hok0.
    + apply all_chars_rstrip, entry_line_one_line, He.
Qed.

Lemma meta_or_entries (m : metadata) (es : list entry) (k d : string) :
  (forall k, meta_get m k = entry_get es k) -> meta_or m k d = entry_or es k d.
Proof. intros H. unfold meta_or, entry_or. now rewrite H. Qed.

Lemma dump_line_written (k v : string) : dump_line k (PStr v) = written_line k v.
Proof.
  unfold dump_line, needs_quotes, written_line, entry_line, in_quotes. cbn [e_key e_quoted e_value].
  destruct (Str.contains _ v || Str.contains ":" v || Str.contains "#" v); reflexivity.
Qed.

(** The serializer writes the record read from the entries as the expected
    lines. *)
Lemma dump_reserialized (now task_id : string) (m : metadata) (es : list entry) :
  (forall k, meta_get m k = entry_get es k) ->
  simple_yaml_dump (reserialized_frontmatter now task_id m)
  = Str.join (String Str.newline "") (expected_lines now task_id es).
Proof.
  intros Hm. unfold reserialized_frontmatter, expected_lines, simple_yaml_dump, meta_val.
  cbv zeta. rewrite !(meta_or_entries m es _ _ Hm), Hm.
  f_equal.
  destruct (entry_get es "developer") as [d|];
    cbn [filter not_none snd fst map app]; rewrite !dump_line_written;
    (destruct ((Str.lower (entry_or es "blocked" "false") =? "true")
               || (Str.lower (entry_or es "blocked" "false") =? "yes")
               || (Str.lower (entry_or es "blocked" "false") =? "1"));
     reflexivity).
Qed.

Lemma entry_get_in (es : list entry) (k v : string) :
  entry_get es k = Some v -> exists e, In e es /\ e_key e = k /\ e_value e = v.
Proof.
  induction es as [|e es IH]; [discriminate|]. cbn [entry_get].
  destruct (entry_get es k) as [v'|].
  - intros [= ->]. destruct (IH eq_refl) as (e' & Hin & Hk & Hv).
    exists e'. split; [now right | now split].
  - destruct (String.eqb_spec (e_key e) k) as [Hk|_]; [|discriminate].
    intros [= Hv]. exists e. split; [now left | now split].
Qed.

(** C5, as the code has it.
    Take a task file of the standard shape: a frontmatter with one line
    [key: value] per entry, the value bare or in single quotes, keys and
    values on one line, of ASCII characters without carriage return and
    without blanks around them, no delimiter in the frontmatter, and a body
    of such characters.  Serializing the record obtained by parsing it
    writes the body of the file stripped of surrounding whitespace (the
    body itself when it has none) and the frontmatter lines
    [expected_lines]: [title], [estimate], [spent_time], [priority],
    [developer] when the file gives one, [status], [created],
    [created_at], [started_at], [done_at], [blocked], [blocked_at],
    [blocked_reason] and [unblocked_at], in this order.  Every key of the
    codec that the file gives with a non-empty value is written with that
    value, in single quotes when it holds a colon or a hash sign, and the
    parser reads the written line as that key and value; a key the file
    lacks is written with its default ([0h] for both times, [medium],
    [backlog]), [blocked] is written as [True] or [False], and no other
    key is written. *)
Theorem codec_round_trip :
  forall (now : string) (file_path : path) (es : list entry) (body : string),
    forallb entry_ok es = true ->
    Str.contains "---" (entries_text es) = false ->
    portable body = true ->
    portable (Fs.name file_path) = true ->
    let content := file_text (entries_text es) body in
    let written := expected_lines now (stem (Fs.name file_path)) es in
    let frontmatter_text := Str.join (String Str.newline "") written in
    reserialize now file_path content = file_text frontmatter_text (Str.strip body) /\
    (Str.strip body = body ->
     reserialize now file_path content = file_text frontmatter_text body) /\
    (forall k v, In k codec_keys -> entry_get es k = Some v -> Str.nonempty v = true ->
                 In (written_line k v) written /\
                 parse_line [] (written_line k v) = [(k, v)]) /\
    (entry_get es "estimate" = None -> In "estimate: 0h" written) /\
    (entry_get es "spent_time" = None -> In "spent_time: 0h" written) /\
    (entry_get es "priority" = None -> In "priority: medium" written) /\
    (entry_get es "status" = None -> In "status: backlog" written) /\
    (In "blocked: True" written \/ In "blocked: False" written) /\
    (forall line, In line written ->
       exists k, In k ("blocked" :: codec_keys) /\ Str.startswith line (k ++ ": ") = true).
Proof.
  intros now file_path es body Hok Hdelim _ _ content written frontmatter_text.
  destruct (reserialize_record now file_path (entries_text es) body Hdelim)
    as (Hser & _ & Hfront & _).
  cbv zeta in Hser, Hfront. fold content in Hser, Hfront.
  assert (Htext : reserialize now file_path content =
                  file_text frontmatter_text (Str.strip body)).
  { rewrite Hser, Hfront. f_equal. apply dump_reserialized.
    intros k. now apply parse_entries_text. }
  split; [exact Htext|].
  split; [intros Hb; rewrite Htext, Hb; reflexivity|].
  split.
  { intros k v Hk Hget Hv. split.
    - unfold written, expected_lines, entry_or. cbv zeta.
      unfold codec_keys in Hk. cbn [In] in Hk.
      repeat (destruct Hk as [<-|Hk];
              [rewrite ?Hget; cbn [Str.nonempty]; rewrite ?Hv, ?andb_false_r;
               apply in_or_app; cbn [In];
               try (left; tauto);
               right; apply in_or_app; cbn [In]; tauto |]).
      destruct Hk.
    - destruct (entry_get_in es k v Hget) as (e & Hin & Hke & Hve).
      rewrite forallb_forall in Hok. specialize (Hok e Hin).
      unfold entry_ok in Hok. rewrite Hke, Hve in Hok.
      unfold written_line.
      rewrite parse_line_entry by exact Hok. reflexivity. }
  unfold written, expected_lines, entry_or. cbv zeta.
  split; [intros ->; apply in_or_app; left; cbn; tauto|].
  split; [intros ->; apply in_or_app; left; cbn; tauto|].
  split; [intros ->; apply in_or_app; left; cbn; tauto|].
  split; [intros ->; apply in_or_app; right; apply in_or_app; right; cbn; tauto|].
  split.
  { destruct ((Str.lower _ =? "true") || (Str.lower _ =? "yes") || (Str.lower _ =? "1"));
      [left | right]; apply in_or_app; right; apply in_or_app; right; cbn [In]; tauto. }
  intros line Hline.
  assert (Hw : forall k v, Str.startswith (written_line k v) (k ++ ": ") = true).
  { intros k v. unfold written_line, entry_line, Str.startswith. cbn [e_key].
    rewrite <- append_assoc. apply prefix_append. }
  apply in_app_or in Hline as [Hline|Hline];
    [|apply in_app_or in Hline as [Hline|Hline]].
  - cbn [In] in Hline.
    repeat (destruct Hline as [<-|Hline]; [eexists; split; [|apply Hw]; cbn; tauto|]).
    destruct Hline.
  - destruct (entry_get es "developer"); cbn [In] in Hline;
      [destruct Hline as [<-|[]]; eexists; split; [|apply Hw]; cbn; tauto
      |destruct Hline].
  - cbn [In] in Hline.
    repeat (destruct Hline as [<-|Hline];
            [first [ eexists; split; [|apply Hw]; cbn; tauto
                   | exists "blocked"; split; [now left|];
                     destruct ((Str.lower _ =? "true") || (Str.lower _ =? "yes")
                               || (Str.lower _ =? "1")); reflexivity ]|]).
    destruct Hline.
Qed.

Lemma codec_round_trip_witness :
  reserialize time_3 ["proj-1"; "review"; "t1.md"] (file_text (entries_text review_entries) "Body")
  = file_text
      (Str.join (String Str.newline "") (expected_lines time_3 "t1" review_entries))
      "Body" /\
  In "title: Fix bug" (expected_lines time_3 "t1" review_entries) /\
  In "started_at: '2024-05-02T11:30:00'" (expected_lines time_3 "t1" review_entries).
Proof.
  destruct (codec_round_trip time_3 ["proj-1"; "review"; "t1.md"] review_entries "Body"
              eq_refl eq_refl eq_refl eq_refl) as (_ & Hbody & Hkeys & _).
  split; [exact (Hbody eq_refl)|].
  split.
  - exact (proj1 (Hkeys "title" "Fix bug" ltac:(simpl; tauto) eq_refl eq_refl)).
  - exact (proj1 (Hkeys "started_at" time_2 ltac:(simpl; tauto) eq_refl eq_refl)).
Defined.
